(** * Water-box molecular dynamics notebook: a shallow embedding

    The program is the notebook [2_water_simulation.ipynb]: a straight-line
    script of eight code cells that drives two external libraries, OpenMM (the
    MD engine) and MDAnalysis (trajectory analysis), and matplotlib.

    The notebook's own code is embedded cell by cell, statement by statement
    (Module [Notebook]).  The libraries are not part of the repository; what
    the notebook relies on is embedded in two layers:

    - the _interface_ of each library call the notebook makes (argument
      handling, object construction, reporter scheduling, shape checks,
      histogram binning): executable definitions in Modules [OpenMM],
      [MDAnalysis] and [Pyplot], written after the libraries' documented
      signatures and behaviour;
    - the _numerics_ (force evaluation, Langevin dynamics, the barostat's
      Monte Carlo move, energy minimisation, periodic wrapping, minimum-image
      distances): fields of the records [OpenMM.Engine] and
      [MDAnalysis.Numerics], about which nothing is assumed except where a
      theorem says so.

    Python floats are represented by rationals ([Q]); rounding is not
    modelled.  Python exceptions are values of [exn]; every library call lives
    in the monad [M] of state and exceptions. *)

From stdpp Require Import base option list strings gmap.
From Stdlib Require Import ZArith QArith Lia.

Local Open Scope string_scope.
Local Open Scope Z_scope.
Local Open Scope list_scope.

(** ** Python values, exceptions and the monad of the interpreter *)

(** Keyword arguments are passed as a Python dict from names to values. *)
Inductive pyval : Type :=
| PNone
| PBool (b : bool)
| PInt (z : Z)
| PFloat (q : Q)
| PStr (s : string)
| PPair (a b : pyval).

Abbreviation kwargs := (gmap string pyval).

(** The exception classes that the modelled calls raise. *)
Inductive exn : Type :=
| OpenMMException (msg : string)
| FileNotFoundError (path : string)
| ValueError (msg : string)
| TypeError (msg : string)
| IndexError (msg : string)
| AttributeError (msg : string)
| SelectionError (msg : string).

(** How a computation ends: with a value or with an exception, and in both
    cases with the surroundings as it left them. *)
Inductive outcome (A S : Type) : Type :=
| Ok (a : A) (s : S)
| Raise (e : exn) (s : S).
Arguments Ok {A S} a s.
Arguments Raise {A S} e s.

Definition is_OpenMMException (e : exn) : bool :=
  match e with OpenMMException _ => true | _ => false end.

Section Monad.
Context {S : Type}.

(** A computation reads and updates the interpreter's surroundings [S] and
    either returns a value or raises. *)
Definition M (A : Type) : Type := S -> outcome A S.

Definition ret {A} (a : A) : M A := fun s => Ok a s.

Definition bind {A B} (m : M A) (k : A -> M B) : M B :=
  fun s => match m s with
           | Ok a s' => k a s'
           | Raise e s' => Raise e s'
           end.

Definition raise {A} (e : exn) : M A := fun s => Raise e s.

(** [try: body except C: handler], for the exception class [C] recognised
    by [catches]; any other exception passes through. *)
Definition try_except {A} (body : M A) (catches : exn -> bool)
    (handler : M A) : M A :=
  fun s => match body s with
           | Ok a s' => Ok a s'
           | Raise e s' => if catches e then handler s' else Raise e s'
           end.

Definition get : M S := fun s => Ok s s.
Definition modify (f : S -> S) : M unit := fun s => Ok tt (f s).

(** [for x in xs: body x] *)
Fixpoint for_each {A} (xs : list A) (body : A -> M unit) : M unit :=
  match xs with
  | [] => ret tt
  | x :: xs' => bind (body x) (fun _ => for_each xs' body)
  end.

(** [n] repetitions of a fallible update of a value. *)
Fixpoint iterate {A} (n : nat) (f : A -> M A) (a : A) : M A :=
  match n with
  | O => ret a
  | Datatypes.S n' => bind (f a) (iterate n' f)
  end.
End Monad.
Arguments M : clear implicits.

Notation "x <- m ;; k" := (bind m (fun x => k))
  (at level 100, m at next level, right associativity).
Notation "m ;;; k" := (bind m (fun _ => k))
  (at level 100, right associativity).

(** ** Data shared by the libraries *)

Definition Vec3 : Type := Q * Q * Q.

(** The three periodic box vectors. *)
Definition Box : Type := Vec3 * Vec3 * Vec3.

Record Atom : Type := {
  atom_name : string;
  atom_element : string;
  atom_resindex : nat;
  atom_segindex : nat
}.

(** One snapshot of a trajectory. *)
Record Frame : Type := {
  frame_positions : list Vec3;
  frame_box : Box
}.

(** The columns a state log can have, in the order in which OpenMM's
    [StateDataReporter] lays them out. *)
Inductive Column : Type :=
| Progress | Step | Time | PotentialEnergy | KineticEnergy | TotalEnergy
| Temperature | Volume | Density | Speed | ElapsedTime | RemainingTime.

#[global] Instance Column_eq_dec : EqDecision Column.
Proof. solve_decision. Defined.

(** Files, by what they hold once parsed.  The input pair is an Amber
    topology ([Prmtop]) and coordinate file ([Inpcrd]); the outputs are text
    logs and a DCD trajectory. *)
Inductive file : Type :=
| Prmtop (atoms : list Atom) (box : option Box)
| Inpcrd (positions : list Vec3) (box : option Box)
| Log (rows : list (list (Column * Q)))
| Dcd (frames : list Frame)
| Unreadable.

(** What the run does to the outside, in order: the ghost record on which
    the ordering of the stages is stated.  Contexts are numbered in the order
    of their creation. *)
Inductive Event : Type :=
| EvLoad (path : string)
| EvGetPlatform (name : string)
| EvNewContext (id : nat)
| EvMinimize (id : nat)
| EvStep (id : nat)
| EvReport (id : nat) (path : string)
| EvTrajectory (path : string)
| EvRdfFrame
| EvPlot.

(** One subplot of the current matplotlib figure. *)
Record Axes : Type := {
  ax_lines : list (list Q * list Q);
  ax_title : string;
  ax_xlabel : string;
  ax_ylabel : string;
  ax_grid : bool
}.

(** The surroundings of the interpreter: the file system, the number of
    OpenMM contexts created so far, pyplot's current figure (its subplots,
    the current one last), standard output, and the ghost trace, the latest
    event first. *)
Record World : Type := {
  fs : gmap string file;
  n_contexts : nat;
  figure : list Axes;
  stdout : list (string * option Q);
  trace : list Event
}.

Definition set_fs (f : gmap string file -> gmap string file) (w : World) : World :=
  {| fs := f (fs w); n_contexts := n_contexts w; figure := figure w;
     stdout := stdout w; trace := trace w |}.

Definition set_n_contexts (n : nat) (w : World) : World :=
  {| fs := fs w; n_contexts := n; figure := figure w;
     stdout := stdout w; trace := trace w |}.

Definition set_figure (f : list Axes -> list Axes) (w : World) : World :=
  {| fs := fs w; n_contexts := n_contexts w; figure := f (figure w);
     stdout := stdout w; trace := trace w |}.

Definition print_line (l : string * option Q) (w : World) : World :=
  {| fs := fs w; n_contexts := n_contexts w; figure := figure w;
     stdout := stdout w ++ [l]; trace := trace w |}.

Definition record_event (e : Event) (w : World) : World :=
  {| fs := fs w; n_contexts := n_contexts w; figure := figure w;
     stdout := stdout w; trace := e :: trace w |}.

Definition emit (e : Event) : M World unit := modify (record_event e).

(** A pure library routine that can raise. *)
Definition lift {A} (r : exn + A) : M World A :=
  match r with
  | inl e => raise e
  | inr a => ret a
  end.

(** Python truthiness of an argument value. *)
Definition truthy (v : pyval) : bool :=
  match v with
  | PNone => false
  | PBool b => b
  | PInt z => negb (z =? 0)
  | PFloat q => negb (Qeq_bool q 0)
  | PStr s => negb (String.eqb s EmptyString)
  | PPair _ _ => true
  end.

(** A function without [**kwargs] raises [TypeError] on a keyword it does not
    declare. *)
Definition undeclared (declared : list string) (kw : kwargs) : list string :=
  filter (fun k => k ∉ declared) (map fst (map_to_list kw)).

Definition check_keywords (fn : string) (declared : list string) (kw : kwargs)
    : M World unit :=
  match undeclared declared kw with
  | [] => ret tt
  | k :: _ => raise (TypeError (fn +:+ "() got an unexpected keyword argument " +:+ k))
  end.

(** [kw.get(name, default)] read as a flag. *)
Definition flag (kw : kwargs) (name : string) : bool :=
  match kw !! name with
  | Some v => truthy v
  | None => false
  end.

(** ** OpenMM: the calls the notebook makes

    Quantities carry the unit the notebook gives them: temperatures in kelvin,
    pressures in atmospheres, friction in 1/ps, step sizes in femtoseconds,
    lengths in nanometres. *)
Module OpenMM.

Inductive NonbondedMethod : Type :=
| NoCutoff | CutoffNonPeriodic | CutoffPeriodic | Ewald | PME.

Inductive ConstraintKind : Type :=
| NoConstraints | HBonds | AllBonds | HAngles.

Inductive Force : Type :=
| HarmonicBondForce
| HarmonicAngleForce
| PeriodicTorsionForce
| NonbondedForce (method : NonbondedMethod) (cutoff : Q)
| CMMotionRemover
| MonteCarloBarostat (pressure temperature : Q) (frequency : Z).

(** [system] is one mutable object; [addForce] changes it in place and every
    later reader sees the change.  The notebook holds a single reference to
    it, so the object is threaded as a value. *)
Record System : Type := {
  sys_particles : nat;
  sys_constraints : ConstraintKind;
  sys_box : Box;
  sys_forces : list Force
}.

Record LangevinIntegrator : Type := {
  lg_temperature : Q;
  lg_friction : Q;
  lg_stepSize : Q
}.

(** A context is created from a system and keeps the forces the system had
    at that moment. *)
Record Context : Type := {
  ctx_id : nat;
  ctx_system : System;
  ctx_integrator : LangevinIntegrator;
  ctx_platform : string;
  ctx_positions_set : bool;
  ctx_positions : list Vec3;
  ctx_velocities : list Vec3;
  ctx_box : Box;
  ctx_steps : Z
}.

(** The numerics and the machine: what is installed, and what the native
    code computes.  [registered] lists the platforms from the fastest to
    the slowest. *)
Record Engine : Type := {
  registered : list string;
  usable : string -> System -> bool;
  minimizer : Context -> exn + list Vec3;
  langevin : Context -> exn + (list Vec3 * list Vec3);
  barostat_move : Q -> Q -> Context -> list Vec3 * Box;
  wrap : Box -> list Vec3 -> list Vec3;
  observable : Column -> Context -> Q;
  wall_clock : nat -> Q
}.

Record Topology : Type := { top_atoms : list Atom }.

Record AmberPrmtopFile : Type := {
  prmtop_topology : Topology;
  prmtop_box : option Box
}.

Record AmberInpcrdFile : Type := {
  inpcrd_positions : list Vec3;
  inpcrd_boxVectors : option Box
}.

Record State : Type := {
  st_positions : option (list Vec3);
  st_velocities : option (list Vec3);
  st_box : Box
}.

Inductive Reporter : Type :=
| StateDataReporter (file : string) (reportInterval : Z) (columns : list Column)
| DCDReporter (file : string) (reportInterval : Z).

Record Simulation : Type := {
  sim_topology : Topology;
  sim_system : System;
  sim_integrator : LangevinIntegrator;
  sim_context : Context;
  sim_currentStep : Z;
  sim_reporters : list Reporter
}.

Definition set_context (c : Context) (s : Simulation) : Simulation :=
  {| sim_topology := sim_topology s; sim_system := sim_system s;
     sim_integrator := sim_integrator s; sim_context := c;
     sim_currentStep := sim_currentStep s; sim_reporters := sim_reporters s |}.

(** [simulation.reporters.append(r)] *)
Definition reporters_append (r : Reporter) (s : Simulation) : Simulation :=
  {| sim_topology := sim_topology s; sim_system := sim_system s;
     sim_integrator := sim_integrator s; sim_context := sim_context s;
     sim_currentStep := sim_currentStep s;
     sim_reporters := sim_reporters s ++ [r] |}.

Definition zero3 : Vec3 := (0%Q, 0%Q, 0%Q).

(** *** Input files *)

(** [app.AmberPrmtopFile(path)] *)
Definition AmberPrmtopFile_new (path : string) : M World AmberPrmtopFile :=
  emit (EvLoad path) ;;;
  w <- get ;;
  match fs w !! path with
  | None => raise (FileNotFoundError path)
  | Some (Prmtop atoms box) =>
      ret {| prmtop_topology := {| top_atoms := atoms |}; prmtop_box := box |}
  | Some _ => raise (ValueError "not an Amber topology file")
  end.

(** [app.AmberInpcrdFile(path)] *)
Definition AmberInpcrdFile_new (path : string) : M World AmberInpcrdFile :=
  emit (EvLoad path) ;;;
  w <- get ;;
  match fs w !! path with
  | None => raise (FileNotFoundError path)
  | Some (Inpcrd pos box) =>
      ret {| inpcrd_positions := pos; inpcrd_boxVectors := box |}
  | Some _ => raise (ValueError "not an Amber coordinate file")
  end.

(** *** Platforms *)

Section WithEngine.
Variable E : Engine.

(** [mm.Platform.getPlatformByName(name)]: the platform registered under
    that name, or [OpenMMException] when there is none. *)
Definition getPlatformByName (name : string) : M World string :=
  emit (EvGetPlatform name) ;;;
  if bool_decide (name ∈ registered E) then ret name
  else raise (OpenMMException ("There is no registered Platform called " +:+ name)).

(** *** Systems *)

Definition periodic (m : NonbondedMethod) : bool :=
  match m with
  | CutoffPeriodic | Ewald | PME => true
  | NoCutoff | CutoffNonPeriodic => false
  end.

Definition zero_box : Box := (zero3, zero3, zero3).

(** [prmtop.createSystem(nonbondedMethod=..., nonbondedCutoff=...,
    constraints=...)]: a periodic method needs a topology with a box. *)
Definition createSystem (p : AmberPrmtopFile) (method : NonbondedMethod)
    (cutoff : Q) (constraints : ConstraintKind) : M World System :=
  let forces := [HarmonicBondForce; HarmonicAngleForce; PeriodicTorsionForce;
                 NonbondedForce method cutoff; CMMotionRemover] in
  let n := length (top_atoms (prmtop_topology p)) in
  match prmtop_box p with
  | Some b =>
      ret {| sys_particles := n; sys_constraints := constraints;
             sys_box := b; sys_forces := forces |}
  | None =>
      if periodic method
      then raise (ValueError "Illegal nonbonded method for a non-periodic system")
      else ret {| sys_particles := n; sys_constraints := constraints;
                  sys_box := zero_box; sys_forces := forces |}
  end.

(** [system.addForce(f)]: appended to the system's forces, in place. *)
Definition addForce (f : Force) (s : System) : System :=
  {| sys_particles := sys_particles s; sys_constraints := sys_constraints s;
     sys_box := sys_box s; sys_forces := sys_forces s ++ [f] |}.

Definition is_barostat (f : Force) : bool :=
  match f with MonteCarloBarostat _ _ _ => true | _ => false end.

(** Pressure coupling is active in a context when a barostat is among the
    forces it was created with. *)
Definition pressure_coupled (c : Context) : bool :=
  existsb is_barostat (sys_forces (ctx_system c)).

Definition usesPeriodicBoundaryConditions (s : System) : bool :=
  existsb (fun f => match f with
                    | NonbondedForce m _ => periodic m
                    | MonteCarloBarostat _ _ _ => true
                    | _ => false
                    end) (sys_forces s).

(** *** Contexts and simulations *)

(** A context as it is created: no positions yet, velocities zero, the
    system's default box. *)
Definition new_context (s : System) (i : LangevinIntegrator) (p : string) (id : nat)
    : Context :=
  {| ctx_id := id; ctx_system := s; ctx_integrator := i;
     ctx_platform := p; ctx_positions_set := false;
     ctx_positions := replicate (sys_particles s) zero3;
     ctx_velocities := replicate (sys_particles s) zero3;
     ctx_box := sys_box s; ctx_steps := 0 |}.

(** [mm.Context(system, integrator[, platform])].  Without a platform the
    fastest registered platform on which the context can be created is
    taken. *)
Definition Context_new (s : System) (i : LangevinIntegrator)
    (platform : option string) : M World Context :=
  chosen <- match platform with
            | Some p =>
                if usable E p s then ret p
                else raise (OpenMMException ("Error initializing platform " +:+ p))
            | None =>
                match List.find (fun p => usable E p s) (registered E) with
                | Some p => ret p
                | None => raise (OpenMMException
                                   "No Platform supports all the requested kernels")
                end
            end ;;
  w <- get ;;
  let id := n_contexts w in
  modify (set_n_contexts (S id)) ;;;
  emit (EvNewContext id) ;;;
  ret (new_context s i chosen id).

(** [app.Simulation(topology, system, integrator, platform=None,
    platformProperties=None)] *)
Definition Simulation_new (t : Topology) (s : System) (i : LangevinIntegrator)
    (platform : option string) (platformProperties : option (gmap string string))
    : M World Simulation :=
  c <- Context_new s i platform ;;
  ret {| sim_topology := t; sim_system := s; sim_integrator := i;
         sim_context := c; sim_currentStep := 0; sim_reporters := [] |}.

Definition with_positions (p : list Vec3) (c : Context) : Context :=
  {| ctx_id := ctx_id c; ctx_system := ctx_system c;
     ctx_integrator := ctx_integrator c; ctx_platform := ctx_platform c;
     ctx_positions_set := true; ctx_positions := p;
     ctx_velocities := ctx_velocities c; ctx_box := ctx_box c;
     ctx_steps := ctx_steps c |}.

Definition with_velocities (v : list Vec3) (c : Context) : Context :=
  {| ctx_id := ctx_id c; ctx_system := ctx_system c;
     ctx_integrator := ctx_integrator c; ctx_platform := ctx_platform c;
     ctx_positions_set := ctx_positions_set c; ctx_positions := ctx_positions c;
     ctx_velocities := v; ctx_box := ctx_box c;
     ctx_steps := ctx_steps c |}.

Definition with_box (b : Box) (c : Context) : Context :=
  {| ctx_id := ctx_id c; ctx_system := ctx_system c;
     ctx_integrator := ctx_integrator c; ctx_platform := ctx_platform c;
     ctx_positions_set := ctx_positions_set c; ctx_positions := ctx_positions c;
     ctx_velocities := ctx_velocities c; ctx_box := b;
     ctx_steps := ctx_steps c |}.

(** [context.setPositions(p)]: the number of positions must be the
    system's number of particles. *)
Definition setPositions (p : list Vec3) (c : Context) : M World Context :=
  if bool_decide (length p = sys_particles (ctx_system c)) then ret (with_positions p c)
  else raise (OpenMMException
                "Called setPositions() on a Context with the wrong number of positions").

(** [context.setVelocities(v)] *)
Definition setVelocities (v : list Vec3) (c : Context) : M World Context :=
  if bool_decide (length v = sys_particles (ctx_system c)) then ret (with_velocities v c)
  else raise (OpenMMException
                "Called setVelocities() on a Context with the wrong number of velocities").

(** [context.setPeriodicBoxVectors(a, b, c)] *)
Definition setPeriodicBoxVectors (b : Box) (c : Context) : M World Context :=
  ret (with_box b c).

(** The dynamical variables of a context replaced by new ones, one more
    step counted when [stepped]. *)
Definition evolve (p v : list Vec3) (b : Box) (stepped : bool) (c : Context)
    : Context :=
  {| ctx_id := ctx_id c; ctx_system := ctx_system c;
     ctx_integrator := ctx_integrator c; ctx_platform := ctx_platform c;
     ctx_positions_set := ctx_positions_set c;
     ctx_positions := p; ctx_velocities := v; ctx_box := b;
     ctx_steps := if stepped then ctx_steps c + 1 else ctx_steps c |}.

Definition require_positions (c : Context) : M World unit :=
  if ctx_positions_set c then ret tt
  else raise (OpenMMException "Particle positions have not been set").

(** [simulation.minimizeEnergy()]: only the positions change. *)
Definition minimizeEnergy (s : Simulation) : M World Simulation :=
  let c := sim_context s in
  require_positions c ;;;
  p <- lift (minimizer E c) ;;
  emit (EvMinimize (ctx_id c)) ;;;
  ret (set_context (evolve p (ctx_velocities c) (ctx_box c) false c) s).

(** [context.getState(getPositions=..., getVelocities=...,
    enforcePeriodicBox=...)] *)
Definition getState (c : Context) (getPositions getVelocities enforcePeriodicBox : bool)
    : M World State :=
  (if getPositions then require_positions c else ret tt) ;;;
  ret {| st_positions :=
           if getPositions
           then Some (if enforcePeriodicBox
                      then wrap E (ctx_box c) (ctx_positions c)
                      else ctx_positions c)
           else None;
         st_velocities := if getVelocities then Some (ctx_velocities c) else None;
         st_box := ctx_box c |}.

Definition State_getPositions (s : State) : M World (list Vec3) :=
  match st_positions s with
  | Some p => ret p
  | None => raise (OpenMMException "Invalid argument: positions were not requested")
  end.

Definition State_getVelocities (s : State) : M World (list Vec3) :=
  match st_velocities s with
  | Some v => ret v
  | None => raise (OpenMMException "Invalid argument: velocities were not requested")
  end.

Definition State_getPeriodicBoxVectors (s : State) : M World Box :=
  ret (st_box s).

(** *** Integration

    [integrator.step(1)] first lets every force update the context
    ([updateContextState]): a Monte Carlo barostat attempts, on every
    [frequency]-th step of the context, a move that rescales the box and
    the positions.  Nothing else in a step touches the box. *)
Definition force_update (c : Context) (f : Force) : Context :=
  match f with
  | MonteCarloBarostat p t freq =>
      if (0 <? freq) && ((ctx_steps c + 1) mod freq =? 0)
      then let pb := barostat_move E p t c in
           evolve pb.1 (ctx_velocities c) pb.2 false c
      else c
  | _ => c
  end.

Definition updateContextState (c : Context) : Context :=
  fold_left force_update (sys_forces (ctx_system c)) c.

Definition integrator_step (c : Context) : M World Context :=
  require_positions c ;;;
  let c1 := updateContextState c in
  pv <- lift (langevin E c1) ;;
  emit (EvStep (ctx_id c)) ;;;
  ret (evolve pv.1 pv.2 (ctx_box c1) true c1).

(** *** Reporters *)

Definition keyword (c : Column) : string :=
  match c with
  | Progress => "progress"
  | Step => "step"
  | Time => "time"
  | PotentialEnergy => "potentialEnergy"
  | KineticEnergy => "kineticEnergy"
  | TotalEnergy => "totalEnergy"
  | Temperature => "temperature"
  | Volume => "volume"
  | Density => "density"
  | Speed => "speed"
  | ElapsedTime => "elapsedTime"
  | RemainingTime => "remainingTime"
  end.

Definition all_columns : list Column :=
  [Progress; Step; Time; PotentialEnergy; KineticEnergy; TotalEnergy;
   Temperature; Volume; Density; Speed; ElapsedTime; RemainingTime].

(** [app.StateDataReporter(file, reportInterval, step=False, time=False,
    potentialEnergy=False, ..., separator=',', systemMass=None,
    totalSteps=None, append=False)]: the file is opened for writing, which
    empties it unless [append] is set; the log gets one column for each
    flag that is set. *)
Definition StateDataReporter_new (file : string) (reportInterval : Z) (kw : kwargs)
    : M World Reporter :=
  check_keywords "StateDataReporter"
    (map keyword all_columns ++ ["separator"; "systemMass"; "totalSteps"; "append"])
    kw ;;;
  (if (flag kw "progress" || flag kw "remainingTime") && negb (flag kw "totalSteps")
   then raise (ValueError "Reporting progress requires total steps to be specified")
   else ret tt) ;;;
  (if flag kw "append" then ret tt
   else modify (set_fs (insert file (Log [])))) ;;;
  ret (StateDataReporter file reportInterval
         (filter (fun c => flag kw (keyword c) = true) all_columns)).

(** [app.DCDReporter(file, reportInterval)]: the file is opened for
    writing. *)
Definition DCDReporter_new (file : string) (reportInterval : Z) : M World Reporter :=
  modify (set_fs (insert file (Dcd []))) ;;;
  ret (DCDReporter file reportInterval).

Definition interval_of (r : Reporter) : Z :=
  match r with
  | StateDataReporter _ i _ => i
  | DCDReporter _ i => i
  end.

Definition file_of (r : Reporter) : string :=
  match r with
  | StateDataReporter f _ _ => f
  | DCDReporter f _ => f
  end.

(** A reporter asks for its next report [interval - currentStep mod
    interval] steps ahead ([describeNextReport]): it reports whenever the
    step count reaches a multiple of its interval. *)
Definition due (r : Reporter) (currentStep : Z) : bool :=
  currentStep mod interval_of r =? 0.

Definition column_value (s : Simulation) (c : Column) : Q :=
  match c with
  | Step => inject_Z (sim_currentStep s)
  | _ => observable E c (sim_context s)
  end.

Definition append_row (row : list (Column * Q)) (f : option file) : option file :=
  match f with
  | Some (Log rows) => Some (Log (rows ++ [row]))
  | _ => Some (Log [row])
  end.

Definition append_frame (fr : Frame) (f : option file) : option file :=
  match f with
  | Some (Dcd frames) => Some (Dcd (frames ++ [fr]))
  | _ => Some (Dcd [fr])
  end.

(** DCD files hold lengths in angstroms. *)
Definition angstroms (v : Vec3) : Vec3 :=
  ((10 * v.1.1)%Q, (10 * v.1.2)%Q, (10 * v.2)%Q).

Definition snapshot (s : Simulation) : Frame :=
  let c := sim_context s in
  let p := if usesPeriodicBoundaryConditions (sim_system s)
           then wrap E (ctx_box c) (ctx_positions c)
           else ctx_positions c in
  {| frame_positions := map angstroms p;
     frame_box := (angstroms (ctx_box c).1.1, angstroms (ctx_box c).1.2,
                   angstroms (ctx_box c).2) |}.

(** [reporter.report(simulation, state)] *)
Definition report (s : Simulation) (r : Reporter) : M World unit :=
  match r with
  | StateDataReporter file _ cols =>
      modify (set_fs (partial_alter
                        (append_row (map (fun c => (c, column_value s c)) cols)) file)) ;;;
      emit (EvReport (ctx_id (sim_context s)) file)
  | DCDReporter file _ =>
      modify (set_fs (partial_alter (append_frame (snapshot s)) file)) ;;;
      emit (EvReport (ctx_id (sim_context s)) file)
  end.

(** *** Running *)

(** One step of [simulation.step]: the integrator advances, the step
    count goes up, and the reporters that are due report. *)
Definition advance (c : Context) (s : Simulation) : Simulation :=
  {| sim_topology := sim_topology s; sim_system := sim_system s;
     sim_integrator := sim_integrator s; sim_context := c;
     sim_currentStep := sim_currentStep s + 1;
     sim_reporters := sim_reporters s |}.

Definition step1 (s : Simulation) : M World Simulation :=
  c <- integrator_step (sim_context s) ;;
  let s' := advance c s in
  for_each (sim_reporters s')
    (fun r => if due r (sim_currentStep s') then report s' r else ret tt) ;;;
  ret s'.

(** [simulation.step(steps)] *)
Definition Simulation_step (steps : Z) (s : Simulation) : M World Simulation :=
  iterate (Z.to_nat steps) step1 s.
End WithEngine.
End OpenMM.

(** ** MDAnalysis: the calls the notebook makes

    Lengths are in angstroms. *)
Module MDAnalysis.

(** The native routines of the library. *)
Record Numerics : Type := {
  capped_distance : list Vec3 -> list Vec3 -> Q -> Box -> list (nat * nat * Q);
  box_volume : Box -> Q;
  pi : Q
}.

Record Universe : Type := {
  u_atoms : list Atom;
  u_trajectory : list Frame
}.

(** An atom group: indices into the atoms of its universe. *)
Record AtomGroup : Type := {
  ag_universe : Universe;
  ag_ix : list nat
}.

(** [mda.Universe(topology, trajectory)]: every frame of the trajectory must
    have one position for each atom of the topology. *)
Definition Universe_new (topology trajectory : string) : M World Universe :=
  emit (EvTrajectory topology) ;;;
  w <- get ;;
  match fs w !! topology with
  | None => raise (FileNotFoundError topology)
  | Some (Prmtop atoms _) =>
      emit (EvTrajectory trajectory) ;;;
      match fs w !! trajectory with
      | None => raise (FileNotFoundError trajectory)
      | Some (Dcd frames) =>
          if forallb (fun fr => bool_decide (length (frame_positions fr) = length atoms))
               frames
          then ret {| u_atoms := atoms; u_trajectory := frames |}
          else raise (ValueError
                        "The topology and the trajectory differ in their number of atoms")
      | Some _ => raise (ValueError "not a DCD trajectory")
      end
  | Some _ => raise (ValueError "not an Amber topology file")
  end.

(** The indices, from [start] on, of the elements that satisfy [p]. *)
Fixpoint indices_where {A} (p : A -> bool) (start : nat) (l : list A) : list nat :=
  match l with
  | [] => []
  | a :: l' =>
      if p a then start :: indices_where p (S start) l'
      else indices_where p (S start) l'
  end.

(** [u.select_atoms("element X")]; no other selection is modelled. *)
Definition select_atoms (u : Universe) (sel : string) : M World AtomGroup :=
  if String.prefix "element " sel then
    let el := String.substring 8 (String.length sel - 8)%nat sel in
    ret {| ag_universe := u;
           ag_ix := indices_where (fun a => String.eqb (atom_element a) el) 0 (u_atoms u) |}
  else raise (SelectionError ("Unknown selection token: " +:+ sel)).

(** *** Radial distribution functions *)

Record Results : Type := {
  res_count : list Q;
  res_edges : list Q;
  res_bins : list Q;
  res_rdf : list Q
}.

(** The analysis object: its settings as [__init__] stores them, and its
    results once [run] has finished. *)
Record InterRDF : Type := {
  rdf_g1 : AtomGroup;
  rdf_g2 : AtomGroup;
  rdf_nbins : pyval;
  rdf_range : pyval;
  rdf_norm : string;
  rdf_exclude_block : pyval;
  rdf_exclude_same : option string;
  rdf_verbose : bool;
  rdf_results : option Results
}.

Definition with_results (res : Results) (r : InterRDF) : InterRDF :=
  {| rdf_g1 := rdf_g1 r; rdf_g2 := rdf_g2 r; rdf_nbins := rdf_nbins r;
     rdf_range := rdf_range r; rdf_norm := rdf_norm r;
     rdf_exclude_block := rdf_exclude_block r;
     rdf_exclude_same := rdf_exclude_same r; rdf_verbose := rdf_verbose r;
     rdf_results := Some res |}.

Definition default (kw : kwargs) (name : string) (d : pyval) : pyval :=
  match kw !! name with
  | Some v => v
  | None => d
  end.

(** [rdf.InterRDF(g1, g2, nbins=75, range=(0.0, 15.0), norm="rdf",
    exclude_block=None, exclude_same=None, **kwargs)].  The remaining
    keywords go to [AnalysisBase.__init__(trajectory, verbose=False,
    **kwargs)], which takes [verbose] and drops the rest. *)
Definition InterRDF_new (g1 g2 : AtomGroup) (kw : kwargs) : M World InterRDF :=
  norm <- match default kw "norm" (PStr "rdf") with
          | PStr n =>
              if bool_decide (n ∈ ["rdf"; "density"; "none"]) then ret n
              else raise (ValueError "rdf is not a valid norm")
          | _ => raise (ValueError "rdf is not a valid norm")
          end ;;
  same <- match default kw "exclude_same" PNone with
          | PNone => ret None
          | PStr "residue" => ret (Some "resindices")
          | PStr "segment" => ret (Some "segindices")
          | PStr "chain" => ret (Some "chainIDs")
          | _ => raise (ValueError
                          "The exclude_same argument to InterRDF must be None, residue, segment or chain")
          end ;;
  match same, default kw "exclude_block" PNone with
  | Some _, PNone | None, _ =>
      ret {| rdf_g1 := g1; rdf_g2 := g2;
             rdf_nbins := default kw "nbins" (PInt 75);
             rdf_range := default kw "range" (PPair (PFloat 0) (PFloat 15));
             rdf_norm := norm;
             rdf_exclude_block := default kw "exclude_block" PNone;
             rdf_exclude_same := same;
             rdf_verbose := flag kw "verbose";
             rdf_results := None |}
  | Some _, _ =>
      raise (ValueError
               "The exclude_same argument to InterRDF cannot be used with exclude_block")
  end.

(** [np.linspace(lo, hi, n + 1)] *)
Definition edges_of (n : nat) (lo hi : Q) : list Q :=
  map (fun i => (lo + inject_Z (Z.of_nat i) * (hi - lo) / inject_Z (Z.of_nat n))%Q)
      (seq 0 (S n)).

(** Bin [i] of [n] is half-open, except the last, which has both ends. *)
Definition in_bin (n : nat) (lo hi : Q) (i : nat) (x : Q) : bool :=
  let e := edges_of n lo hi in
  match e !! i, e !! S i with
  | Some a, Some b =>
      Qle_bool a x && (if bool_decide (S i = n) then Qle_bool x b else negb (Qle_bool b x))
  | _, _ => false
  end.

Definition bin_counts (n : nat) (lo hi : Q) (xs : list Q) : list Q :=
  map (fun i => inject_Z (Z.of_nat (length (filter (fun x => in_bin n lo hi i x = true) xs))))
      (seq 0 n).

(** [np.histogram(xs, bins=nbins, range=range)] for an integer [bins]: the
    counts, one for each bin, and the edges. *)
Definition histogram (xs : list Q) (nbins range : pyval) : exn + (list Q * list Q) :=
  match nbins, range with
  | PInt n, PPair (PFloat lo) (PFloat hi) =>
      if n <? 1 then inl (ValueError "`bins` must be positive, when an integer")
      else if negb (Qle_bool lo hi)
      then inl (ValueError "max must be larger than min in range parameter")
      else
        let lo' := if Qeq_bool lo hi then (lo - (1 # 2))%Q else lo in
        let hi' := if Qeq_bool lo hi then (hi + (1 # 2))%Q else hi in
        inr (bin_counts (Z.to_nat n) lo' hi' xs, edges_of (Z.to_nat n) lo' hi')
  | _, _ => inl (TypeError "`bins` must be an integer and `range` a pair of floats")
  end.

(** [g.positions] in a frame, and an attribute of the atoms of a group. *)
Definition gather {A} (what : string) (l : list A) (ix : list nat) : exn + list A :=
  match mapM (fun i => l !! i) ix with
  | Some r => inr r
  | None => inl (IndexError (what +:+ ": index out of bounds"))
  end.

Definition group_attribute (attr : string) (g : AtomGroup) : exn + list nat :=
  if String.eqb attr "resindices"
  then gather attr (map atom_resindex (u_atoms (ag_universe g))) (ag_ix g)
  else if String.eqb attr "segindices"
  then gather attr (map atom_segindex (u_atoms (ag_universe g))) (ag_ix g)
  else inl (AttributeError ("This Universe does not contain " +:+ attr +:+ " information")).

(** A pair of capped_distance, [(i, j, d)], survives [exclude_same] when
    atom [i] of the first group and atom [j] of the second differ in the
    attribute. *)
Definition differ (a1 a2 : list nat) (p : nat * nat * Q) : bool :=
  match a1 !! p.1.1, a2 !! p.1.2 with
  | Some x, Some y => negb (x =? y)%nat
  | _, _ => false
  end.

Definition in_bounds (n1 n2 : nat) (p : nat * nat * Q) : bool :=
  (p.1.1 <? n1)%nat && (p.1.2 <? n2)%nat.

Definition other_block (b1 b2 : Z) (p : nat * nat * Q) : bool :=
  negb (Z.of_nat p.1.1 / b1 =? Z.of_nat p.1.2 / b2).

Section WithNumerics.
Variable num : Numerics.

(** The accumulators of a running analysis. *)
Record Running : Type := {
  run_count : list Q;
  run_volume_cum : Q
}.

(** The pairs of one frame whose distances are binned. *)
Definition binned_pairs (r : InterRDF) (fr : Frame) : exn + list (nat * nat * Q) :=
  match r.(rdf_range) with
  | PPair _ (PFloat maxrange) =>
      match gather "positions" (frame_positions fr) (ag_ix (rdf_g1 r)),
            gather "positions" (frame_positions fr) (ag_ix (rdf_g2 r)) with
      | inr p1, inr p2 =>
          let pairs := capped_distance num p1 p2 maxrange (frame_box fr) in
          if negb (forallb (in_bounds (length p1) (length p2)) pairs)
          then inl (IndexError "pair index out of bounds")
          else
            let pairs1 :=
              match rdf_exclude_block r with
              | PPair (PInt b1) (PInt b2) => filter (fun p => other_block b1 b2 p = true) pairs
              | _ => pairs
              end in
            match rdf_exclude_same r with
            | None => inr pairs1
            | Some attr =>
                match group_attribute attr (rdf_g1 r), group_attribute attr (rdf_g2 r) with
                | inr a1, inr a2 => inr (filter (fun p => differ a1 a2 p = true) pairs1)
                | inl e, _ | _, inl e => inl e
                end
            end
      | inl e, _ | _, inl e => inl e
      end
  | _ => inl (TypeError "`range` must be a pair of floats")
  end.

(** [_single_frame] *)
Definition single_frame (r : InterRDF) (acc : Running) (fr : Frame) : M World Running :=
  pairs <- lift (binned_pairs r fr) ;;
  h <- lift (histogram (map snd pairs) (rdf_nbins r) (rdf_range r)) ;;
  emit EvRdfFrame ;;;
  ret {| run_count := zip_with Qplus (run_count acc) h.1;
         run_volume_cum := (run_volume_cum acc + box_volume num (frame_box fr))%Q |}.

Fixpoint frames_loop (r : InterRDF) (acc : Running) (frames : list Frame)
    : M World Running :=
  match frames with
  | [] => ret acc
  | fr :: frames' => acc' <- single_frame r acc fr ;; frames_loop r acc' frames'
  end.

Definition cube (x : Q) : Q := (x * x * x)%Q.

(** [np.diff(np.power(edges, 3))] *)
Definition shell_cubes (edges : list Q) : list Q :=
  zip_with (fun a b => (cube b - cube a)%Q) edges (tail edges).

(** [_conclude]: the normalisation of each bin. *)
Definition norms (r : InterRDF) (edges : list Q) (n_frames : nat) (volume_cum : Q)
    : list Q :=
  let frames := inject_Z (Z.of_nat n_frames) in
  let nA := inject_Z (Z.of_nat (length (ag_ix (rdf_g1 r)))) in
  let nB := inject_Z (Z.of_nat (length (ag_ix (rdf_g2 r)))) in
  let pairs :=
    match rdf_exclude_block r with
    | PPair (PInt b1) (PInt b2) =>
        (nA * nB - inject_Z b1 * inject_Z b2 * (nA / inject_Z b1))%Q
    | _ => (nA * nB)%Q
    end in
  map (fun d =>
         if String.eqb (rdf_norm r) "rdf"
         then (frames * ((4 # 3) * pi num * d) * (pairs / (volume_cum / frames)))%Q
         else if String.eqb (rdf_norm r) "density"
         then (frames * ((4 # 3) * pi num * d))%Q
         else frames)
      (shell_cubes edges).

(** [InterRDF.run()]: [_prepare], [_single_frame] on every frame of the
    trajectory, [_conclude]. *)
Definition InterRDF_run (r : InterRDF) : M World InterRDF :=
  h0 <- lift (histogram [(-1)%Q] (rdf_nbins r) (rdf_range r)) ;;
  let edges := h0.2 in
  let frames := u_trajectory (ag_universe (rdf_g1 r)) in
  acc <- frames_loop r {| run_count := map (fun _ => 0%Q) h0.1; run_volume_cum := 0 |}
           frames ;;
  let res := {| res_count := run_count acc;
                res_edges := edges;
                res_bins := zip_with (fun a b => ((1 # 2) * (a + b))%Q) edges (tail edges);
                res_rdf := zip_with Qdiv (run_count acc)
                             (norms r edges (length frames) (run_volume_cum acc)) |} in
  ret (with_results res r).

(** [r.results.bins] and [r.results.rdf]: defined once [run] is done. *)
Definition results_bins (r : InterRDF) : M World (list Q) :=
  match rdf_results r with
  | Some res => ret (res_bins res)
  | None => raise (AttributeError "results has no attribute bins")
  end.

Definition results_rdf (r : InterRDF) : M World (list Q) :=
  match rdf_results r with
  | Some res => ret (res_rdf res)
  | None => raise (AttributeError "results has no attribute rdf")
  end.
End WithNumerics.
End MDAnalysis.

(** ** matplotlib.pyplot: the calls the notebook makes *)
Module Pyplot.

Definition empty_axes : Axes :=
  {| ax_lines := []; ax_title := EmptyString; ax_xlabel := EmptyString; ax_ylabel := EmptyString; ax_grid := false |}.

(** [plt.figure(figsize=...)]: a new, empty current figure. *)
Definition figure_new : M World unit := modify (set_figure (fun _ => [])).

(** [plt.subplot(nrows, ncols, index)] for a position not yet taken: a new
    subplot, made current. *)
Definition subplot (nrows ncols index : Z) : M World unit :=
  if (1 <=? index) && (index <=? nrows * ncols)
  then modify (set_figure (fun f => f ++ [empty_axes]))
  else raise (ValueError "num must be an integer with 1 <= num <= nrows * ncols").

(** The current subplot changed by [f]; there is one to start with when
    none was made. *)
Definition on_current (f : Axes -> Axes) (fig : list Axes) : list Axes :=
  match reverse fig with
  | [] => [f empty_axes]
  | a :: earlier => reverse earlier ++ [f a]
  end.

(** [plt.plot(x, y)] *)
Definition plot (x y : list Q) : M World unit :=
  if bool_decide (length x = length y) then
    modify (set_figure (on_current (fun a =>
      {| ax_lines := ax_lines a ++ [(x, y)]; ax_title := ax_title a;
         ax_xlabel := ax_xlabel a; ax_ylabel := ax_ylabel a; ax_grid := ax_grid a |}))) ;;;
    emit EvPlot
  else raise (ValueError "x and y must have same first dimension").

Definition title (t : string) : M World unit :=
  modify (set_figure (on_current (fun a =>
    {| ax_lines := ax_lines a; ax_title := t; ax_xlabel := ax_xlabel a;
       ax_ylabel := ax_ylabel a; ax_grid := ax_grid a |}))).

Definition xlabel (t : string) : M World unit :=
  modify (set_figure (on_current (fun a =>
    {| ax_lines := ax_lines a; ax_title := ax_title a; ax_xlabel := t;
       ax_ylabel := ax_ylabel a; ax_grid := ax_grid a |}))).

Definition ylabel (t : string) : M World unit :=
  modify (set_figure (on_current (fun a =>
    {| ax_lines := ax_lines a; ax_title := ax_title a; ax_xlabel := ax_xlabel a;
       ax_ylabel := t; ax_grid := ax_grid a |}))).

Definition grid (b : bool) : M World unit :=
  modify (set_figure (on_current (fun a =>
    {| ax_lines := ax_lines a; ax_title := ax_title a; ax_xlabel := ax_xlabel a;
       ax_ylabel := ax_ylabel a; ax_grid := b |}))).

(** [plt.tight_layout()] moves the subplots; what they hold stays. *)
Definition tight_layout : M World unit := ret tt.
End Pyplot.

(** ** nglview: the widget of the visualisation cell *)
Module NGLView.
Record Widget : Type := {
  wd_frames : nat;
  wd_representations : list string;
  wd_camera : string;
  wd_centered : bool
}.

Definition show_mdanalysis (u : MDAnalysis.Universe) : Widget :=
  {| wd_frames := length (MDAnalysis.u_trajectory u);
     wd_representations := ["ball+stick"]; wd_camera := "perspective";
     wd_centered := false |}.

Definition clear_representations (v : Widget) : Widget :=
  {| wd_frames := wd_frames v; wd_representations := [];
     wd_camera := wd_camera v; wd_centered := wd_centered v |}.

Definition add_representation (r : string) (v : Widget) : Widget :=
  {| wd_frames := wd_frames v; wd_representations := wd_representations v ++ [r];
     wd_camera := wd_camera v; wd_centered := wd_centered v |}.

Definition set_camera (c : string) (v : Widget) : Widget :=
  {| wd_frames := wd_frames v; wd_representations := wd_representations v;
     wd_camera := c; wd_centered := wd_centered v |}.

Definition center (v : Widget) : Widget :=
  {| wd_frames := wd_frames v; wd_representations := wd_representations v;
     wd_camera := wd_camera v; wd_centered := true |}.
End NGLView.

(** ** The notebook, cell by cell

    The first code cell only imports.  Each later cell is a computation from
    the names bound so far to the names it binds; the records [Names2],
    [Names3], ... are the notebook's global namespace after the cell of that
    number. *)
Module Notebook.
Import OpenMM MDAnalysis.

Section Cells.
Variable E : Engine.
Variable num : Numerics.

(** [time.time()] *)
Definition time_time : M World Q :=
  w <- get ;; ret (wall_clock E (length (trace w))).

Definition print (l : string * option Q) : M World unit := modify (print_line l).

(** *** Cell 2: input files and platform *)

Record Names2 : Type := {
  prmtop : AmberPrmtopFile;
  inpcrd : AmberInpcrdFile;
  platform : string;
  (** [properties] is bound only when the CUDA platform was found *)
  properties : option (gmap string string)
}.

Definition cell2 : M World Names2 :=
  prmtop <- AmberPrmtopFile_new "water/water_box.prmtop" ;;
  inpcrd <- AmberInpcrdFile_new "water/water_box.inpcrd" ;;
  pp <- try_except
          (platform <- getPlatformByName E "CUDA" ;;
           ret (platform, Some ({["CudaPrecision" := "mixed"]} : gmap string string)))
          is_OpenMMException
          (platform <- getPlatformByName E "Reference" ;;
           ret (platform, None)) ;;
  ret {| prmtop := prmtop; inpcrd := inpcrd; platform := pp.1; properties := pp.2 |}.

(** *** Cell 3: system and NPT equilibration *)

Record Names3 : Type := {
  names2 : Names2;
  system : System;
  start : Q;
  temperature : Q;
  pressure : Q;
  integratorNPT : LangevinIntegrator;
  simulationNPT : Simulation;
  end_npt : Q;
  state_eq : State;
  positions_eq : list Vec3;
  velocities_eq : list Vec3;
  box_vectors_eq : Box
}.

Definition npt_log_columns : kwargs :=
  list_to_map [("step", PBool true); ("potentialEnergy", PBool true);
               ("temperature", PBool true); ("density", PBool true)].

(** The equilibration simulation as the cell sets it up, before it runs,
    with the system and the start time. *)
Definition equilibration_setup (g : Names2) : M World (System * Q * Simulation) :=
  system <- createSystem (prmtop g) PME 1 HBonds ;;
  start <- time_time ;;
  let temperature := 300%Q in
  let pressure := 1%Q in
  let integratorNPT :=
    {| lg_temperature := temperature; lg_friction := 1; lg_stepSize := 2 |} in
  let system := addForce (MonteCarloBarostat pressure temperature 25) system in
  simulationNPT <- Simulation_new E (prmtop_topology (prmtop g)) system integratorNPT
                     None None ;;
  c <- setPositions (inpcrd_positions (inpcrd g)) (sim_context simulationNPT) ;;
  let simulationNPT := set_context c simulationNPT in
  simulationNPT <-
    match inpcrd_boxVectors (inpcrd g) with
    | Some b =>
        c <- setPeriodicBoxVectors b (sim_context simulationNPT) ;;
        ret (set_context c simulationNPT)
    | None => ret simulationNPT
    end ;;
  simulationNPT <- minimizeEnergy E simulationNPT ;;
  r <- StateDataReporter_new "water/npt.log" 1000 npt_log_columns ;;
  ret (system, start, reporters_append r simulationNPT).

Definition cell3 (g : Names2) : M World Names3 :=
  setup <- equilibration_setup g ;;
  let system := setup.1.1 in
  let start := setup.1.2 in
  simulationNPT <- Simulation_step E 50000 setup.2 ;;
  end_npt <- time_time ;;
  state_eq <- getState E (sim_context simulationNPT) true true true ;;
  positions_eq <- State_getPositions state_eq ;;
  velocities_eq <- State_getVelocities state_eq ;;
  box_vectors_eq <- State_getPeriodicBoxVectors state_eq ;;
  ret {| names2 := g; system := system; start := start;
         temperature := 300; pressure := 1;
         integratorNPT :=
           {| lg_temperature := 300; lg_friction := 1; lg_stepSize := 2 |};
         simulationNPT := simulationNPT;
         end_npt := end_npt; state_eq := state_eq;
         positions_eq := positions_eq; velocities_eq := velocities_eq;
         box_vectors_eq := box_vectors_eq |}.

(** *** Cell 4: production *)

Record Names4 : Type := {
  names3 : Names3;
  integratorProd : LangevinIntegrator;
  simulationProd : Simulation;
  end_production : Q
}.

(** The production simulation as the cell sets it up, before it runs. *)
Definition production_setup (g : Names3) : M World Simulation :=
  let integratorProd :=
    {| lg_temperature := temperature g; lg_friction := 1; lg_stepSize := 2 |} in
  simulationProd <- Simulation_new E (prmtop_topology (prmtop (names2 g))) (system g)
                      integratorProd None None ;;
  c <- setPositions (positions_eq g) (sim_context simulationProd) ;;
  c <- setVelocities (velocities_eq g) c ;;
  c <- setPeriodicBoxVectors (box_vectors_eq g) c ;;
  let simulationProd := set_context c simulationProd in
  r <- DCDReporter_new "water/production.dcd" 1000 ;;
  let simulationProd := reporters_append r simulationProd in
  r <- StateDataReporter_new "water/production.log" 1000 npt_log_columns ;;
  ret (reporters_append r simulationProd).

Definition cell4 (g : Names3) : M World Names4 :=
  simulationProd <- production_setup g ;;
  simulationProd <- Simulation_step E 500000 simulationProd ;;
  end_production <- time_time ;;
  ret {| names3 := g;
         integratorProd :=
           {| lg_temperature := temperature g; lg_friction := 1; lg_stepSize := 2 |};
         simulationProd := simulationProd;
         end_production := end_production |}.

(** *** Cell 5: timings *)

Definition cell5 (g : Names4) : M World unit :=
  print ("Simulation completed!", None) ;;;
  print ("Total Time:", Some (end_production g - start (names3 g))%Q) ;;;
  print ("Equilibration 1: :", Some (end_npt (names3 g) - start (names3 g))%Q) ;;;
  print ("Production: ", Some (end_production g - end_npt (names3 g))%Q).

(** *** Cell 6: the trajectory, loaded and shown *)

Record Names6 : Type := {
  u : Universe;
  view : NGLView.Widget
}.

Definition cell6 : M World Names6 :=
  u <- Universe_new "water/water_box.prmtop" "water/production.dcd" ;;
  let view := NGLView.show_mdanalysis u in
  let view := NGLView.clear_representations view in
  let view := NGLView.add_representation "ball+stick" view in
  let view := NGLView.set_camera "orthographic" view in
  let view := NGLView.center view in
  ret {| u := u; view := view |}.

(** *** Cell 7: radial distribution functions *)

Record Names7 : Type := {
  names6 : Names6;
  oxygen_atoms : AtomGroup;
  hydrogen_atoms : AtomGroup;
  rdf_OO : InterRDF;
  rdf_OH : InterRDF
}.

(** The keywords of both [InterRDF] calls, as written:
    [range=(0.0, 10.0), bins=100, exclude_same="residue"]. *)
Definition rdf_keywords : kwargs :=
  list_to_map [("range", PPair (PFloat 0) (PFloat 10)); ("bins", PInt 100);
               ("exclude_same", PStr "residue")].

Definition cell7 (g : Names6) : M World Names7 :=
  oxygen_atoms <- select_atoms (u g) "element O" ;;
  hydrogen_atoms <- select_atoms (u g) "element H" ;;
  rdf_OO <- InterRDF_new oxygen_atoms oxygen_atoms rdf_keywords ;;
  rdf_OO <- InterRDF_run num rdf_OO ;;
  rdf_OH <- InterRDF_new oxygen_atoms hydrogen_atoms rdf_keywords ;;
  rdf_OH <- InterRDF_run num rdf_OH ;;
  ret {| names6 := g; oxygen_atoms := oxygen_atoms; hydrogen_atoms := hydrogen_atoms;
         rdf_OO := rdf_OO; rdf_OH := rdf_OH |}.

(** *** Cell 8: plots *)

Definition cell8 (g : Names7) : M World unit :=
  Pyplot.figure_new ;;;
  Pyplot.subplot 1 2 1 ;;;
  x <- results_bins (rdf_OO g) ;;
  y <- results_rdf (rdf_OO g) ;;
  Pyplot.plot x y ;;;
  Pyplot.title "O-O RDF" ;;;
  Pyplot.xlabel "Distance (Å)" ;;;
  Pyplot.ylabel "g(r)" ;;;
  Pyplot.grid true ;;;
  Pyplot.subplot 1 2 2 ;;;
  x <- results_bins (rdf_OH g) ;;
  y <- results_rdf (rdf_OH g) ;;
  Pyplot.plot x y ;;;
  Pyplot.title "O-H RDF" ;;;
  Pyplot.xlabel "Distance (Å)" ;;;
  Pyplot.ylabel "g(r)" ;;;
  Pyplot.grid true ;;;
  Pyplot.tight_layout.

(** *** The notebook, run from top to bottom *)

Definition simulate : M World Names4 :=
  g2 <- cell2 ;;
  g3 <- cell3 g2 ;;
  g4 <- cell4 g3 ;;
  cell5 g4 ;;;
  ret g4.

Definition analyse : M World Names7 :=
  g6 <- cell6 ;;
  g7 <- cell7 g6 ;;
  cell8 g7 ;;;
  ret g7.

Definition notebook : M World (Names4 * Names7) :=
  g4 <- simulate ;;
  g7 <- analyse ;;
  ret (g4, g7).
End Cells.
End Notebook.

(** ** Views of a run

    Closed forms of what the cells compute, the invariants of stepping, and
    the contracts of the numerics that some theorems ask for. *)

Import OpenMM MDAnalysis Notebook.

Section Views.
Variable E : Engine.

Definition report_world (s : Simulation) (r : Reporter) (w : World) : World :=
  record_event (EvReport (ctx_id (sim_context s)) (file_of r))
    (set_fs (partial_alter
               (match r with
                | StateDataReporter _ _ cols =>
                    append_row (map (fun c => (c, column_value E s c)) cols)
                | DCDReporter _ _ => append_frame (snapshot E s)
                end) (file_of r)) w).

Definition reports_world (s : Simulation) (rs : list Reporter) (w : World) : World :=
  fold_left (fun w r => if due r (sim_currentStep s) then report_world s r w else w) rs w.

Definition next_context (c : Context) (pv : list Vec3 * list Vec3) : Context :=
  let c1 := updateContextState E c in
  evolve pv.1 pv.2 (ctx_box c1) true c1.

Definition due_steps (k c : Z) (n : nat) : list Z :=
  filter (fun t => t mod k = 0) (map (fun i => c + Z.of_nat i) (seq 1 n)).
End Views.

(** What stepping keeps of a context, and what is asked of the engine. *)
Definition same_setup (c c' : Context) : Prop :=
  ctx_id c' = ctx_id c /\ ctx_system c' = ctx_system c /\
  ctx_integrator c' = ctx_integrator c /\ ctx_platform c' = ctx_platform c /\
  ctx_positions_set c' = ctx_positions_set c.

Definition same_shape (c c' : Context) : Prop :=
  length (ctx_positions c') = length (ctx_positions c) /\
  length (ctx_velocities c') = length (ctx_velocities c).

Record shape_preserving (E : Engine) : Prop := {
  minimizer_shape : forall c p, minimizer E c = inr p -> length p = length (ctx_positions c);
  langevin_shape : forall c p v, langevin E c = inr (p, v) ->
      length p = length (ctx_positions c) /\ length v = length (ctx_velocities c);
  barostat_shape : forall pr t c, length (barostat_move E pr t c).1 = length (ctx_positions c);
  wrap_shape : forall b p, length (wrap E b p) = length p
}.

Record never_fails (E : Engine) : Prop := {
  minimizer_total : forall c, exists p, minimizer E c = inr p;
  langevin_total : forall c, exists pv, langevin E c = inr pv
}.

(** A simulation [k] steps after another, in the same surroundings but for
    files and trace. *)
Definition after_steps (s : Simulation) (w : World) (k : nat) (s' : Simulation) (w' : World)
    : Prop :=
  sim_topology s' = sim_topology s /\ sim_system s' = sim_system s /\
  sim_integrator s' = sim_integrator s /\ sim_reporters s' = sim_reporters s /\
  sim_currentStep s' = sim_currentStep s + Z.of_nat k /\
  same_setup (sim_context s) (sim_context s') /\
  ctx_steps (sim_context s') = ctx_steps (sim_context s) + Z.of_nat k /\
  n_contexts w' = n_contexts w /\ figure w' = figure w /\ stdout w' = stdout w.

Definition in_context (id : nat) (e : Event) : Prop :=
  e = EvStep id \/ exists p, e = EvReport id p.

Definition log_row (cols : list Column) (t : Z) (row : list (Column * Q)) : Prop :=
  map fst row = cols /\ forall v, (Step, v) ∈ row -> v = inject_Z t.

(** The file of a reporter after it reported at the steps [ts]. *)
Definition reported (r : Reporter) (ts : list Z) (f : option file) : Prop :=
  match r with
  | StateDataReporter _ _ cols =>
      exists rows, f = Some (Log rows) /\ Forall2 (log_row cols) ts rows
  | DCDReporter _ _ =>
      exists frames, f = Some (Dcd frames) /\ length frames = length ts
  end.

Definition the_log_columns : list Column := [Step; PotentialEnergy; Temperature; Density].

(** The system of both simulations: what [createSystem] gives, with the
    barostat added. *)
Definition the_system (p : AmberPrmtopFile) (b : Box) : System :=
  addForce (MonteCarloBarostat 1 300 25)
    {| sys_particles := length (top_atoms (prmtop_topology p));
       sys_constraints := HBonds; sys_box := b;
       sys_forces := [HarmonicBondForce; HarmonicAngleForce; PeriodicTorsionForce;
                      NonbondedForce PME 1; CMMotionRemover] |}.

Definition the_integrator : LangevinIntegrator :=
  {| lg_temperature := 300; lg_friction := 1; lg_stepSize := 2 |}.

(** The equilibration context when the minimiser is called. *)
Definition loaded_context (g : Names2) (s : System) (p : string) (id : nat) : Context :=
  let c := with_positions (inpcrd_positions (inpcrd g)) (new_context s the_integrator p id) in
  match inpcrd_boxVectors (inpcrd g) with
  | Some b => with_box b c
  | None => c
  end.

Definition the_npt_log : Reporter := StateDataReporter "water/npt.log" 1000 the_log_columns.

Definition the_dcd : Reporter := DCDReporter "water/production.dcd" 1000.
Definition the_production_log : Reporter :=
  StateDataReporter "water/production.log" 1000 the_log_columns.

Section Closed.
Variable E : Engine.

(** The equilibration simulation just before it runs, and its surroundings. *)
Definition npt_start (g : Names2) (b : Box) (p : string) (pmin : list Vec3) (id : nat)
    : Simulation :=
  let c := loaded_context g (the_system (prmtop g) b) p id in
  {| sim_topology := prmtop_topology (prmtop g);
     sim_system := the_system (prmtop g) b;
     sim_integrator := the_integrator;
     sim_context := evolve pmin (ctx_velocities c) (ctx_box c) false c;
     sim_currentStep := 0;
     sim_reporters := [the_npt_log] |}.

Definition npt_world (w : World) : World :=
  set_fs (insert "water/npt.log" (Log []))
    (record_event (EvMinimize (n_contexts w))
       (record_event (EvNewContext (n_contexts w))
          (set_n_contexts (S (n_contexts w)) w))).

(** The names bound by cell 3, from the simulation it ran. *)
Definition equilibrated (g : Names2) (b : Box) (t0 t1 : Q) (sim : Simulation) : Names3 :=
  let c := sim_context sim in
  {| names2 := g; system := the_system (prmtop g) b; start := t0;
     temperature := 300; pressure := 1; integratorNPT := the_integrator;
     simulationNPT := sim; end_npt := t1;
     state_eq := {| st_positions := Some (wrap E (ctx_box c) (ctx_positions c));
                    st_velocities := Some (ctx_velocities c);
                    st_box := ctx_box c |};
     positions_eq := wrap E (ctx_box c) (ctx_positions c);
     velocities_eq := ctx_velocities c;
     box_vectors_eq := ctx_box c |}.

(** The production simulation just before it runs, and its surroundings. *)
Definition prod_start (g : Names3) (p : string) (id : nat) : Simulation :=
  {| sim_topology := prmtop_topology (prmtop (names2 g));
     sim_system := system g;
     sim_integrator :=
       {| lg_temperature := temperature g; lg_friction := 1; lg_stepSize := 2 |};
     sim_context :=
       with_box (box_vectors_eq g)
         (with_velocities (velocities_eq g)
            (with_positions (positions_eq g)
               (new_context (system g)
                  {| lg_temperature := temperature g; lg_friction := 1; lg_stepSize := 2 |}
                  p id)));
     sim_currentStep := 0;
     sim_reporters := [the_dcd; the_production_log] |}.

Definition prod_world (w : World) : World :=
  set_fs (insert "water/production.log" (Log []))
    (set_fs (insert "water/production.dcd" (Dcd []))
       (record_event (EvNewContext (n_contexts w))
          (set_n_contexts (S (n_contexts w)) w))).
End Closed.

Definition prmtop_path : string := "water/water_box.prmtop".
Definition inpcrd_path : string := "water/water_box.inpcrd".

(** The surroundings after both input files were read. *)
Definition loaded_world (w : World) : World :=
  record_event (EvLoad inpcrd_path) (record_event (EvLoad prmtop_path) w).

Definition dcd_path : string := "water/production.dcd".

(** The analysis object of both calls, as [__init__] leaves it. *)
Definition the_rdf (g1 g2 : AtomGroup) : InterRDF :=
  {| rdf_g1 := g1; rdf_g2 := g2; rdf_nbins := PInt 75;
     rdf_range := PPair (PFloat 0) (PFloat 10); rdf_norm := "rdf";
     rdf_exclude_block := PNone; rdf_exclude_same := Some "resindices";
     rdf_verbose := false; rdf_results := None |}.


(** The atoms of one element, as [select_atoms] returns them. *)
Definition atoms_of_element (u : Universe) (el : string) : AtomGroup :=
  {| ag_universe := u;
     ag_ix := indices_where (fun a => String.eqb (atom_element a) el) 0 (u_atoms u) |}.

Definition the_view (u : Universe) : NGLView.Widget :=
  NGLView.center
    (NGLView.set_camera "orthographic"
       (NGLView.add_representation "ball+stick"
          (NGLView.clear_representations (NGLView.show_mdanalysis u)))).

Definition rdf_axes (title : string) (res : Results) : Axes :=
  {| ax_lines := [(res_bins res, res_rdf res)]; ax_title := title;
     ax_xlabel := "Distance (Å)"; ax_ylabel := "g(r)"; ax_grid := true |}.

(** The surroundings after the plotting cell. *)
Definition plotted (r0 r1 : Results) (w : World) : World :=
  {| fs := fs w; n_contexts := n_contexts w;
     figure := [rdf_axes "O-O RDF" r0; rdf_axes "O-H RDF" r1];
     stdout := stdout w; trace := EvPlot :: EvPlot :: trace w |}.

Definition frames_fit (atoms : list Atom) (frames : list Frame) : bool :=
  forallb (fun fr => bool_decide (length (frame_positions fr) = length atoms)) frames.

(** The frames of a trajectory file all have [n] positions. *)
Definition dcd_of_shape (n : nat) (f : option file) : Prop :=
  exists frames, f = Some (Dcd frames) /\
                 Forall (fun fr => length (frame_positions fr) = n) frames.

(** The pairs returned by the distance search index the two position
    arrays it was given. *)
Definition pairs_in_bounds (num : Numerics) : Prop :=
  forall p1 p2 m b,
    forallb (in_bounds (length p1) (length p2)) (capped_distance num p1 p2 m b) = true.

Inductive Stage : Type := Setup | Equilibration | Production | Analysis | Plotting.

(** The stage an event belongs to, in a run whose first context has the
    number [first]: that context is the equilibration's, the next one the
    production's. *)
Definition stage_of (first : nat) (e : Event) : option Stage :=
  match e with
  | EvLoad _ | EvGetPlatform _ => Some Setup
  | EvNewContext id | EvMinimize id | EvStep id | EvReport id _ =>
      if (id =? first)%nat then Some Equilibration
      else if (id =? S first)%nat then Some Production
      else None
  | EvTrajectory _ | EvRdfFrame => Some Analysis
  | EvPlot => Some Plotting
  end.

(** A non-empty run of events of one stage. *)
Definition in_stage (first : nat) (st : Stage) (evs : list Event) : Prop :=
  evs <> [] /\ Forall (fun e => stage_of first e = Some st) evs.

(** The events of a world in the order they happened. *)
Definition history (w : World) : list Event := reverse (trace w).

(** The two simulations the notebook constructs and runs, from the names
    bound by cell 2. *)
Definition simulations (E : Engine) (g : Names2) : M World (Simulation * Simulation) :=
  g3 <- cell3 E g ;;
  g4 <- cell4 E g3 ;;
  ret (simulationNPT g3, simulationProd g4).

(** The outcome of a computation with its value mapped. *)
Definition omap {A B S} (f : A -> B) (o : outcome A S) : outcome B S :=
  match o with
  | Ok a s => Ok (f a) s
  | Raise e s => Raise e s
  end.

Definition with_names2 (g : Names2) (g3 : Names3) : Names3 :=
  {| names2 := g; system := system g3; start := start g3; temperature := temperature g3;
     pressure := pressure g3; integratorNPT := integratorNPT g3;
     simulationNPT := simulationNPT g3; end_npt := end_npt g3; state_eq := state_eq g3;
     positions_eq := positions_eq g3; velocities_eq := velocities_eq g3;
     box_vectors_eq := box_vectors_eq g3 |}.

Definition with_names3 (g3 : Names3) (g4 : Names4) : Names4 :=
  {| names3 := g3; integratorProd := integratorProd g4;
     simulationProd := simulationProd g4; end_production := end_production g4 |}.

(** ** A small machine and a small water box:
    a machine without a GPU: the CPU and Reference platforms are installed,
    the dynamics leave the particles where they are, and the barostat grows
    the box at each of its moves.  The input files describe two water
    molecules. *)
Module Example.

Definition grow (b : Box) : Box :=
  (((Qnum b.1.1.1.1 + 1) # Qden b.1.1.1.1, b.1.1.1.2, b.1.1.2), b.1.2, b.2).

Definition engine : Engine :=
  {| registered := ["CPU"; "Reference"];
     usable := fun _ _ => true;
     minimizer := fun c => inr (ctx_positions c);
     langevin := fun c => inr (ctx_positions c, ctx_velocities c);
     barostat_move := fun _ _ c => (ctx_positions c, grow (ctx_box c));
     wrap := fun _ p => p;
     observable := fun _ _ => 0%Q;
     wall_clock := fun n => inject_Z (Z.of_nat n) |}.

Definition numerics : Numerics :=
  {| capped_distance := fun p1 p2 _ _ =>
       flat_map (fun i => map (fun j => (i, j, 3%Q)) (seq 0 (length p2)))
                (seq 0 (length p1));
     box_volume := fun _ => 1000%Q;
     pi := (355 # 113)%Q |}.

Definition water (r : nat) : list Atom :=
  [ {| atom_name := "O"; atom_element := "O"; atom_resindex := r; atom_segindex := 0 |};
    {| atom_name := "H1"; atom_element := "H"; atom_resindex := r; atom_segindex := 0 |};
    {| atom_name := "H2"; atom_element := "H"; atom_resindex := r; atom_segindex := 0 |} ].

Definition atoms : list Atom := water 0 ++ water 1.

Definition box : Box := ((3, 0, 0), (0, 3, 0), (0, 0, 3))%Q.

Definition positions : list Vec3 := replicate 6 zero3.

Definition world : World :=
  {| fs := {[ "water/water_box.prmtop" := Prmtop atoms (Some box);
              "water/water_box.inpcrd" := Inpcrd positions (Some box) ]};
     n_contexts := 0; figure := []; stdout := []; trace := [] |}.

(** The names cell 2 binds on this machine. *)
Definition names2 : Names2 :=
  {| prmtop := {| prmtop_topology := {| top_atoms := atoms |}; prmtop_box := Some box |};
     inpcrd := {| inpcrd_positions := positions; inpcrd_boxVectors := Some box |};
     platform := "Reference"; properties := None |}.

Definition frame : Frame := {| frame_positions := positions; frame_box := box |}.

Definition universe : Universe := {| u_atoms := atoms; u_trajectory := [frame] |}.

Definition names6 : Names6 := {| u := universe; view := the_view universe |}.

(** An equilibrated state to start a production run from. *)
Definition names3 : Names3 :=
  equilibrated engine names2 box 0 0
    (npt_start names2 box "CPU" positions 0).
End Example.

(** ** Frames and failures

    What a run leaves alone however it ends, what its result does not depend
    on, and inputs on which the set-up of a run fails. *)

(** The surroundings in which a computation ends, however it ends. *)
Definition world_of {A S} (o : outcome A S) : S :=
  match o with
  | Ok _ s => s
  | Raise _ s => s
  end.

(** The surroundings once a context was created. *)
Definition context_made (w : World) : World :=
  record_event (EvNewContext (n_contexts w)) (set_n_contexts (S (n_contexts w)) w).

(** A computation keeps a relation between the surroundings it starts in and
    those it ends in, whether it returns or raises. *)
Definition keeps {A} (R : World -> World -> Prop) (m : M World A) : Prop :=
  forall w, R w (world_of (m w)).

(** The files outside [outs] are as they were. *)
Definition same_outside (outs : list string) (w w' : World) : Prop :=
  forall q, q ∉ outs -> fs w' !! q = fs w !! q.

Definition same_stdout (w w' : World) : Prop := stdout w' = stdout w.

(** The files the notebook writes. *)
Definition output_paths : list string :=
  ["water/npt.log"; "water/production.dcd"; "water/production.log"].

(** The lines of cell 5. *)
Definition timing_lines (g : Names4) : list (string * option Q) :=
  [("Simulation completed!", None);
   ("Total Time:", Some (end_production g - start (names3 g))%Q);
   ("Equilibration 1: :", Some (end_npt (names3 g) - start (names3 g))%Q);
   ("Production: ", Some (end_production g - end_npt (names3 g))%Q)].

(** Every reporter of a simulation writes to one of the files [outs]. *)
Definition reports_within (outs : list string) (s : Simulation) : Prop :=
  forall r, r ∈ sim_reporters s -> file_of r ∈ outs.

(** A list of indices in strictly increasing order. *)
Definition increasing (l : list nat) : Prop :=
  forall i j x y, (i < j)%nat -> l !! i = Some x -> l !! j = Some y -> (x < y)%nat.


(** Input files without a periodic box, and with one position too few. *)
Definition names2_without_box : Names2 :=
  {| prmtop := {| prmtop_topology := {| top_atoms := Example.atoms |}; prmtop_box := None |};
     inpcrd := inpcrd Example.names2;
     platform := "Reference"; properties := None |}.

Definition names2_short : Names2 :=
  {| prmtop := prmtop Example.names2;
     inpcrd := {| inpcrd_positions := replicate 5 zero3;
                  inpcrd_boxVectors := Some Example.box |};
     platform := "Reference"; properties := None |}.

(** An equilibrated state that lost a velocity. *)
Definition names3_short : Names3 :=
  {| names2 := Example.names2; system := system Example.names3;
     start := 0; temperature := 300; pressure := 1;
     integratorNPT := integratorNPT Example.names3;
     simulationNPT := simulationNPT Example.names3; end_npt := 0;
     state_eq := state_eq Example.names3;
     positions_eq := positions_eq Example.names3;
     velocities_eq := replicate 5 zero3;
     box_vectors_eq := box_vectors_eq Example.names3 |}.

(** What a computation returns or raises, the surroundings left aside. *)
Definition value_of {A S} (o : outcome A S) : exn + A :=
  match o with
  | Ok a _ => inr a
  | Raise e _ => inl e
  end.

(** The value of a computation does not depend on the surroundings. *)
Definition blind {A} (m : M World A) : Prop :=
  forall w1 w2, value_of (m w1) = value_of (m w2).

(** ** Facts *)

Section MonadFacts.
Context {S A B : Type}.
Implicit Types (m : M S A) (k : A -> M S B).

Lemma bind_Ok m k s b s2 :
  bind m k s = Ok b s2 <-> exists a s1, m s = Ok a s1 /\ k a s1 = Ok b s2.
Proof.
  unfold bind. destruct (m s) as [a s1|e s1]; cbn; split.
  - intros H. exists a, s1. split; [reflexivity|exact H].
  - intros (a' & s' & Heq & Hk). congruence.
  - discriminate.
  - intros (a' & s' & Heq & _). discriminate.
Qed.

Lemma bind_Raise m k s e s2 :
  bind m k s = Raise e s2 <->
  m s = Raise e s2 \/ exists a s1, m s = Ok a s1 /\ k a s1 = Raise e s2.
Proof.
  unfold bind. destruct (m s) as [a s1|e1 s1]; cbn; split.
  - intros H. right. exists a, s1. split; [reflexivity|exact H].
  - intros [Heq|(a' & s' & Heq & Hk)]; congruence.
  - intros H. injection H as -> ->. left. reflexivity.
  - intros [Heq|(a' & s' & Heq & _)]; congruence.
Qed.

Lemma bind_eq_Ok m k s a s1 : m s = Ok a s1 -> bind m k s = k a s1.
Proof. unfold bind. now intros ->. Qed.

Lemma bind_eq_Raise m k s e s1 : m s = Raise e s1 -> bind m k s = Raise e s1.
Proof. unfold bind. now intros ->. Qed.

Lemma bind_assoc {C} m k (h : B -> M S C) s :
  bind (bind m k) h s = bind m (fun a => bind (k a) h) s.
Proof. unfold bind. destruct (m s); reflexivity. Qed.
End MonadFacts.

Section IterateFacts.
Context {S A : Type}.
Implicit Types (f : A -> M S A).

Lemma iterate_S_r n f a s :
  iterate (Datatypes.S n) f a s = bind (iterate n f a) f s.
Proof.
  revert a s. induction n as [|n IH]; intros a s.
  - cbn. unfold bind, ret. destruct (f a s); reflexivity.
  - change (iterate (Datatypes.S (Datatypes.S n)) f a)
      with (bind (f a) (iterate (Datatypes.S n) f)).
    change (iterate (Datatypes.S n) f a) with (bind (f a) (iterate n f)).
    rewrite bind_assoc.
    destruct (f a s) as [a1 s1|e s1] eqn:Hf.
    + rewrite !(bind_eq_Ok _ _ _ _ _ Hf). apply IH.
    + now rewrite !(bind_eq_Raise _ _ _ _ _ Hf).
Qed.

(** An invariant indexed by the number of rounds holds after [n] rounds. *)
Lemma iterate_ind (I : nat -> A -> S -> Prop) n f a s a' s' :
  I O a s ->
  (forall k a1 s1 a2 s2, (k < n)%nat -> I k a1 s1 -> f a1 s1 = Ok a2 s2 ->
                         I (Datatypes.S k) a2 s2) ->
  iterate n f a s = Ok a' s' ->
  I n a' s'.
Proof.
  revert a' s'. induction n as [|n IH]; intros a' s' H0 Hstep Hrun.
  - cbn in Hrun. unfold ret in Hrun. congruence.
  - rewrite iterate_S_r in Hrun. apply bind_Ok in Hrun as (a1 & s1 & Hn & Hlast).
    apply (Hstep n a1 s1); [lia| |exact Hlast].
    apply IH; [exact H0| |exact Hn].
    intros k b1 t1 b2 t2 Hk. apply Hstep. lia.
Qed.

(** A round that succeeds wherever [I] holds, and keeps it, can be repeated. *)
Lemma iterate_total (I : A -> S -> Prop) n f a s :
  (forall a1 s1, I a1 s1 -> exists a2 s2, f a1 s1 = Ok a2 s2 /\ I a2 s2) ->
  I a s ->
  exists a' s', iterate n f a s = Ok a' s' /\ I a' s'.
Proof.
  intros Hstep. revert a s. induction n as [|n IH]; intros a s HI.
  - exists a, s. split; [reflexivity|exact HI].
  - destruct (Hstep a s HI) as (a1 & s1 & Hf & HI1).
    destruct (IH a1 s1 HI1) as (a' & s' & Hrun & HI').
    exists a', s'. split; [|exact HI'].
    cbn. now rewrite (bind_eq_Ok _ _ _ _ _ Hf).
Qed.

(** A repetition raises exactly when one of its rounds does, after the
    earlier ones went through. *)
Lemma iterate_Raise n f a s e s' :
  iterate n f a s = Raise e s' <->
  exists k a1 s1, (k < n)%nat /\ iterate k f a s = Ok a1 s1 /\ f a1 s1 = Raise e s'.
Proof.
  induction n as [|n IH].
  - split; [discriminate|]. intros (k & _ & _ & Hk & _). lia.
  - rewrite iterate_S_r, bind_Raise. split.
    + intros [Hn|(a1 & s1 & Hn & Hlast)].
      * apply IH in Hn as (k & a1 & s1 & Hk & Hrun & Hf).
        exists k, a1, s1. split; [lia|auto].
      * exists n, a1, s1. split; [lia|auto].
    + intros (k & a1 & s1 & Hk & Hrun & Hf).
      destruct (decide (k = n)) as [->|Hne].
      * right. eauto.
      * left. apply IH. exists k, a1, s1. split; [lia|auto].
Qed.
End IterateFacts.


Section StepFacts.
Variable E : Engine.

Lemma report_eq s r w : report E s r w = Ok tt (report_world E s r w).
Proof. destruct r; reflexivity. Qed.

Lemma for_each_reports s rs w :
  for_each rs (fun r => if due r (sim_currentStep s) then report E s r else ret tt) w
  = Ok tt (reports_world E s rs w).
Proof.
  revert w. induction rs as [|r rs IH]; intros w; [reflexivity|].
  cbn [for_each]. unfold reports_world. cbn [fold_left].
  destruct (due r (sim_currentStep s)).
  - rewrite (bind_eq_Ok _ _ _ _ _ (report_eq s r w)). apply IH.
  - unfold bind at 1, ret at 1. apply IH.
Qed.

Lemma integrator_step_Ok c w c' w' :
  integrator_step E c w = Ok c' w' <->
  ctx_positions_set c = true /\
  exists pv, langevin E (updateContextState E c) = inr pv /\
             c' = next_context E c pv /\ w' = record_event (EvStep (ctx_id c)) w.
Proof.
  unfold integrator_step, require_positions, next_context.
  destruct (ctx_positions_set c); cbn.
  - unfold bind, ret, lift, emit, modify, raise.
    destruct (langevin E (updateContextState E c)) as [e|pv]; split.
    + discriminate.
    + intros (_ & pv & Hpv & _). discriminate.
    + intros H. injection H as <- <-. split; [reflexivity|]. exists pv. auto.
    + intros (_ & pv' & Hpv & -> & ->). injection Hpv as <-. reflexivity.
  - split; [discriminate|]. intros (H & _). discriminate.
Qed.

Lemma integrator_step_Raise c w e w' :
  integrator_step E c w = Raise e w' <->
  w' = w /\
  (ctx_positions_set c = false /\ e = OpenMMException "Particle positions have not been set"
   \/ ctx_positions_set c = true /\ langevin E (updateContextState E c) = inl e).
Proof.
  unfold integrator_step, require_positions.
  destruct (ctx_positions_set c); cbn.
  - unfold bind, ret, lift, emit, modify, raise.
    destruct (langevin E (updateContextState E c)) as [e1|pv]; split.
    + intros H. injection H as <- <-. split; [reflexivity|]. right. auto.
    + intros (-> & [(H & _)|(_ & H)]); [discriminate|]. injection H as <-. reflexivity.
    + discriminate.
    + intros (_ & [(H & _)|(_ & H)]); discriminate.
  - unfold raise. split.
    + intros H. injection H as <- <-. split; [reflexivity|]. left. auto.
    + intros (-> & [(_ & ->)|(H & _)]); [reflexivity|discriminate].
Qed.

Lemma step1_Ok s w s' w' :
  step1 E s w = Ok s' w' <->
  ctx_positions_set (sim_context s) = true /\
  exists pv, langevin E (updateContextState E (sim_context s)) = inr pv /\
             s' = advance (next_context E (sim_context s) pv) s /\
             w' = reports_world E s' (sim_reporters s)
                    (record_event (EvStep (ctx_id (sim_context s))) w).
Proof.
  unfold step1. rewrite bind_Ok. split.
  - intros (c & w1 & Hc & Hrest).
    apply integrator_step_Ok in Hc as (Hset & pv & Hpv & -> & ->).
    rewrite bind_Ok in Hrest. destruct Hrest as ([] & w2 & Hrep & Hret).
    cbn [advance sim_reporters sim_currentStep] in Hrep.
    rewrite (for_each_reports (advance (next_context E (sim_context s) pv) s)) in Hrep.
    injection Hrep as <-. unfold ret in Hret. injection Hret as <- <-.
    split; [exact Hset|]. exists pv. auto.
  - intros (Hset & pv & Hpv & -> & ->).
    exists (next_context E (sim_context s) pv),
           (record_event (EvStep (ctx_id (sim_context s))) w).
    split.
    + apply integrator_step_Ok. split; [exact Hset|]. exists pv. auto.
    + cbn [advance sim_reporters sim_currentStep].
      rewrite (bind_eq_Ok _ _ _ _ _
                 (for_each_reports (advance (next_context E (sim_context s) pv) s) _ _)).
      reflexivity.
Qed.

Lemma step1_Raise s w e w' :
  step1 E s w = Raise e w' <-> integrator_step E (sim_context s) w = Raise e w'.
Proof.
  unfold step1. rewrite bind_Raise. split.
  - intros [H|(c & w1 & Hc & Hrest)]; [exact H|].
    rewrite bind_Raise in Hrest. destruct Hrest as [H|(? & ? & _ & H)].
    + cbn [advance sim_reporters sim_currentStep] in H.
      rewrite (for_each_reports (advance c s)) in H. discriminate.
    + discriminate.
  - auto.
Qed.
End StepFacts.


Section FrameFacts.
Variable E : Engine.

Lemma same_setup_refl c : same_setup c c.
Proof. repeat split. Qed.

Lemma same_setup_trans c1 c2 c3 : same_setup c1 c2 -> same_setup c2 c3 -> same_setup c1 c3.
Proof.
  intros (?&?&?&?&?) (?&?&?&?&?). repeat split; congruence.
Qed.

Lemma force_update_setup c f :
  same_setup c (force_update E c f) /\
  ctx_steps (force_update E c f) = ctx_steps c /\
  ctx_velocities (force_update E c f) = ctx_velocities c.
Proof.
  destruct f; cbn; try (split; [apply same_setup_refl|split; reflexivity]).
  destruct ((0 <? frequency) && ((ctx_steps c + 1) mod frequency =? 0));
    (split; [repeat split|split; reflexivity]).
Qed.

Lemma fold_force_update_setup fs c :
  same_setup c (fold_left (force_update E) fs c) /\
  ctx_steps (fold_left (force_update E) fs c) = ctx_steps c /\
  ctx_velocities (fold_left (force_update E) fs c) = ctx_velocities c.
Proof.
  revert c. induction fs as [|f fs IH]; intros c; cbn [fold_left].
  - split; [apply same_setup_refl|split; reflexivity].
  - destruct (IH (force_update E c f)) as (H1 & H2 & H3).
    destruct (force_update_setup c f) as (G1 & G2 & G3).
    split; [eapply same_setup_trans; eassumption|split; congruence].
Qed.

Lemma updateContextState_setup c :
  same_setup c (updateContextState E c) /\
  ctx_steps (updateContextState E c) = ctx_steps c /\
  ctx_velocities (updateContextState E c) = ctx_velocities c.
Proof. apply fold_force_update_setup. Qed.

Lemma next_context_setup c pv :
  same_setup c (next_context E c pv) /\
  ctx_steps (next_context E c pv) = ctx_steps c + 1.
Proof.
  destruct (updateContextState_setup c) as ((?&?&?&?&?) & Hs & _).
  unfold next_context, same_setup, evolve. cbn. repeat split; congruence.
Qed.

Lemma report_world_frame s r w :
  n_contexts (report_world E s r w) = n_contexts w /\
  figure (report_world E s r w) = figure w /\
  stdout (report_world E s r w) = stdout w.
Proof. repeat split. Qed.

Lemma reports_world_frame s rs w :
  n_contexts (reports_world E s rs w) = n_contexts w /\
  figure (reports_world E s rs w) = figure w /\
  stdout (reports_world E s rs w) = stdout w.
Proof.
  revert w. induction rs as [|r rs IH]; intros w; [repeat split|].
  unfold reports_world. cbn [fold_left].
  destruct (due r (sim_currentStep s)); [|apply IH].
  destruct (IH (report_world E s r w)) as (?&?&?). repeat split; assumption.
Qed.

Lemma after_steps_O s w : after_steps s w O s w.
Proof.
  unfold after_steps. rewrite !Z.add_0_r.
  repeat split.
Qed.

Lemma after_steps_S s w k s1 w1 s2 w2 :
  after_steps s w k s1 w1 -> step1 E s1 w1 = Ok s2 w2 ->
  after_steps s w (S k) s2 w2.
Proof.
  intros (Ht & Hsys & Hi & Hr & Hc & Hsetup & Hsteps & Hn & Hf & Ho) Hstep.
  apply step1_Ok in Hstep as (_ & pv & _ & -> & ->).
  destruct (next_context_setup (sim_context s1) pv) as (Hs' & Hst').
  destruct (reports_world_frame
              (advance (next_context E (sim_context s1) pv) s1) (sim_reporters s1)
              (record_event (EvStep (ctx_id (sim_context s1))) w1)) as (G1 & G2 & G3).
  unfold after_steps. cbn [advance sim_topology sim_system sim_integrator sim_reporters
                           sim_currentStep sim_context].
  rewrite G1, G2, G3. cbn [record_event n_contexts figure stdout].
  repeat split; try congruence; try lia.
  - destruct Hsetup as (?&?&?&?&?), Hs' as (?&?&?&?&?). congruence.
  - destruct Hsetup as (?&?&?&?&?), Hs' as (?&?&?&?&?). congruence.
  - destruct Hsetup as (?&?&?&?&?), Hs' as (?&?&?&?&?). congruence.
  - destruct Hsetup as (?&?&?&?&?), Hs' as (?&?&?&?&?). congruence.
  - destruct Hsetup as (?&?&?&?&?), Hs' as (?&?&?&?&?). congruence.
Qed.

(** What [n] steps leave as they found it, and what they count. *)
Lemma steps_frame n s w s' w' :
  iterate n (step1 E) s w = Ok s' w' -> after_steps s w n s' w'.
Proof.
  apply (iterate_ind (after_steps s w)); [apply after_steps_O|].
  intros k s1 w1 s2 w2 _. apply after_steps_S.
Qed.
End FrameFacts.


Section FileFacts.
Variable E : Engine.

Lemma due_steps_S k c n :
  due_steps k c (S n) =
  due_steps k c n ++ (if decide ((c + Z.of_nat (S n)) mod k = 0)
                      then [c + Z.of_nat (S n)] else []).
Proof.
  unfold due_steps. rewrite seq_S, map_app, filter_app. f_equal.
Qed.

Lemma due_decide r t : due r t = bool_decide (t mod interval_of r = 0).
Proof.
  unfold due. destruct (Z.eqb_spec (t mod interval_of r) 0) as [H|H].
  - now rewrite bool_decide_eq_true_2.
  - now rewrite bool_decide_eq_false_2.
Qed.

Lemma report_world_fs_other s r w p :
  p <> file_of r -> fs (report_world E s r w) !! p = fs w !! p.
Proof.
  intros Hne. unfold report_world. cbn [record_event set_fs fs].
  now rewrite lookup_partial_alter_ne.
Qed.

Lemma reports_world_fs_other s rs w p :
  p ∉ file_of <$> rs -> fs (reports_world E s rs w) !! p = fs w !! p.
Proof.
  revert w. induction rs as [|r rs IH]; intros w Hp; [reflexivity|].
  rewrite fmap_cons, not_elem_of_cons in Hp. destruct Hp as (Hne & Hp).
  unfold reports_world. cbn [fold_left].
  destruct (due r (sim_currentStep s)).
  - etrans; [apply (IH _ Hp)|]. now apply report_world_fs_other.
  - apply (IH _ Hp).
Qed.

Lemma report_world_reported s r ts w :
  reported r ts (fs w !! file_of r) ->
  reported r (ts ++ [sim_currentStep s]) (fs (report_world E s r w) !! file_of r).
Proof.
  unfold report_world. cbn [record_event set_fs fs].
  rewrite lookup_partial_alter_eq.
  destruct r as [file i cols|file i]; cbn [reported file_of].
  - intros (rows & -> & Hrows). cbn [append_row].
    eexists. split; [reflexivity|].
    apply Forall2_app; [exact Hrows|]. constructor; [|constructor].
    split.
    + rewrite map_map. cbn. apply map_id.
    + intros v Hv. apply list_elem_of_fmap in Hv as (c & Heq & _).
      injection Heq as <- ->. reflexivity.
  - intros (frames & -> & Hlen). cbn [append_frame].
    eexists. split; [reflexivity|]. rewrite !length_app, Hlen. reflexivity.
Qed.

Lemma reports_world_reported s rs r ts w :
  NoDup (file_of <$> rs) -> r ∈ rs ->
  reported r ts (fs w !! file_of r) ->
  reported r (ts ++ (if due r (sim_currentStep s) then [sim_currentStep s] else []))
           (fs (reports_world E s rs w) !! file_of r).
Proof.
  revert w. induction rs as [|r0 rs IH]; intros w Hnd Hin Hrep.
  - apply elem_of_nil in Hin as [].
  - rewrite fmap_cons in Hnd. apply NoDup_cons in Hnd as (Hfresh & Hnd).
    unfold reports_world. cbn [fold_left].
    apply elem_of_cons in Hin as [->|Hin].
    + fold (reports_world E s rs
              (if due r0 (sim_currentStep s) then report_world E s r0 w else w)).
      rewrite (reports_world_fs_other s rs _ _ Hfresh).
      destruct (due r0 (sim_currentStep s)).
      * now apply report_world_reported.
      * now rewrite app_nil_r.
    + apply (IH _ Hnd Hin).
      destruct (due r0 (sim_currentStep s)); [|exact Hrep].
      rewrite report_world_fs_other; [exact Hrep|].
      intros Heq. apply Hfresh. rewrite <- Heq. apply list_elem_of_fmap. eauto.
Qed.

(** After [n] steps the file of each reporter holds, besides what it held,
    one entry for every step since that is a multiple of its interval. *)
Lemma steps_reported n s w s' w' r ts :
  NoDup (file_of <$> sim_reporters s) -> r ∈ sim_reporters s ->
  reported r ts (fs w !! file_of r) ->
  iterate n (step1 E) s w = Ok s' w' ->
  reported r (ts ++ due_steps (interval_of r) (sim_currentStep s) n)
           (fs w' !! file_of r).
Proof.
  intros Hnd Hin Hrep.
  apply (iterate_ind (fun k s1 w1 =>
           after_steps s w k s1 w1 /\
           reported r (ts ++ due_steps (interval_of r) (sim_currentStep s) k)
                    (fs w1 !! file_of r))).
  - split; [apply after_steps_O|]. unfold due_steps. cbn. now rewrite app_nil_r.
  - intros k s1 w1 s2 w2 _ (Hfr & Hk) Hstep.
    pose proof (after_steps_S E _ _ _ _ _ _ _ Hfr Hstep) as Hfr2.
    split; [exact Hfr2|].
    destruct Hfr as (_ & _ & _ & Hrs & Hcur & _).
    destruct Hfr2 as (_ & _ & _ & _ & Hcur2 & _).
    apply step1_Ok in Hstep as (_ & pv & _ & Hs2 & ->).
    rewrite due_steps_S, app_assoc.
    rewrite Hrs.
    pose proof (reports_world_reported s2 (sim_reporters s) r _
                  (record_event (EvStep (ctx_id (sim_context s1))) w1) Hnd Hin Hk) as H.
    rewrite due_decide, Hcur2 in H.
    destruct (decide ((sim_currentStep s + Z.of_nat (S k)) mod interval_of r = 0)) as [Hd|Hd].
    + rewrite bool_decide_eq_true_2 in H by exact Hd. exact H.
    + rewrite bool_decide_eq_false_2 in H by exact Hd. exact H.
Qed.

Lemma steps_fs_other n s w s' w' p :
  p ∉ file_of <$> sim_reporters s ->
  iterate n (step1 E) s w = Ok s' w' ->
  fs w' !! p = fs w !! p.
Proof.
  intros Hp.
  apply (iterate_ind (fun k s1 w1 =>
           after_steps s w k s1 w1 /\ fs w1 !! p = fs w !! p)).
  - split; [apply after_steps_O|reflexivity].
  - intros k s1 w1 s2 w2 _ (Hfr & Hk) Hstep.
    split; [eapply after_steps_S; eassumption|].
    destruct Hfr as (_ & _ & _ & Hrs & _).
    apply step1_Ok in Hstep as (_ & pv & _ & _ & ->).
    rewrite reports_world_fs_other by (rewrite Hrs; exact Hp). exact Hk.
Qed.

Lemma reports_world_trace s rs w :
  exists evs, trace (reports_world E s rs w) = evs ++ trace w /\
              Forall (in_context (ctx_id (sim_context s))) evs.
Proof.
  revert w. induction rs as [|r rs IH]; intros w.
  - exists []. split; [reflexivity|constructor].
  - unfold reports_world. cbn [fold_left].
    destruct (due r (sim_currentStep s)); [|apply IH].
    destruct (IH (report_world E s r w)) as (evs & Heq & Hall).
    exists (evs ++ [EvReport (ctx_id (sim_context s)) (file_of r)]). split.
    + unfold reports_world in Heq. rewrite Heq. now rewrite <- app_assoc.
    + apply Forall_app. split; [exact Hall|]. constructor; [|constructor].
      right. eauto.
Qed.

(** The events of [n] steps: [n] integrator steps and the reports between
    them, all of the one context. *)
Lemma steps_trace n s w s' w' :
  iterate n (step1 E) s w = Ok s' w' ->
  exists evs, trace w' = evs ++ trace w /\
              Forall (in_context (ctx_id (sim_context s))) evs /\
              (n <= length evs)%nat.
Proof.
  apply (iterate_ind (fun k s1 w1 =>
           after_steps s w k s1 w1 /\
           exists evs, trace w1 = evs ++ trace w /\
                       Forall (in_context (ctx_id (sim_context s))) evs /\
                       (k <= length evs)%nat)).
  - split; [apply after_steps_O|]. exists []. split; [reflexivity|].
    split; [constructor|reflexivity].
  - intros k s1 w1 s2 w2 _ (Hfr & evs & Heq & Hall & Hlen) Hstep.
    split; [eapply after_steps_S; eassumption|].
    destruct Hfr as (_ & _ & _ & _ & _ & (Hid & _) & _).
    apply step1_Ok in Hstep as (_ & pv & _ & Hs2 & ->).
    destruct (reports_world_trace s2 (sim_reporters s1)
                (record_event (EvStep (ctx_id (sim_context s1))) w1))
      as (evs2 & Heq2 & Hall2).
    exists (evs2 ++ EvStep (ctx_id (sim_context s1)) :: evs). split; [|split].
    + rewrite Heq2. cbn [record_event trace]. rewrite Heq.
      now rewrite <- app_assoc.
    + apply Forall_app. split.
      * assert (ctx_id (sim_context s2) = ctx_id (sim_context s)) as <-; [|exact Hall2].
        rewrite Hs2. cbn [advance sim_context].
        destruct (next_context_setup E (sim_context s1) pv) as ((-> & _) & _).
        exact Hid.
      * constructor; [|exact Hall]. left. now rewrite Hid.
    + rewrite length_app. cbn [length]. lia.
Qed.
End FileFacts.


Section ArithFacts.
Lemma div_succ_due k n : 0 < k -> 0 <= n -> (n + 1) mod k = 0 -> (n + 1) / k = n / k + 1.
Proof. intros Hk Hn Hm. Z.div_mod_to_equations. nia. Qed.

Lemma div_succ_not_due k n : 0 < k -> 0 <= n -> (n + 1) mod k <> 0 -> (n + 1) / k = n / k.
Proof. intros Hk Hn Hm. Z.div_mod_to_equations. nia. Qed.

(** From step 0, [n] steps meet [n / k] multiples of [k]. *)
Lemma due_steps_length k n :
  0 < k -> length (due_steps k 0 n) = Z.to_nat (Z.of_nat n / k).
Proof.
  intros Hk. induction n as [|n IH].
  - cbn. now rewrite Z.div_0_l by lia.
  - rewrite due_steps_S, length_app, IH.
    replace (0 + Z.of_nat (S n)) with (Z.of_nat n + 1) by lia.
    replace (Z.of_nat (S n)) with (Z.of_nat n + 1) by lia.
    assert (0 <= Z.of_nat n / k) by (apply Z.div_pos; lia).
    destruct (decide ((Z.of_nat n + 1) mod k = 0)) as [Hd|Hd].
    + rewrite div_succ_due by lia. cbn [length]. lia.
    + rewrite div_succ_not_due by lia. cbn [length]. lia.
Qed.

Lemma due_steps_spec k c n t :
  t ∈ due_steps k c n <-> t mod k = 0 /\ c < t <= c + Z.of_nat n.
Proof.
  unfold due_steps. rewrite list_elem_of_filter, list_elem_of_fmap. split.
  - intros (Hm & i & -> & Hi). apply elem_of_seq in Hi. split; [exact Hm|lia].
  - intros (Hm & Ht). split; [exact Hm|].
    exists (Z.to_nat (t - c)). split; [lia|]. apply elem_of_seq. lia.
Qed.
End ArithFacts.

Section ShapeFacts.
Variable E : Engine.
Hypothesis shapes : shape_preserving E.

Lemma force_update_shape c f :
  length (ctx_positions (force_update E c f)) = length (ctx_positions c).
Proof.
  destruct f; cbn; try reflexivity.
  destruct ((0 <? frequency) && ((ctx_steps c + 1) mod frequency =? 0)); [|reflexivity].
  cbn. apply (barostat_shape E shapes).
Qed.

Lemma updateContextState_shape c :
  length (ctx_positions (updateContextState E c)) = length (ctx_positions c).
Proof.
  unfold updateContextState. generalize (sys_forces (ctx_system c)) as fs.
  intros fs. revert c. induction fs as [|f fs IH]; intros c; cbn [fold_left].
  - reflexivity.
  - rewrite IH. apply force_update_shape.
Qed.

Lemma next_context_shape c pv :
  langevin E (updateContextState E c) = inr pv -> same_shape c (next_context E c pv).
Proof.
  destruct pv as [p v]. intros H.
  apply (langevin_shape E shapes) in H as (Hp & Hv).
  destruct (updateContextState_setup E c) as (_ & _ & Hvel).
  unfold same_shape, next_context. cbn.
  rewrite Hp, Hv, Hvel, updateContextState_shape. split; reflexivity.
Qed.

(** Stepping keeps the number of positions and of velocities. *)
Lemma steps_shape n s w s' w' :
  iterate n (step1 E) s w = Ok s' w' -> same_shape (sim_context s) (sim_context s').
Proof.
  apply (iterate_ind (fun _ s1 _ => same_shape (sim_context s) (sim_context s1))).
  - split; reflexivity.
  - intros k s1 w1 s2 w2 _ (Hp & Hv) Hstep.
    apply step1_Ok in Hstep as (_ & pv & Hpv & -> & _).
    apply next_context_shape in Hpv as (Hp2 & Hv2).
    split; cbn [advance sim_context]; congruence.
Qed.
End ShapeFacts.

Section TotalFacts.
Variable E : Engine.
Hypothesis total : never_fails E.

(** With dynamics that never fail, any number of steps can be run once the
    positions are set. *)
Lemma steps_total n s w :
  ctx_positions_set (sim_context s) = true ->
  exists s' w', iterate n (step1 E) s w = Ok s' w'.
Proof.
  intros Hset.
  destruct (iterate_total (fun s1 _ => ctx_positions_set (sim_context s1) = true)
              n (step1 E) s w) as (s' & w' & Hrun & _); [|exact Hset|eauto].
  intros s1 w1 H1.
  destruct (langevin_total E total (updateContextState E (sim_context s1))) as (pv & Hpv).
  eexists _, _. split.
  - apply step1_Ok. split; [exact H1|]. exists pv. split; [exact Hpv|]. split; reflexivity.
  - cbn [advance sim_context].
    destruct (next_context_setup E (sim_context s1) pv) as ((_&_&_&_&->) & _). exact H1.
Qed.
End TotalFacts.


Section CallFacts.
Variable E : Engine.

Lemma AmberPrmtopFile_new_Ok p w r w' :
  AmberPrmtopFile_new p w = Ok r w' <->
  exists atoms box, fs w !! p = Some (Prmtop atoms box) /\
    r = {| prmtop_topology := {| top_atoms := atoms |}; prmtop_box := box |} /\
    w' = record_event (EvLoad p) w.
Proof.
  unfold AmberPrmtopFile_new, bind, emit, modify, get, ret, raise. cbn.
  destruct (fs w !! p) as [[]|]; split; try discriminate;
    try (intros (a & b & H & _); discriminate).
  - intros H. injection H as <- <-. eauto.
  - intros (a & b & H & -> & ->). injection H as <- <-. reflexivity.
Qed.

Lemma AmberInpcrdFile_new_Ok p w r w' :
  AmberInpcrdFile_new p w = Ok r w' <->
  exists pos box, fs w !! p = Some (Inpcrd pos box) /\
    r = {| inpcrd_positions := pos; inpcrd_boxVectors := box |} /\
    w' = record_event (EvLoad p) w.
Proof.
  unfold AmberInpcrdFile_new, bind, emit, modify, get, ret, raise. cbn.
  destruct (fs w !! p) as [[]|]; split; try discriminate;
    try (intros (a & b & H & _); discriminate).
  - intros H. injection H as <- <-. eauto.
  - intros (a & b & H & -> & ->). injection H as <- <-. reflexivity.
Qed.

Lemma getPlatformByName_Ok name w p w' :
  getPlatformByName E name w = Ok p w' <->
  name ∈ registered E /\ p = name /\ w' = record_event (EvGetPlatform name) w.
Proof.
  unfold getPlatformByName, bind, emit, modify, ret, raise. cbn.
  case_bool_decide; split.
  - intros H'. injection H' as <- <-. auto.
  - intros (_ & -> & ->). reflexivity.
  - discriminate.
  - intros (H' & _). contradiction.
Qed.

Lemma getPlatformByName_Raise name w e w' :
  getPlatformByName E name w = Raise e w' <->
  (name ∉ registered E) /\
  e = OpenMMException ("There is no registered Platform called " +:+ name) /\
  w' = record_event (EvGetPlatform name) w.
Proof.
  unfold getPlatformByName, bind, emit, modify, ret, raise. cbn.
  case_bool_decide; split.
  - discriminate.
  - intros (H' & _). contradiction.
  - intros H'. injection H' as <- <-. auto.
  - intros (_ & -> & ->). reflexivity.
Qed.

Lemma createSystem_Ok p cutoff k w s w' :
  createSystem p PME cutoff k w = Ok s w' <->
  exists b, prmtop_box p = Some b /\ w' = w /\
    s = {| sys_particles := length (top_atoms (prmtop_topology p));
           sys_constraints := k; sys_box := b;
           sys_forces := [HarmonicBondForce; HarmonicAngleForce; PeriodicTorsionForce;
                          NonbondedForce PME cutoff; CMMotionRemover] |}.
Proof.
  unfold createSystem, ret, raise. cbn.
  destruct (prmtop_box p) as [b|]; split.
  - intros H. injection H as <- <-. eauto.
  - intros (b' & Hb & -> & ->). injection Hb as <-. reflexivity.
  - discriminate.
  - intros (b' & Hb & _). discriminate.
Qed.

Lemma Simulation_new_Ok t s i w sim w' :
  Simulation_new E t s i None None w = Ok sim w' <->
  exists p, List.find (fun p => usable E p s) (registered E) = Some p /\
    sim = {| sim_topology := t; sim_system := s; sim_integrator := i;
             sim_context := new_context s i p (n_contexts w);
             sim_currentStep := 0; sim_reporters := [] |} /\
    w' = record_event (EvNewContext (n_contexts w)) (set_n_contexts (S (n_contexts w)) w).
Proof.
  unfold Simulation_new, Context_new, bind, emit, modify, get, ret, raise. cbn.
  destruct (List.find (fun p => usable E p s) (registered E)) as [p|]; split.
  - intros H. injection H as <- <-. eauto.
  - intros (p' & Hp & -> & ->). injection Hp as <-. reflexivity.
  - discriminate.
  - intros (p' & Hp & _). discriminate.
Qed.

Lemma setPositions_Ok p c w c' w' :
  setPositions p c w = Ok c' w' <->
  length p = sys_particles (ctx_system c) /\ c' = with_positions p c /\ w' = w.
Proof.
  unfold setPositions, ret, raise. case_bool_decide; split.
  - intros H'. injection H' as <- <-. auto.
  - intros (_ & -> & ->). reflexivity.
  - discriminate.
  - intros (H' & _). contradiction.
Qed.

Lemma setVelocities_Ok v c w c' w' :
  setVelocities v c w = Ok c' w' <->
  length v = sys_particles (ctx_system c) /\ c' = with_velocities v c /\ w' = w.
Proof.
  unfold setVelocities, ret, raise. case_bool_decide; split.
  - intros H'. injection H' as <- <-. auto.
  - intros (_ & -> & ->). reflexivity.
  - discriminate.
  - intros (H' & _). contradiction.
Qed.

Lemma setPeriodicBoxVectors_Ok b c w c' w' :
  setPeriodicBoxVectors b c w = Ok c' w' <-> c' = with_box b c /\ w' = w.
Proof.
  unfold setPeriodicBoxVectors, ret. split.
  - intros H. injection H as <- <-. auto.
  - intros (-> & ->). reflexivity.
Qed.

Lemma minimizeEnergy_Ok s w s' w' :
  minimizeEnergy E s w = Ok s' w' <->
  ctx_positions_set (sim_context s) = true /\
  exists p, minimizer E (sim_context s) = inr p /\
    s' = set_context (evolve p (ctx_velocities (sim_context s)) (ctx_box (sim_context s))
                        false (sim_context s)) s /\
    w' = record_event (EvMinimize (ctx_id (sim_context s))) w.
Proof.
  unfold minimizeEnergy, require_positions, bind, lift, emit, modify, ret, raise.
  destruct (ctx_positions_set (sim_context s)); cbn.
  - destruct (minimizer E (sim_context s)) as [e|p]; split.
    + discriminate.
    + intros (_ & p & Hp & _). discriminate.
    + intros H. injection H as <- <-. split; [reflexivity|]. eauto.
    + intros (_ & p' & Hp & -> & ->). injection Hp as <-. reflexivity.
  - split; [discriminate|]. intros (H & _). discriminate.
Qed.

Lemma log_keywords_declared :
  undeclared (map keyword all_columns ++ ["separator"; "systemMass"; "totalSteps"; "append"])
             Notebook.npt_log_columns = [].
Proof. vm_compute. reflexivity. Qed.

Lemma log_keywords_flags :
  flag Notebook.npt_log_columns "progress" = false /\
  flag Notebook.npt_log_columns "remainingTime" = false /\
  flag Notebook.npt_log_columns "append" = false.
Proof. vm_compute. auto. Qed.

Lemma log_keywords_columns :
  filter (fun c => flag Notebook.npt_log_columns (keyword c) = true) all_columns
  = the_log_columns.
Proof. vm_compute. reflexivity. Qed.

(** The log reporter of both stages: the four columns, a fresh file. *)
Lemma StateDataReporter_new_log file interval w :
  StateDataReporter_new file interval Notebook.npt_log_columns w
  = Ok (StateDataReporter file interval the_log_columns)
       (set_fs (insert file (Log [])) w).
Proof.
  unfold StateDataReporter_new, check_keywords.
  rewrite log_keywords_declared, log_keywords_columns.
  destruct log_keywords_flags as (-> & -> & ->). reflexivity.
Qed.

Lemma getState_Ok c w st w' :
  getState E c true true true w = Ok st w' <->
  ctx_positions_set c = true /\ w' = w /\
  st = {| st_positions := Some (wrap E (ctx_box c) (ctx_positions c));
          st_velocities := Some (ctx_velocities c);
          st_box := ctx_box c |}.
Proof.
  unfold getState, require_positions, bind, ret, raise.
  destruct (ctx_positions_set c); split.
  - intros H. injection H as <- <-. auto.
  - intros (_ & -> & ->). reflexivity.
  - discriminate.
  - intros (H & _). discriminate.
Qed.
End CallFacts.


Tactic Notation "inv_bind" hyp(H) "as" ident(a) ident(w) ident(H1) :=
  apply bind_Ok in H as (a & w & H1 & H).

Section CellFacts.
Variable E : Engine.

Lemma time_time_Ok w t w' :
  time_time E w = Ok t w' <-> t = wall_clock E (length (trace w)) /\ w' = w.
Proof.
  unfold time_time, bind, get, ret. split.
  - intros H. injection H as <- <-. auto.
  - intros (-> & ->). reflexivity.
Qed.

Lemma loaded_context_fields g s p id :
  let c := loaded_context g s p id in
  ctx_id c = id /\ ctx_system c = s /\ ctx_integrator c = the_integrator /\
  ctx_platform c = p /\ ctx_positions_set c = true /\
  ctx_positions c = inpcrd_positions (inpcrd g) /\
  ctx_velocities c = replicate (sys_particles s) zero3 /\ ctx_steps c = 0.
Proof.
  unfold loaded_context. destruct (inpcrd_boxVectors (inpcrd g)); cbn; repeat split.
Qed.

Lemma equilibration_setup_Ok g w r w' :
  equilibration_setup E g w = Ok r w' <->
  exists b p pmin,
    prmtop_box (prmtop g) = Some b /\
    List.find (fun p => usable E p (the_system (prmtop g) b)) (registered E) = Some p /\
    length (inpcrd_positions (inpcrd g)) = length (top_atoms (prmtop_topology (prmtop g))) /\
    let c := loaded_context g (the_system (prmtop g) b) p (n_contexts w) in
    minimizer E c = inr pmin /\
    r = (the_system (prmtop g) b, wall_clock E (length (trace w)),
         {| sim_topology := prmtop_topology (prmtop g);
            sim_system := the_system (prmtop g) b;
            sim_integrator := the_integrator;
            sim_context := evolve pmin (ctx_velocities c) (ctx_box c) false c;
            sim_currentStep := 0;
            sim_reporters := [the_npt_log] |}) /\
    w' = set_fs (insert "water/npt.log" (Log []))
           (record_event (EvMinimize (n_contexts w))
              (record_event (EvNewContext (n_contexts w))
                 (set_n_contexts (S (n_contexts w)) w))).
Proof.
  unfold equilibration_setup. split.
  - intros H.
    inv_bind H as s0 w0 H0. apply createSystem_Ok in H0 as (b & Hb & -> & ->).
    inv_bind H as t0 w0 H0. apply time_time_Ok in H0 as (-> & ->).
    inv_bind H as sim0 w0 H0. apply Simulation_new_Ok in H0 as (p & Hp & -> & ->).
    inv_bind H as c0 w0 H0. apply setPositions_Ok in H0 as (Hlen & -> & ->).
    inv_bind H as sim1 w1 H0.
    assert (sim1 = set_context
                  (loaded_context g (the_system (prmtop g) b) p (n_contexts w))
                  {| sim_topology := prmtop_topology (prmtop g);
                     sim_system := the_system (prmtop g) b;
                     sim_integrator := the_integrator;
                     sim_context := new_context (the_system (prmtop g) b) the_integrator p
                                      (n_contexts w);
                     sim_currentStep := 0; sim_reporters := [] |} /\
            w1 = record_event (EvNewContext (n_contexts w))
                   (set_n_contexts (S (n_contexts w)) w)) as (-> & ->).
    { unfold loaded_context. destruct (inpcrd_boxVectors (inpcrd g)) as [bv|].
      - inv_bind H0 as c1 w2 H1. apply setPeriodicBoxVectors_Ok in H1 as (-> & ->).
        unfold ret in H0. injection H0 as <- <-. split; reflexivity.
      - unfold ret in H0. injection H0 as <- <-. split; reflexivity. }
    clear H0.
    inv_bind H as sim2 w2 H0. apply minimizeEnergy_Ok in H0 as (_ & pmin & Hmin & -> & ->).
    inv_bind H as r0 w2 H0. rewrite StateDataReporter_new_log in H0. injection H0 as <- <-.
    unfold ret in H. injection H as <- <-.
    exists b, p, pmin. split; [exact Hb|]. split; [exact Hp|]. split; [exact Hlen|].
    cbn zeta. split; [exact Hmin|].
    cbn [set_context sim_context].
    destruct (loaded_context_fields g (the_system (prmtop g) b) p (n_contexts w))
      as (-> & _).
    split; reflexivity.
  - intros (b & p & pmin & Hb & Hp & Hlen & Hmin & -> & ->). cbn zeta in Hmin.
    erewrite bind_eq_Ok by (apply createSystem_Ok; eauto).
    erewrite bind_eq_Ok by (apply time_time_Ok; eauto).
    erewrite bind_eq_Ok by (apply Simulation_new_Ok; exists p; eauto).
    erewrite bind_eq_Ok by (apply setPositions_Ok; cbn; eauto).
    erewrite bind_eq_Ok with
      (a := set_context (loaded_context g (the_system (prmtop g) b) p (n_contexts w)) _).
    2:{ unfold loaded_context. destruct (inpcrd_boxVectors (inpcrd g)) as [bv|].
        - erewrite bind_eq_Ok by (apply setPeriodicBoxVectors_Ok; eauto). reflexivity.
        - reflexivity. }
    erewrite bind_eq_Ok.
    2:{ apply minimizeEnergy_Ok. split.
        - apply loaded_context_fields.
        - exists pmin. split; [exact Hmin|]. split; reflexivity. }
    erewrite bind_eq_Ok by apply StateDataReporter_new_log.
    cbn [set_context sim_context].
    destruct (loaded_context_fields g (the_system (prmtop g) b) p (n_contexts w))
      as (-> & _).
    reflexivity.
Qed.
End CellFacts.


Section RunFacts.
Variable E : Engine.

Lemma steps_positions_set n s w s' w' :
  iterate n (step1 E) s w = Ok s' w' ->
  ctx_positions_set (sim_context s') = ctx_positions_set (sim_context s).
Proof.
  intros H. apply steps_frame in H as (_&_&_&_&_&(_&_&_&_&H)&_). exact H.
Qed.

Lemma npt_start_set g b p pmin id :
  ctx_positions_set (sim_context (npt_start g b p pmin id)) = true.
Proof. cbn. apply loaded_context_fields. Qed.

Lemma cell3_Ok g w g3 w3 :
  cell3 E g w = Ok g3 w3 <->
  exists b p pmin sim,
    prmtop_box (prmtop g) = Some b /\
    List.find (fun p => usable E p (the_system (prmtop g) b)) (registered E) = Some p /\
    length (inpcrd_positions (inpcrd g)) = length (top_atoms (prmtop_topology (prmtop g))) /\
    minimizer E (loaded_context g (the_system (prmtop g) b) p (n_contexts w)) = inr pmin /\
    iterate (Z.to_nat 50000) (step1 E) (npt_start g b p pmin (n_contexts w)) (npt_world w)
      = Ok sim w3 /\
    g3 = equilibrated E g b (wall_clock E (length (trace w)))
           (wall_clock E (length (trace w3))) sim.
Proof.
  unfold cell3. split.
  - intros H.
    inv_bind H as r0 w0 H0.
    apply equilibration_setup_Ok in H0 as (b & p & pmin & Hb & Hp & Hlen & Hmin & -> & ->).
    cbn zeta in Hmin. cbn [fst snd] in H.
    inv_bind H as sim w1 Hrun. unfold Simulation_step in Hrun.
    inv_bind H as t1 w2 H0. apply time_time_Ok in H0 as (-> & ->).
    inv_bind H as st w2 H0. apply getState_Ok in H0 as (Hset & -> & ->).
    unfold State_getPositions, State_getVelocities, State_getPeriodicBoxVectors,
      bind, ret in H. cbn in H. injection H as <- <-.
    exists b, p, pmin, sim. auto 10.
  - intros (b & p & pmin & sim & Hb & Hp & Hlen & Hmin & Hrun & ->).
    erewrite bind_eq_Ok.
    2:{ apply equilibration_setup_Ok. exists b, p, pmin. cbn zeta. auto 10. }
    cbn [fst snd].
    erewrite bind_eq_Ok by exact Hrun.
    erewrite bind_eq_Ok by (apply time_time_Ok; eauto).
    erewrite bind_eq_Ok.
    2:{ apply getState_Ok. split; [|eauto].
        rewrite (steps_positions_set _ _ _ _ _ Hrun). apply npt_start_set. }
    reflexivity.
Qed.

Lemma production_setup_Ok g w sim w' :
  production_setup E g w = Ok sim w' <->
  exists p,
    List.find (fun p => usable E p (system g)) (registered E) = Some p /\
    length (positions_eq g) = sys_particles (system g) /\
    length (velocities_eq g) = sys_particles (system g) /\
    sim = prod_start g p (n_contexts w) /\ w' = prod_world w.
Proof.
  unfold production_setup. split.
  - intros H.
    inv_bind H as sim0 w0 H0. apply Simulation_new_Ok in H0 as (p & Hp & -> & ->).
    inv_bind H as c0 w0 H0. apply setPositions_Ok in H0 as (Hlp & -> & ->).
    inv_bind H as c0 w0 H0. apply setVelocities_Ok in H0 as (Hlv & -> & ->).
    inv_bind H as c0 w0 H0. apply setPeriodicBoxVectors_Ok in H0 as (-> & ->).
    inv_bind H as r0 w0 H0. unfold DCDReporter_new, bind, modify, ret in H0.
    injection H0 as <- <-.
    inv_bind H as r0 w0 H0. rewrite StateDataReporter_new_log in H0. injection H0 as <- <-.
    unfold ret in H. injection H as <- <-.
    exists p. auto 10.
  - intros (p & Hp & Hlp & Hlv & -> & ->).
    erewrite bind_eq_Ok by (apply Simulation_new_Ok; exists p; eauto).
    erewrite bind_eq_Ok by (apply setPositions_Ok; cbn; eauto).
    erewrite bind_eq_Ok by (apply setVelocities_Ok; cbn; eauto).
    erewrite bind_eq_Ok by (apply setPeriodicBoxVectors_Ok; eauto).
    erewrite bind_eq_Ok by reflexivity.
    erewrite bind_eq_Ok by apply StateDataReporter_new_log.
    reflexivity.
Qed.

Lemma cell4_Ok g w g4 w' :
  cell4 E g w = Ok g4 w' <->
  exists p sim,
    List.find (fun p => usable E p (system g)) (registered E) = Some p /\
    length (positions_eq g) = sys_particles (system g) /\
    length (velocities_eq g) = sys_particles (system g) /\
    iterate (Z.to_nat 500000) (step1 E) (prod_start g p (n_contexts w)) (prod_world w)
      = Ok sim w' /\
    g4 = {| names3 := g;
            integratorProd :=
              {| lg_temperature := temperature g; lg_friction := 1; lg_stepSize := 2 |};
            simulationProd := sim;
            end_production := wall_clock E (length (trace w')) |}.
Proof.
  unfold cell4. split.
  - intros H.
    inv_bind H as sim0 w0 H0. apply production_setup_Ok in H0 as (p & Hp & Hlp & Hlv & -> & ->).
    inv_bind H as sim w1 Hrun. unfold Simulation_step in Hrun.
    inv_bind H as t1 w2 H0. apply time_time_Ok in H0 as (-> & ->).
    unfold ret in H. injection H as <- <-.
    exists p, sim. auto 10.
  - intros (p & sim & Hp & Hlp & Hlv & Hrun & ->).
    erewrite bind_eq_Ok by (apply production_setup_Ok; exists p; eauto 10).
    erewrite bind_eq_Ok by exact Hrun.
    erewrite bind_eq_Ok by (apply time_time_Ok; eauto).
    reflexivity.
Qed.

Lemma cell5_Ok g w :
  cell5 g w = Ok tt
    (print_line ("Production: ", Some (end_production g - end_npt (names3 g))%Q)
       (print_line ("Equilibration 1: :", Some (end_npt (names3 g) - start (names3 g))%Q)
          (print_line ("Total Time:", Some (end_production g - start (names3 g))%Q)
             (print_line ("Simulation completed!", None) w)))).
Proof. reflexivity. Qed.
End RunFacts.


Section TryFacts.
Context {S A : Type}.

Lemma try_except_Ok (body handler : M S A) catches s a s' :
  try_except body catches handler s = Ok a s' <->
  body s = Ok a s' \/
  exists e s1, body s = Raise e s1 /\ catches e = true /\ handler s1 = Ok a s'.
Proof.
  unfold try_except. destruct (body s) as [a1 s1|e s1]; split.
  - intros H. left. exact H.
  - intros [H|(e & s2 & H & _)]; [exact H|discriminate].
  - destruct (catches e) eqn:Hc; [|discriminate]. intros H. right. eauto.
  - intros [H|(e' & s2 & H & Hc & Hh)]; [discriminate|].
    injection H as <- <-. now rewrite Hc.
Qed.

Lemma try_except_Raise (body handler : M S A) catches s e s' :
  try_except body catches handler s = Raise e s' <->
  body s = Raise e s' /\ catches e = false \/
  exists e1 s1, body s = Raise e1 s1 /\ catches e1 = true /\ handler s1 = Raise e s'.
Proof.
  unfold try_except. destruct (body s) as [a1 s1|e1 s1]; split.
  - discriminate.
  - intros [(H & _)|(e1 & s2 & H & _)]; discriminate.
  - destruct (catches e1) eqn:Hc.
    + intros H. right. eauto.
    + intros H. left. injection H as <- <-. auto.
  - intros [(H & Hc)|(e2 & s2 & H & Hc & Hh)].
    + injection H as <- <-. now rewrite Hc.
    + injection H as <- <-. now rewrite Hc.
Qed.
End TryFacts.

Section Cell2Facts.
Variable E : Engine.

Lemma cell2_Ok w g w' :
  cell2 E w = Ok g w' <->
  exists atoms box pos bv,
    fs w !! prmtop_path = Some (Prmtop atoms box) /\
    fs w !! inpcrd_path = Some (Inpcrd pos bv) /\
    prmtop g = {| prmtop_topology := {| top_atoms := atoms |}; prmtop_box := box |} /\
    inpcrd g = {| inpcrd_positions := pos; inpcrd_boxVectors := bv |} /\
    ("CUDA" ∈ registered E /\ platform g = "CUDA" /\
     properties g = Some {["CudaPrecision" := "mixed"]} /\
     w' = record_event (EvGetPlatform "CUDA") (loaded_world w)
     \/
     ("CUDA" ∉ registered E) /\ "Reference" ∈ registered E /\
     platform g = "Reference" /\ properties g = None /\
     w' = record_event (EvGetPlatform "Reference")
            (record_event (EvGetPlatform "CUDA") (loaded_world w))).
Proof.
  unfold cell2. split.
  - intros H.
    inv_bind H as p0 w0 H0. apply AmberPrmtopFile_new_Ok in H0 as (atoms & box & Hp & -> & ->).
    inv_bind H as i0 w0 H0. apply AmberInpcrdFile_new_Ok in H0 as (pos & bv & Hi & -> & ->).
    inv_bind H as pp w0 H0. unfold ret in H. injection H as <- <-.
    exists atoms, box, pos, bv. split; [exact Hp|]. split; [exact Hi|].
    split; [reflexivity|]. split; [reflexivity|]. cbn [platform properties].
    apply try_except_Ok in H0 as [H0|(e & w1 & H0 & _ & H1)].
    + inv_bind H0 as n w1 H1. apply getPlatformByName_Ok in H1 as (Hin & -> & ->).
      unfold ret in H0. injection H0 as <- <-. left. auto.
    + apply bind_Raise in H0 as [H0|(n & w2 & _ & H0)]; [|discriminate].
      apply getPlatformByName_Raise in H0 as (Hnin & -> & ->).
      inv_bind H1 as n w2 H2. apply getPlatformByName_Ok in H2 as (Hin & -> & ->).
      unfold ret in H1. injection H1 as <- <-. right. auto 10.
  - intros (atoms & box & pos & bv & Hp & Hi & Hgp & Hgi & Hplat).
    erewrite bind_eq_Ok by (apply AmberPrmtopFile_new_Ok; eauto).
    erewrite bind_eq_Ok by (apply AmberInpcrdFile_new_Ok; eauto).
    destruct g as [gp gi gpl gpr]. cbn in Hgp, Hgi, Hplat. subst gp gi.
    destruct Hplat as [(Hin & -> & -> & ->)|(Hnin & Hin & -> & -> & ->)].
    + erewrite bind_eq_Ok.
      2:{ apply try_except_Ok. left.
          erewrite bind_eq_Ok by (apply getPlatformByName_Ok; eauto). reflexivity. }
      reflexivity.
    + erewrite bind_eq_Ok.
      2:{ apply try_except_Ok. right. eexists _, _. split; [|split].
          - apply bind_eq_Raise. apply getPlatformByName_Raise. eauto.
          - reflexivity.
          - erewrite bind_eq_Ok by (apply getPlatformByName_Ok; eauto). reflexivity. }
      reflexivity.
Qed.
End Cell2Facts.


Section SimulationFacts.
Variable E : Engine.

Lemma simulate_Ok w g4 w' :
  simulate E w = Ok g4 w' <->
  exists g2 w2 g3 w3 w4,
    cell2 E w = Ok g2 w2 /\ cell3 E g2 w2 = Ok g3 w3 /\ cell4 E g3 w3 = Ok g4 w4 /\
    cell5 g4 w4 = Ok tt w'.
Proof.
  unfold simulate. split.
  - intros H. inv_bind H as g2 w2 H2. inv_bind H as g3 w3 H3. inv_bind H as g4' w4 H4.
    inv_bind H as u w5 H5. unfold ret in H. injection H as <- <-. destruct u.
    eauto 10.
  - intros (g2 & w2 & g3 & w3 & w4 & H2 & H3 & H4 & H5).
    erewrite bind_eq_Ok by exact H2. erewrite bind_eq_Ok by exact H3.
    erewrite bind_eq_Ok by exact H4. erewrite bind_eq_Ok by exact H5. reflexivity.
Qed.

Lemma npt_files_distinct : NoDup (file_of <$> [the_npt_log]).
Proof. apply NoDup_singleton. Qed.

Lemma prod_files_distinct : NoDup (file_of <$> [the_dcd; the_production_log]).
Proof. cbn. apply NoDup_cons. split; [|apply NoDup_singleton].
  rewrite list_elem_of_singleton. discriminate.
Qed.

(** What a completed cell 3 leaves: the simulation, and the log. *)
Lemma cell3_simulation g w g3 w3 :
  cell3 E g w = Ok g3 w3 ->
  exists b p,
    prmtop_box (prmtop g) = Some b /\
    List.find (fun p => usable E p (the_system (prmtop g) b)) (registered E) = Some p /\
    names2 g3 = g /\ system g3 = the_system (prmtop g) b /\ temperature g3 = 300%Q /\
    sim_system (simulationNPT g3) = system g3 /\
    sim_reporters (simulationNPT g3) = [the_npt_log] /\
    sim_currentStep (simulationNPT g3) = 50000 /\
    ctx_system (sim_context (simulationNPT g3)) = system g3 /\
    ctx_platform (sim_context (simulationNPT g3)) = p /\
    ctx_id (sim_context (simulationNPT g3)) = n_contexts w /\
    ctx_positions_set (sim_context (simulationNPT g3)) = true /\
    n_contexts w3 = S (n_contexts w) /\ figure w3 = figure w /\ stdout w3 = stdout w.
Proof.
  intros H. apply cell3_Ok in H as (b & p & pmin & sim & Hb & Hp & Hlen & Hmin & Hrun & ->).
  exists b, p. split; [exact Hb|]. split; [exact Hp|].
  apply steps_frame in Hrun
    as (Ht & Hsys & Hi & Hr & Hc & (Hid & Hcs & Hci & Hcp & Hset) & Hsteps & Hn & Hf & Ho).
  cbn [equilibrated names2 system temperature simulationNPT].
  cbn [npt_start sim_system sim_reporters sim_currentStep sim_context] in *.
  destruct (loaded_context_fields g (the_system (prmtop g) b) p (n_contexts w))
    as (Lid & Lsys & Li & Lp & Lset & Lpos & Lvel & Lsteps).
  cbn [evolve ctx_id ctx_system ctx_platform ctx_positions_set] in *.
  repeat split; try assumption; try congruence.
Qed.
End SimulationFacts.


Section Handover.
Variable E : Engine.

Lemma cell3_state g w g3 w3 :
  cell3 E g w = Ok g3 w3 ->
  let c := sim_context (simulationNPT g3) in
  state_eq g3 = {| st_positions := Some (wrap E (ctx_box c) (ctx_positions c));
                   st_velocities := Some (ctx_velocities c);
                   st_box := ctx_box c |} /\
  positions_eq g3 = wrap E (ctx_box c) (ctx_positions c) /\
  velocities_eq g3 = ctx_velocities c /\
  box_vectors_eq g3 = ctx_box c.
Proof.
  intros H. apply cell3_Ok in H as (b & p & pmin & sim & _ & _ & _ & _ & _ & ->).
  cbn. auto.
Qed.

Lemma cell3_shape g w g3 w3 :
  shape_preserving E ->
  cell3 E g w = Ok g3 w3 ->
  length (positions_eq g3) = sys_particles (system g3) /\
  length (velocities_eq g3) = sys_particles (system g3).
Proof.
  intros shapes H.
  apply cell3_Ok in H as (b & p & pmin & sim & Hb & Hp & Hlen & Hmin & Hrun & ->).
  apply (steps_shape E shapes) in Hrun as (Hsp & Hsv).
  apply (minimizer_shape E shapes) in Hmin.
  destruct (loaded_context_fields g (the_system (prmtop g) b) p (n_contexts w))
    as (_ & _ & _ & _ & _ & Lpos & Lvel & _).
  cbn [equilibrated positions_eq velocities_eq system].
  cbn [npt_start sim_context evolve ctx_positions ctx_velocities] in Hsp, Hsv.
  rewrite (wrap_shape E shapes), Hsp, Hsv, Hmin, Lpos, Lvel, Hlen, length_replicate.
  split; reflexivity.
Qed.

(** After a completed equilibration the production simulation can be set
    up: the platform is found again and the shapes fit. *)
Lemma production_setup_completes g w g3 w3 :
  shape_preserving E ->
  cell3 E g w = Ok g3 w3 ->
  exists p, production_setup E g3 w3 = Ok (prod_start g3 p (n_contexts w3)) (prod_world w3).
Proof.
  intros shapes H.
  destruct (cell3_shape _ _ _ _ shapes H) as (Hlp & Hlv).
  destruct (cell3_simulation E _ _ _ _ H) as (b & p & _ & Hp & _ & Hsys & _).
  exists p. apply production_setup_Ok. exists p. split; [rewrite Hsys; exact Hp|].
  split; [exact Hlp|]. split; [exact Hlv|]. split; reflexivity.
Qed.
End Handover.

(** C2 (hand-over of the equilibrated state).  After a completed cell 3, the
    state [state_eq] read from the equilibration context holds that context's
    positions (wrapped into the periodic box, as [enforcePeriodicBox=True]
    asks), its velocities and its box vectors; the set-up of the production
    simulation then completes, none of its shape checks failing, and leaves a
    production context at step 0 whose positions, velocities and box vectors
    are exactly those of [state_eq].  The engine is asked to keep the number of
    particles ([shape_preserving]). *)
Theorem equilibrated_state_installed (E : Engine) g w g3 w3 :
  shape_preserving E ->
  cell3 E g w = Ok g3 w3 ->
  let c := sim_context (simulationNPT g3) in
  (st_positions (state_eq g3) = Some (wrap E (ctx_box c) (ctx_positions c)) /\
   st_velocities (state_eq g3) = Some (ctx_velocities c) /\
   st_box (state_eq g3) = ctx_box c) /\
  exists sim w4,
    production_setup E g3 w3 = Ok sim w4 /\
    sim_currentStep sim = 0 /\
    st_positions (state_eq g3) = Some (ctx_positions (sim_context sim)) /\
    st_velocities (state_eq g3) = Some (ctx_velocities (sim_context sim)) /\
    st_box (state_eq g3) = ctx_box (sim_context sim).
Proof.
  intros shapes H c.
  destruct (cell3_state E _ _ _ _ H) as (Hst & Hpos & Hvel & Hbox).
  destruct (production_setup_completes E _ _ _ _ shapes H) as (p & Hsetup).
  fold c in Hst, Hpos, Hvel, Hbox.
  split; [rewrite Hst; auto|].
  exists (prod_start g3 p (n_contexts w3)), (prod_world w3). split; [exact Hsetup|].
  rewrite Hst. cbn. rewrite Hpos, Hvel, Hbox. auto.
Qed.

Section Production.
Variable E : Engine.

Lemma prod_world_files w :
  fs (prod_world w) !! "water/production.dcd" = Some (Dcd []) /\
  fs (prod_world w) !! "water/production.log" = Some (Log []) /\
  forall p, p <> "water/production.dcd" -> p <> "water/production.log" ->
            fs (prod_world w) !! p = fs w !! p.
Proof.
  unfold prod_world. cbn [set_fs record_event set_n_contexts fs]. split; [|split].
  - rewrite lookup_insert_ne by discriminate. apply lookup_insert_eq.
  - apply lookup_insert_eq.
  - intros p H1 H2. now rewrite !lookup_insert_ne by congruence.
Qed.

Lemma npt_world_files w :
  fs (npt_world w) !! "water/npt.log" = Some (Log []) /\
  forall p, p <> "water/npt.log" -> fs (npt_world w) !! p = fs w !! p.
Proof.
  unfold npt_world. cbn [set_fs record_event set_n_contexts fs]. split.
  - apply lookup_insert_eq.
  - intros p H1. now rewrite lookup_insert_ne by congruence.
Qed.

Lemma steps_500 : Z.to_nat (Z.of_nat (Z.to_nat 500000) / 1000) = 500%nat.
Proof. rewrite Z2Nat.id by lia. reflexivity. Qed.


Lemma production_files n g p w sim w' :
  iterate n (step1 E) (prod_start g p (n_contexts w)) (prod_world w) = Ok sim w' ->
  reported the_dcd (due_steps 1000 0 n) (fs w' !! "water/production.dcd") /\
  reported the_production_log (due_steps 1000 0 n) (fs w' !! "water/production.log") /\
  forall q, q <> "water/production.dcd" -> q <> "water/production.log" ->
            fs w' !! q = fs w !! q.
Proof.
  intros Hrun. destruct (prod_world_files w) as (Hdcd & Hlog & Hother).
  split; [|split].
  - pose proof (steps_reported E n (prod_start g p (n_contexts w))
                  (prod_world w) sim w' the_dcd [] prod_files_distinct) as Hd.
    apply Hd; [cbn; set_solver| |exact Hrun].
    cbn [reported the_dcd file_of]. rewrite Hdcd. exists []. auto.
  - pose proof (steps_reported E n (prod_start g p (n_contexts w))
                  (prod_world w) sim w' the_production_log [] prod_files_distinct) as Hd.
    apply Hd; [cbn; set_solver| |exact Hrun].
    cbn [reported the_production_log file_of]. rewrite Hlog. exists []. auto.
  - intros q H1 H2. rewrite <- (Hother q H1 H2).
    apply (steps_fs_other E n (prod_start g p (n_contexts w)) (prod_world w) sim w' q);
      [|exact Hrun].
    cbn. rewrite !not_elem_of_cons. split; [exact H1|]. split; [exact H2|].
    apply not_elem_of_nil.
Qed.

Lemma cell4_files g w g4 w' :
  cell4 E g w = Ok g4 w' ->
  reported the_dcd (due_steps 1000 0 (Z.to_nat 500000)) (fs w' !! "water/production.dcd") /\
  reported the_production_log (due_steps 1000 0 (Z.to_nat 500000))
           (fs w' !! "water/production.log") /\
  forall q, q <> "water/production.dcd" -> q <> "water/production.log" ->
            fs w' !! q = fs w !! q.
Proof.
  intros H. apply cell4_Ok in H as (p & sim & _ & _ & _ & Hrun & _).
  exact (production_files _ _ _ _ _ _ Hrun).
Qed.
End Production.

(** C4 (frames of the trajectory).  A completed cell 4 leaves a production
    simulation at step 500000 whose reporters are the DCD reporter on
    [water/production.dcd] and the state reporter on [water/production.log],
    both of interval 1000, and the trajectory file holds one frame for each
    multiple of 1000 among the steps run: 500000 / 1000 = 500 frames. *)
Theorem production_trajectory_frames (E : Engine) g w g4 w' :
  cell4 E g w = Ok g4 w' ->
  sim_reporters (simulationProd g4)
    = [DCDReporter "water/production.dcd" 1000;
       StateDataReporter "water/production.log" 1000
         [Step; PotentialEnergy; Temperature; Density]] /\
  sim_currentStep (simulationProd g4) = 500000 /\
  exists frames,
    fs w' !! "water/production.dcd" = Some (Dcd frames) /\
    length frames = Z.to_nat (500000 / 1000) /\
    length frames = 500%nat.
Proof.
  intros H. pose proof (cell4_files E _ _ _ _ H) as ((frames & Hf & Hlen) & _).
  apply cell4_Ok in H as (p & sim & _ & _ & _ & Hrun & ->).
  apply steps_frame in Hrun as (_ & _ & _ & Hr & Hc & _).
  cbn [simulationProd]. rewrite Hr, Hc, Z2Nat.id by lia.
  split; [reflexivity|]. split; [reflexivity|].
  exists frames. split; [exact Hf|].
  rewrite Hlen, due_steps_length, steps_500 by lia. split; reflexivity.
Qed.



Section Logs.
Variable E : Engine.

Lemma equilibration_files n g b p pmin w sim w' :
  iterate n (step1 E) (npt_start g b p pmin (n_contexts w)) (npt_world w) = Ok sim w' ->
  reported the_npt_log (due_steps 1000 0 n) (fs w' !! "water/npt.log") /\
  forall q, q <> "water/npt.log" -> fs w' !! q = fs w !! q.
Proof.
  intros Hrun. destruct (npt_world_files w) as (Hlog & Hother). split.
  - pose proof (steps_reported E n (npt_start g b p pmin (n_contexts w))
                  (npt_world w) sim w' the_npt_log [] npt_files_distinct) as Hd.
    apply Hd; [cbn; set_solver| |exact Hrun].
    cbn [reported the_npt_log file_of]. rewrite Hlog. exists []. auto.
  - intros q H1. rewrite <- (Hother q H1).
    apply (steps_fs_other E n (npt_start g b p pmin (n_contexts w)) (npt_world w) sim w' q);
      [|exact Hrun].
    cbn. rewrite !not_elem_of_cons. split; [exact H1|]. apply not_elem_of_nil.
Qed.

Lemma cell3_files g w g3 w3 :
  cell3 E g w = Ok g3 w3 ->
  reported the_npt_log (due_steps 1000 0 (Z.to_nat 50000)) (fs w3 !! "water/npt.log") /\
  forall q, q <> "water/npt.log" -> fs w3 !! q = fs w !! q.
Proof.
  intros H. apply cell3_Ok in H as (b & p & pmin & sim & _ & _ & _ & _ & Hrun & _).
  exact (equilibration_files _ _ _ _ _ _ _ _ Hrun).
Qed.

Lemma cell2_world w g w' :
  cell2 E w = Ok g w' ->
  fs w' = fs w /\ n_contexts w' = n_contexts w /\ figure w' = figure w /\
  stdout w' = stdout w.
Proof.
  intros H. apply cell2_Ok in H as (atoms & box & pos & bv & _ & _ & _ & _ & Hp).
  destruct Hp as [(_ & _ & _ & ->)|(_ & _ & _ & _ & ->)]; repeat split.
Qed.

Lemma cell4_simulation g w g4 w' :
  cell4 E g w = Ok g4 w' ->
  names3 g4 = g /\
  sim_system (simulationProd g4) = system g /\
  ctx_system (sim_context (simulationProd g4)) = system g /\
  sim_reporters (simulationProd g4) = [the_dcd; the_production_log] /\
  sim_currentStep (simulationProd g4) = 500000 /\
  ctx_id (sim_context (simulationProd g4)) = n_contexts w /\
  (exists p, List.find (fun p => usable E p (system g)) (registered E) = Some p /\
             ctx_platform (sim_context (simulationProd g4)) = p) /\
  n_contexts w' = S (n_contexts w) /\ figure w' = figure w /\ stdout w' = stdout w.
Proof.
  intros H. apply cell4_Ok in H as (p & sim & Hp & _ & _ & Hrun & ->).
  apply steps_frame in Hrun
    as (Ht & Hsys & Hi & Hr & Hc & (Hid & Hcs & Hci & Hcp & Hset) & Hsteps & Hn & Hf & Ho).
  rewrite Z2Nat.id in Hc by lia.
  cbn [names3 simulationProd].
  cbn [prod_start sim_system sim_reporters sim_currentStep sim_context with_box
         with_velocities with_positions new_context ctx_id ctx_system ctx_platform] in *.
  split; [reflexivity|]. split; [exact Hsys|]. split; [exact Hcs|]. split; [exact Hr|].
  split; [exact Hc|]. split; [exact Hid|]. split; [exists p; auto|].
  split; [exact Hn|]. split; [exact Hf|exact Ho].
Qed.
End Logs.



Section Completion.
Variable E : Engine.
Hypothesis total : never_fails E.

Lemma cell3_completes g w b p :
  prmtop_box (prmtop g) = Some b ->
  List.find (fun p => usable E p (the_system (prmtop g) b)) (registered E) = Some p ->
  length (inpcrd_positions (inpcrd g)) = length (top_atoms (prmtop_topology (prmtop g))) ->
  exists g3 w3, cell3 E g w = Ok g3 w3.
Proof.
  intros Hb Hp Hlen.
  destruct (minimizer_total E total
              (loaded_context g (the_system (prmtop g) b) p (n_contexts w))) as (pmin & Hmin).
  destruct (steps_total E total (Z.to_nat 50000)
              (npt_start g b p pmin (n_contexts w)) (npt_world w)
              (npt_start_set g b p pmin (n_contexts w))) as (sim & w3 & Hrun).
  eexists _, w3. apply cell3_Ok. exists b, p, pmin, sim. auto 10.
Qed.

Lemma cell4_completes g w p :
  List.find (fun p => usable E p (system g)) (registered E) = Some p ->
  length (positions_eq g) = sys_particles (system g) ->
  length (velocities_eq g) = sys_particles (system g) ->
  exists g4 w4, cell4 E g w = Ok g4 w4.
Proof.
  intros Hp Hlp Hlv.
  destruct (steps_total E total (Z.to_nat 500000)
              (prod_start g p (n_contexts w)) (prod_world w) eq_refl) as (sim & w4 & Hrun).
  eexists _, w4. apply cell4_Ok. exists p, sim. auto 10.
Qed.

Hypothesis shapes : shape_preserving E.

(** The simulation cells run to the end on well-formed input files, with a
    platform to run on, and dynamics that do not fail. *)
Lemma simulate_completes w atoms b pos bv p :
  fs w !! prmtop_path = Some (Prmtop atoms (Some b)) ->
  fs w !! inpcrd_path = Some (Inpcrd pos bv) ->
  length pos = length atoms ->
  "CUDA" ∈ registered E \/ "Reference" ∈ registered E ->
  List.find (fun p => usable E p
               (the_system {| prmtop_topology := {| top_atoms := atoms |};
                              prmtop_box := Some b |} b))
            (registered E) = Some p ->
  exists g4 w', simulate E w = Ok g4 w'.
Proof.
  intros Hprm Hinp Hlen Hplat Hp.
  assert (exists g2 w2, cell2 E w = Ok g2 w2 /\
            prmtop g2 = {| prmtop_topology := {| top_atoms := atoms |};
                           prmtop_box := Some b |} /\
            inpcrd g2 = {| inpcrd_positions := pos; inpcrd_boxVectors := bv |})
    as (g2 & w2 & H2 & Hg2p & Hg2i).
  { destruct (decide ("CUDA" ∈ registered E)) as [Hc|Hc].
    - eexists {| prmtop := _; inpcrd := _; platform := "CUDA"; properties := _ |}, _.
      split; [|split; reflexivity].
      apply cell2_Ok. exists atoms, (Some b), pos, bv.
      split; [exact Hprm|]. split; [exact Hinp|]. split; [reflexivity|].
      split; [reflexivity|]. left. auto.
    - destruct Hplat as [Hr|Hr]; [contradiction|].
      eexists {| prmtop := _; inpcrd := _; platform := "Reference"; properties := _ |}, _.
      split; [|split; reflexivity].
      apply cell2_Ok. exists atoms, (Some b), pos, bv.
      split; [exact Hprm|]. split; [exact Hinp|]. split; [reflexivity|].
      split; [reflexivity|]. right. auto 10. }
  destruct (cell3_completes g2 w2 b p) as (g3 & w3 & H3).
  { rewrite Hg2p. reflexivity. }
  { rewrite Hg2p. exact Hp. }
  { rewrite Hg2p, Hg2i. exact Hlen. }
  destruct (cell3_shape E _ _ _ _ shapes H3) as (Hlp & Hlv).
  destruct (cell3_simulation E _ _ _ _ H3) as (b' & p' & Hb' & Hp' & _ & Hsys & _).
  destruct (cell4_completes g3 w3 p') as (g4 & w4 & H4); [rewrite Hsys; exact Hp'|exact Hlp|exact Hlv|].
  eexists g4, _. apply simulate_Ok. exists g2, w2, g3, w3, w4.
  split; [exact H2|]. split; [exact H3|]. split; [exact H4|]. apply cell5_Ok.
Qed.
End Completion.

Section Coupling.
Variable E : Engine.

Lemma the_system_coupled p b c :
  ctx_system c = the_system p b -> pressure_coupled c = true.
Proof. unfold pressure_coupled. intros ->. reflexivity. Qed.

(** In a context made from the notebook's system, the update before a step
    is the barostat's move on every 25th step, and nothing otherwise. *)
Lemma the_system_update p b c :
  ctx_system c = the_system p b ->
  updateContextState E c =
  if (ctx_steps c + 1) mod 25 =? 0
  then evolve (barostat_move E 1 300 c).1 (ctx_velocities c) (barostat_move E 1 300 c).2
              false c
  else c.
Proof.
  unfold updateContextState. intros ->. cbn [the_system addForce sys_forces app fold_left].
  cbn [force_update]. reflexivity.
Qed.

Lemma the_system_step_box p b s w s' w' :
  ctx_system (sim_context s) = the_system p b ->
  step1 E s w = Ok s' w' ->
  ctx_box (sim_context s') =
  if (ctx_steps (sim_context s) + 1) mod 25 =? 0
  then (barostat_move E 1 300 (sim_context s)).2
  else ctx_box (sim_context s).
Proof.
  intros Hsys H. apply step1_Ok in H as (_ & pv & _ & -> & _).
  cbn [advance sim_context]. unfold next_context. cbn [evolve ctx_box].
  rewrite (the_system_update _ _ _ Hsys).
  destruct ((ctx_steps (sim_context s) + 1) mod 25 =? 0); reflexivity.
Qed.
End Coupling.

(** C1 (ensemble of the production stage).  The barostat is added to the one
    [system] object of the notebook before the equilibration simulation is
    made, and the production simulation is made from that same object.  So in
    every run that completes both simulation cells, the production simulation
    and its context hold the very system of the equilibration, the force
    [MonteCarloBarostat 1 300 25] is among the forces of the production
    context, and pressure coupling is on in the production context as it is in
    the equilibration context: the production stage is run at constant
    pressure, not at constant volume. *)
Theorem production_keeps_barostat (E : Engine) w g4 w' :
  simulate E w = Ok g4 w' ->
  let equilibration := simulationNPT (names3 g4) in
  let production := simulationProd g4 in
  sim_system production = sim_system equilibration /\
  ctx_system (sim_context production) = ctx_system (sim_context equilibration) /\
  MonteCarloBarostat 1 300 25 ∈ sys_forces (ctx_system (sim_context production)) /\
  pressure_coupled (sim_context equilibration) = true /\
  pressure_coupled (sim_context production) = true.
Proof.
  intros H equilibration production.
  apply simulate_Ok in H as (g2 & w2 & g3 & w3 & w4 & H2 & H3 & H4 & H5).
  destruct (cell3_simulation E _ _ _ _ H3)
    as (b & p & _ & _ & _ & Hsys & _ & Hss & _ & _ & Hcs & _).
  destruct (cell4_simulation E _ _ _ _ H4) as (Hn3 & Hps & Hpcs & _).
  subst equilibration production. rewrite Hn3, Hps, Hpcs, Hss, Hcs.
  split; [reflexivity|]. split; [reflexivity|]. rewrite Hsys.
  split; [cbn; set_solver|].
  split; eapply the_system_coupled; [rewrite Hcs|rewrite Hpcs]; exact Hsys.
Qed.


Section ListFacts.
Lemma length_zip_with_min {A B C} (f : A -> B -> C) l k :
  length (zip_with f l k) = min (length l) (length k).
Proof.
  revert k. induction l as [|a l IH]; intros [|b k]; cbn; try reflexivity.
  now rewrite IH.
Qed.

Lemma length_tail_pred {A} (l : list A) : length (tail l) = pred (length l).
Proof. now destruct l. Qed.

Lemma length_edges_of n lo hi : length (edges_of n lo hi) = S n.
Proof. unfold edges_of. now rewrite length_map, length_seq. Qed.

Lemma length_bin_counts n lo hi xs : length (bin_counts n lo hi xs) = n.
Proof. unfold bin_counts. now rewrite length_map, length_seq. Qed.

Lemma length_shell_cubes edges : length (shell_cubes edges) = pred (length edges).
Proof.
  unfold shell_cubes. rewrite length_zip_with_min, length_tail_pred. lia.
Qed.

Lemma histogram_inr xs nbins range h :
  histogram xs nbins range = inr h ->
  exists n, nbins = PInt n /\ 1 <= n /\
            length h.1 = Z.to_nat n /\ length h.2 = S (Z.to_nat n).
Proof.
  unfold histogram. destruct nbins as [| | n | | |]; try discriminate.
  destruct range as [| | | | |[| | |lo| |] [| | |hi| |]]; try discriminate.
  destruct (Z.ltb_spec n 1); [discriminate|].
  destruct (negb (Qle_bool lo hi)); [discriminate|].
  intros H'. injection H' as <-. exists n. cbn [fst snd].
  rewrite length_bin_counts, length_edges_of. auto.
Qed.

Lemma histogram_same_bins xs ys nbins range h :
  histogram xs nbins range = inr h ->
  exists h', histogram ys nbins range = inr h' /\ h'.2 = h.2 /\ length h'.1 = length h.1.
Proof.
  unfold histogram. destruct nbins as [| | n | | |]; try discriminate.
  destruct range as [| | | | |[| | |lo| |] [| | |hi| |]]; try discriminate.
  destruct (n <? 1); [discriminate|].
  destruct (negb (Qle_bool lo hi)); [discriminate|].
  intros H'. injection H' as <-. eexists. split; [reflexivity|]. cbn [fst snd].
  rewrite !length_bin_counts. auto.
Qed.
End ListFacts.

Section RdfFacts.
Variable num : Numerics.

Lemma rdf_keywords_lookups :
  rdf_keywords !! "bins" = Some (PInt 100) /\
  rdf_keywords !! "nbins" = None /\
  rdf_keywords !! "range" = Some (PPair (PFloat 0) (PFloat 10)) /\
  rdf_keywords !! "norm" = None /\
  rdf_keywords !! "exclude_block" = None /\
  rdf_keywords !! "exclude_same" = Some (PStr "residue") /\
  rdf_keywords !! "verbose" = None.
Proof. vm_compute. repeat split. Qed.

(** Both calls of the notebook: [bins] is none of the declared keywords, so
    the number of bins is the default. *)
Lemma InterRDF_new_rdf g1 g2 w :
  InterRDF_new g1 g2 rdf_keywords w = Ok (the_rdf g1 g2) w.
Proof.
  destruct rdf_keywords_lookups as (_ & Hn & Hr & Hnorm & Hb & Hs & Hv).
  unfold InterRDF_new, default, flag. rewrite Hn, Hr, Hnorm, Hb, Hs, Hv.
  reflexivity.
Qed.

Lemma single_frame_Ok r acc fr w acc' w' :
  single_frame num r acc fr w = Ok acc' w' <->
  exists pairs h,
    binned_pairs num r fr = inr pairs /\
    histogram (map snd pairs) (rdf_nbins r) (rdf_range r) = inr h /\
    acc' = {| run_count := zip_with Qplus (run_count acc) h.1;
              run_volume_cum := (run_volume_cum acc + box_volume num (frame_box fr))%Q |} /\
    w' = record_event EvRdfFrame w.
Proof.
  unfold single_frame, bind, lift, emit, modify, ret, raise.
  destruct (binned_pairs num r fr) as [e|pairs]; cbn.
  - split; [discriminate|]. intros (? & ? & H & _). discriminate.
  - destruct (histogram (map snd pairs) (rdf_nbins r) (rdf_range r)) as [e|h] eqn:Hh;
      cbn; split.
    + discriminate.
    + intros (? & ? & H1 & H2 & _). injection H1 as <-. congruence.
    + intros H. injection H as <- <-. eauto 10.
    + intros (? & ? & H1 & H2 & -> & ->). injection H1 as <-.
      rewrite Hh in H2. injection H2 as <-. reflexivity.
Qed.

(** The frames loop keeps the length of the count array, and records one
    event for each frame. *)
Lemma frames_loop_Ok r n acc frames w acc' w' :
  rdf_nbins r = PInt n ->
  length (run_count acc) = Z.to_nat n ->
  frames_loop num r acc frames w = Ok acc' w' ->
  length (run_count acc') = Z.to_nat n /\
  trace w' = replicate (length frames) EvRdfFrame ++ trace w /\
  fs w' = fs w /\ n_contexts w' = n_contexts w /\ figure w' = figure w /\
  stdout w' = stdout w.
Proof.
  intros Hn. revert acc w. induction frames as [|fr frames IH]; intros acc w Hlen H.
  - cbn in H. unfold ret in H. injection H as <- <-. auto 10.
  - cbn [frames_loop] in H. apply bind_Ok in H as (acc1 & w1 & H1 & H).
    apply single_frame_Ok in H1 as (pairs & h & _ & Hh & -> & ->).
    apply histogram_inr in Hh as (n' & Hn' & _ & Hl & _).
    rewrite Hn in Hn'. injection Hn' as <-.
    apply IH in H as (IH1 & IH2 & IH3 & IH4 & IH5 & IH6).
    + split; [exact IH1|]. rewrite IH2, IH3, IH4, IH5, IH6. cbn [record_event trace length].
      split; [|auto].
      change (EvRdfFrame :: trace w) with ([EvRdfFrame] ++ trace w).
      rewrite app_assoc. f_equal.
      change (replicate (S (length frames)) EvRdfFrame)
        with ([EvRdfFrame] ++ replicate (length frames) EvRdfFrame).
      clear. induction (length frames) as [|k IHk]; [reflexivity|].
      cbn [replicate app] in *. now rewrite IHk.
    + cbn [run_count]. rewrite length_zip_with_min, Hlen, Hl. lia.
Qed.

Lemma InterRDF_run_Ok r w r' w' :
  InterRDF_run num r w = Ok r' w' ->
  exists n res,
    rdf_nbins r = PInt n /\ 1 <= n /\
    r' = with_results res r /\
    length (res_count res) = Z.to_nat n /\
    length (res_edges res) = S (Z.to_nat n) /\
    length (res_bins res) = Z.to_nat n /\
    length (res_rdf res) = Z.to_nat n /\
    trace w' = replicate (length (u_trajectory (ag_universe (rdf_g1 r)))) EvRdfFrame
                 ++ trace w /\
    fs w' = fs w /\ n_contexts w' = n_contexts w /\ figure w' = figure w /\
    stdout w' = stdout w.
Proof.
  unfold InterRDF_run. intros H.
  apply bind_Ok in H as (h0 & w0 & H0 & H).
  unfold lift in H0. destruct (histogram [(-1)%Q] (rdf_nbins r) (rdf_range r)) as [e|h] eqn:Hh;
    [discriminate|].
  unfold ret in H0. injection H0 as <- <-.
  apply histogram_inr in Hh as (n & Hn & Hpos & Hl1 & Hl2).
  apply bind_Ok in H as (acc & w1 & Hloop & H).
  apply (frames_loop_Ok r n) in Hloop as (Hlc & Htr & Hfs & Hnc & Hfig & Hout);
    [|exact Hn|cbn [run_count]; now rewrite length_map].
  unfold ret in H. injection H as <- <-.
  eexists n, _. split; [exact Hn|]. split; [exact Hpos|]. split; [reflexivity|].
  cbn [res_count res_edges res_bins res_rdf].
  rewrite !length_zip_with_min, length_tail_pred, Hl2, Hlc.
  unfold norms. rewrite length_map, length_shell_cubes, Hl2.
  repeat split; try assumption; lia.
Qed.
End RdfFacts.


Section AnalysisFacts.
Variable num : Numerics.

Lemma select_oxygen u w : select_atoms u "element O" w = Ok (atoms_of_element u "O") w.
Proof. reflexivity. Qed.

Lemma select_hydrogen u w : select_atoms u "element H" w = Ok (atoms_of_element u "H") w.
Proof. reflexivity. Qed.

Lemma cell7_Ok g w g7 w' :
  cell7 num g w = Ok g7 w' <->
  exists rOO w1,
    let O := atoms_of_element (u g) "O" in
    let H := atoms_of_element (u g) "H" in
    InterRDF_run num (the_rdf O O) w = Ok rOO w1 /\
    exists rOH,
      InterRDF_run num (the_rdf O H) w1 = Ok rOH w' /\
      g7 = {| names6 := g; oxygen_atoms := O; hydrogen_atoms := H;
              rdf_OO := rOO; rdf_OH := rOH |}.
Proof.
  unfold cell7. split.
  - intros H.
    inv_bind H as o w0 H0. rewrite select_oxygen in H0. injection H0 as <- <-.
    inv_bind H as h w0 H0. rewrite select_hydrogen in H0. injection H0 as <- <-.
    inv_bind H as r0 w0 H0. rewrite InterRDF_new_rdf in H0. injection H0 as <- <-.
    inv_bind H as rOO w1 H0.
    inv_bind H as r1 w2 H1. rewrite InterRDF_new_rdf in H1. injection H1 as <- <-.
    inv_bind H as rOH w2 H1.
    unfold ret in H. injection H as <- <-.
    exists rOO, w1. cbn zeta. split; [exact H0|]. exists rOH. split; [exact H1|reflexivity].
  - intros (rOO & w1 & H0 & rOH & H1 & ->). cbn zeta in H0, H1.
    erewrite bind_eq_Ok by apply select_oxygen.
    erewrite bind_eq_Ok by apply select_hydrogen.
    erewrite bind_eq_Ok by apply InterRDF_new_rdf.
    erewrite bind_eq_Ok by exact H0.
    erewrite bind_eq_Ok by apply InterRDF_new_rdf.
    erewrite bind_eq_Ok by exact H1.
    reflexivity.
Qed.
End AnalysisFacts.

(** C5 (length of the RDF arrays).  Both [InterRDF] calls of the notebook pass
    [bins=100]; the keyword that [InterRDF] declares for the number of bins is
    [nbins], so [bins] is not one of its keywords and the default of 75 bins
    stays.  In every completed cell 7, both analyses (O-O and O-H) have
    [nbins = 75] over the range (0.0, 10.0), and their two result arrays
    (bin centres and g(r)) have length 75, not 100. *)
Theorem rdf_arrays_have_default_bins (num : Numerics) g w g7 w' :
  cell7 num g w = Ok g7 w' ->
  rdf_keywords !! "bins" = Some (PInt 100) /\
  rdf_keywords !! "nbins" = None /\
  forall r, r ∈ [rdf_OO g7; rdf_OH g7] ->
    rdf_nbins r = PInt 75 /\
    rdf_range r = PPair (PFloat 0) (PFloat 10) /\
    exists res,
      rdf_results r = Some res /\
      length (res_bins res) = 75%nat /\
      length (res_rdf res) = 75%nat /\
      length (res_bins res) <> 100%nat.
Proof.
  intros H.
  destruct rdf_keywords_lookups as (Hbins & Hnbins & _).
  split; [exact Hbins|]. split; [exact Hnbins|].
  apply cell7_Ok in H as (rOO & w1 & H0 & rOH & H1 & ->). cbn zeta in H0, H1.
  apply InterRDF_run_Ok in H0 as (n0 & res0 & Hn0 & _ & -> & _ & _ & Hb0 & Hr0 & _).
  apply InterRDF_run_Ok in H1 as (n1 & res1 & Hn1 & _ & -> & _ & _ & Hb1 & Hr1 & _).
  cbn [the_rdf rdf_nbins] in Hn0, Hn1. injection Hn0 as <-. injection Hn1 as <-.
  change (Z.to_nat 75) with 75%nat in *.
  intros r Hr. cbn [rdf_OO rdf_OH] in Hr.
  apply elem_of_cons in Hr as [->|Hr]; [|apply list_elem_of_singleton in Hr as ->].
  - split; [reflexivity|]. split; [reflexivity|]. exists res0.
    split; [reflexivity|]. rewrite Hb0, Hr0. repeat split. lia.
  - split; [reflexivity|]. split; [reflexivity|]. exists res1.
    split; [reflexivity|]. rewrite Hb1, Hr1. repeat split. lia.
Qed.

Section Exclusion.
Variable num : Numerics.



End Exclusion.


Section LoadFacts.
Lemma Universe_new_Ok top traj w u w' :
  Universe_new top traj w = Ok u w' <->
  exists atoms box frames,
    fs w !! top = Some (Prmtop atoms box) /\ fs w !! traj = Some (Dcd frames) /\
    frames_fit atoms frames = true /\
    u = {| u_atoms := atoms; u_trajectory := frames |} /\
    w' = record_event (EvTrajectory traj) (record_event (EvTrajectory top) w).
Proof.
  unfold Universe_new, frames_fit, bind, emit, modify, get, ret, raise. cbn.
  destruct (fs w !! top) as [[atoms box| | | |]|]; try (split; [discriminate|];
    intros (? & ? & ? & H & _); discriminate).
  destruct (fs w !! traj) as [[| | |frames|]|]; try (split; [discriminate|];
    intros (? & ? & ? & _ & H & _); discriminate).
  destruct (forallb _ frames) eqn:Hfit; split.
  - intros H. injection H as <- <-. exists atoms, box, frames. auto 10.
  - intros (? & ? & ? & H1 & H2 & _ & -> & ->). injection H1 as <- <-.
    injection H2 as <-. reflexivity.
  - discriminate.
  - intros (? & ? & ? & H1 & H2 & H3 & _). injection H1 as <- <-. injection H2 as <-.
    congruence.
Qed.

Lemma cell6_Ok w g w' :
  cell6 w = Ok g w' <->
  exists atoms box frames,
    fs w !! prmtop_path = Some (Prmtop atoms box) /\ fs w !! dcd_path = Some (Dcd frames) /\
    frames_fit atoms frames = true /\
    g = {| u := {| u_atoms := atoms; u_trajectory := frames |};
           view := the_view {| u_atoms := atoms; u_trajectory := frames |} |} /\
    w' = record_event (EvTrajectory dcd_path) (record_event (EvTrajectory prmtop_path) w).
Proof.
  unfold cell6. rewrite bind_Ok. split.
  - intros (u0 & w0 & H0 & H).
    apply Universe_new_Ok in H0 as (atoms & box & frames & H1 & H2 & H3 & -> & ->).
    unfold ret in H. injection H as <- <-. exists atoms, box, frames. auto 10.
  - intros (atoms & box & frames & H1 & H2 & H3 & -> & ->).
    eexists _, _. split; [apply Universe_new_Ok; exists atoms, box, frames; eauto 10|].
    reflexivity.
Qed.

Lemma cell8_Ok g w w' :
  cell8 g w = Ok tt w' <->
  exists r0 r1,
    rdf_results (rdf_OO g) = Some r0 /\ rdf_results (rdf_OH g) = Some r1 /\
    length (res_bins r0) = length (res_rdf r0) /\
    length (res_bins r1) = length (res_rdf r1) /\
    w' = plotted r0 r1 w.
Proof.
  unfold cell8, results_bins, results_rdf, Pyplot.plot.
  destruct (rdf_results (rdf_OO g)) as [r0|].
  2:{ split; [discriminate|]. intros (? & ? & H & _). discriminate. }
  destruct (decide (length (res_bins r0) = length (res_rdf r0))) as [H0|H0].
  2:{ unfold bind at 1 2 3 4. cbn. rewrite bool_decide_eq_false_2 by exact H0.
      split; [discriminate|]. intros (? & ? & H & _ & H1 & _). injection H as <-.
      contradiction. }
  destruct (rdf_results (rdf_OH g)) as [r1|].
  2:{ unfold bind, Pyplot.figure_new, Pyplot.subplot, modify, ret, raise. cbn.
      rewrite bool_decide_eq_true_2 by exact H0. cbn.
      split; [discriminate|]. intros (? & ? & _ & H & _). discriminate. }
  destruct (decide (length (res_bins r1) = length (res_rdf r1))) as [H1|H1].
  - unfold bind, Pyplot.figure_new, Pyplot.subplot, Pyplot.title, Pyplot.xlabel,
      Pyplot.ylabel, Pyplot.grid, Pyplot.tight_layout, emit, modify, ret, raise. cbn.
    rewrite bool_decide_eq_true_2 by exact H0. cbn.
    rewrite bool_decide_eq_true_2 by exact H1. cbn.
    split.
    + intros H. injection H as <-. exists r0, r1. auto 10.
    + intros (? & ? & Hr0 & Hr1 & _ & _ & ->). injection Hr0 as <-. injection Hr1 as <-.
      reflexivity.
  - unfold bind, Pyplot.figure_new, Pyplot.subplot, Pyplot.title, Pyplot.xlabel,
      Pyplot.ylabel, Pyplot.grid, Pyplot.tight_layout, emit, modify, ret, raise. cbn.
    rewrite bool_decide_eq_true_2 by exact H0. cbn.
    rewrite bool_decide_eq_false_2 by exact H1.
    split; [discriminate|]. intros (? & ? & _ & Hr1 & _ & H & _). injection Hr1 as <-.
    contradiction.
Qed.
End LoadFacts.


Section DcdShape.
Variable E : Engine.
Hypothesis shapes : shape_preserving E.

Lemma snapshot_shape s :
  length (frame_positions (snapshot E s)) = length (ctx_positions (sim_context s)).
Proof.
  unfold snapshot. cbn [frame_positions]. rewrite length_map.
  destruct (usesPeriodicBoundaryConditions (sim_system s)); [|reflexivity].
  apply (wrap_shape E shapes).
Qed.

Lemma reports_world_lookup s rs r w :
  NoDup (file_of <$> rs) -> r ∈ rs ->
  fs (reports_world E s rs w) !! file_of r =
  if due r (sim_currentStep s) then fs (report_world E s r w) !! file_of r
  else fs w !! file_of r.
Proof.
  revert w. induction rs as [|r0 rs IH]; intros w Hnd Hin.
  - apply elem_of_nil in Hin as [].
  - rewrite fmap_cons in Hnd. apply NoDup_cons in Hnd as (Hfresh & Hnd).
    unfold reports_world. cbn [fold_left].
    apply elem_of_cons in Hin as [->|Hin].
    + fold (reports_world E s rs
              (if due r0 (sim_currentStep s) then report_world E s r0 w else w)).
      rewrite (reports_world_fs_other E s rs _ _ Hfresh).
      destruct (due r0 (sim_currentStep s)); reflexivity.
    + fold (reports_world E s rs
              (if due r0 (sim_currentStep s) then report_world E s r0 w else w)).
      rewrite (IH _ Hnd Hin).
      assert (file_of r <> file_of r0) as Hne.
      { intros Heq. apply Hfresh. rewrite <- Heq. apply list_elem_of_fmap. eauto. }
      destruct (due r0 (sim_currentStep s)); [|reflexivity].
      unfold report_world at 1 3. cbn [record_event set_fs fs].
      rewrite !(lookup_partial_alter_ne _ _ (file_of r0) (file_of r)) by congruence.
      destruct (due r (sim_currentStep s)); [|reflexivity].
      unfold report_world. cbn [record_event set_fs fs].
      rewrite !lookup_partial_alter_eq.
      now rewrite lookup_partial_alter_ne by congruence.
Qed.

(** Every frame a DCD reporter writes has as many positions as the context. *)
Lemma steps_dcd_shape n s w s' w' file i N :
  NoDup (file_of <$> sim_reporters s) -> DCDReporter file i ∈ sim_reporters s ->
  length (ctx_positions (sim_context s)) = N ->
  dcd_of_shape N (fs w !! file) ->
  iterate n (step1 E) s w = Ok s' w' ->
  dcd_of_shape N (fs w' !! file).
Proof.
  intros Hnd Hin Hlen Hshape.
  apply (iterate_ind (fun k s1 w1 =>
           after_steps s w k s1 w1 /\
           length (ctx_positions (sim_context s1)) = N /\
           dcd_of_shape N (fs w1 !! file))).
  - split; [apply after_steps_O|auto].
  - intros k s1 w1 s2 w2 _ (Hfr & Hl1 & Hk) Hstep.
    pose proof (after_steps_S E _ _ _ _ _ _ _ Hfr Hstep) as Hfr2.
    split; [exact Hfr2|].
    destruct Hfr as (_ & _ & _ & Hrs & _).
    apply step1_Ok in Hstep as (_ & pv & Hpv & Hs2 & ->).
    apply (next_context_shape E shapes) in Hpv as (Hp2 & _).
    assert (length (ctx_positions (sim_context s2)) = N) as Hl2.
    { rewrite Hs2. cbn [advance sim_context]. congruence. }
    split; [exact Hl2|].
    rewrite Hrs.
    pose proof (reports_world_lookup s2 (sim_reporters s) (DCDReporter file i)
                  (record_event (EvStep (ctx_id (sim_context s1))) w1) Hnd Hin) as Hlk.
    cbn [file_of] in Hlk. rewrite Hlk.
    destruct (due (DCDReporter file i) (sim_currentStep s2)); [|exact Hk].
    unfold report_world. cbn [record_event set_fs fs file_of].
    rewrite lookup_partial_alter_eq.
    destruct Hk as (frames & -> & Hall). cbn [append_frame].
    eexists. split; [reflexivity|]. apply Forall_app. split; [exact Hall|].
    constructor; [|constructor]. now rewrite snapshot_shape.
Qed.

Lemma production_dcd_shape n g p w sim w' :
  length (positions_eq g) = sys_particles (system g) ->
  iterate n (step1 E) (prod_start g p (n_contexts w)) (prod_world w) = Ok sim w' ->
  dcd_of_shape (sys_particles (system g)) (fs w' !! dcd_path).
Proof.
  intros Hlp Hrun.
  apply (steps_dcd_shape n (prod_start g p (n_contexts w)) (prod_world w)
           sim w' dcd_path 1000 (sys_particles (system g)) prod_files_distinct).
  - cbn. set_solver.
  - exact Hlp.
  - destruct (prod_world_files w) as (Hdcd & _). unfold dcd_path. rewrite Hdcd.
    exists []. split; [reflexivity|constructor].
  - exact Hrun.
Qed.

Lemma cell4_dcd_shape g w g4 w' :
  cell4 E g w = Ok g4 w' -> dcd_of_shape (sys_particles (system g)) (fs w' !! dcd_path).
Proof.
  intros H. apply cell4_Ok in H as (p & sim & _ & Hlp & _ & Hrun & _).
  exact (production_dcd_shape _ _ _ _ _ _ Hlp Hrun).
Qed.
End DcdShape.


Section AnalysisCompletion.
Variable num : Numerics.
Hypothesis bounded : pairs_in_bounds num.

Lemma indices_where_bound {A} (p : A -> bool) start l :
  Forall (fun i => (i < start + length l)%nat) (indices_where p start l).
Proof.
  revert start. induction l as [|a l IH]; intros start; cbn [indices_where length].
  - constructor.
  - specialize (IH (S start)).
    assert (Forall (fun i => (i < start + S (length l))%nat) (indices_where p (S start) l)).
    { eapply Forall_impl; [exact IH|]. cbn. intros. lia. }
    destruct (p a); [constructor; [lia|]|]; assumption.
Qed.

Lemma gather_inr {A} what (l : list A) ix :
  Forall (fun i => (i < length l)%nat) ix ->
  exists r, gather what l ix = inr r /\ length r = length ix.
Proof.
  intros Hix. unfold gather.
  destruct (mapM (fun i => l !! i) ix) as [r|] eqn:Hm.
  - exists r. split; [reflexivity|]. symmetry. eapply length_mapM. exact Hm.
  - exfalso. apply mapM_None in Hm. apply Exists_exists in Hm as (i & Hi & Hnone).
    rewrite Forall_forall in Hix. apply Hix in Hi.
    apply lookup_lt_is_Some in Hi as (x & Hx). congruence.
Qed.

Lemma histogram_the xs :
  histogram xs (PInt 75) (PPair (PFloat 0) (PFloat 10))
  = inr (bin_counts 75 0 10 xs, edges_of 75 0 10).
Proof. reflexivity. Qed.

Lemma group_ix_bound u el :
  Forall (fun i => (i < length (u_atoms u))%nat) (ag_ix (atoms_of_element u el)).
Proof. apply (indices_where_bound _ 0). Qed.

Lemma binned_pairs_completes u e1 e2 fr :
  length (frame_positions fr) = length (u_atoms u) ->
  exists pairs,
    binned_pairs num (the_rdf (atoms_of_element u e1) (atoms_of_element u e2)) fr
    = inr pairs.
Proof.
  intros Hlen. unfold binned_pairs. cbn [the_rdf rdf_range rdf_g1 rdf_g2 rdf_exclude_block
                                          rdf_exclude_same].
  destruct (gather_inr "positions" (frame_positions fr) (ag_ix (atoms_of_element u e1)))
    as (p1 & -> & _); [rewrite Hlen; apply group_ix_bound|].
  destruct (gather_inr "positions" (frame_positions fr) (ag_ix (atoms_of_element u e2)))
    as (p2 & -> & _); [rewrite Hlen; apply group_ix_bound|].
  rewrite bounded. cbn [negb].
  unfold group_attribute.
  change (if ("resindices" =? "resindices")%string then ?a else ?b) with a.
  destruct (gather_inr "resindices" (map atom_resindex (u_atoms u))
              (ag_ix (atoms_of_element u e1))) as (a1 & Ha1 & _);
    [rewrite length_map; apply group_ix_bound|].
  destruct (gather_inr "resindices" (map atom_resindex (u_atoms u))
              (ag_ix (atoms_of_element u e2))) as (a2 & Ha2 & _);
    [rewrite length_map; apply group_ix_bound|].
  cbn [atoms_of_element ag_universe] in *. rewrite Ha1, Ha2. eauto.
Qed.

Lemma frames_loop_completes u e1 e2 acc frames w :
  frames_fit (u_atoms u) frames = true ->
  exists acc' w',
    frames_loop num (the_rdf (atoms_of_element u e1) (atoms_of_element u e2)) acc frames w
    = Ok acc' w'.
Proof.
  revert acc w. induction frames as [|fr frames IH]; intros acc w Hfit.
  - eexists _, _. reflexivity.
  - cbn [frames_fit forallb] in Hfit. apply andb_prop in Hfit as (Hfr & Hfit).
    apply bool_decide_eq_true in Hfr.
    destruct (binned_pairs_completes u e1 e2 fr Hfr) as (pairs & Hpairs).
    cbn [frames_loop].
    erewrite bind_eq_Ok.
    2:{ apply single_frame_Ok. eexists pairs, _. split; [exact Hpairs|].
        split; [apply histogram_the|]. split; reflexivity. }
    apply IH. exact Hfit.
Qed.

Lemma InterRDF_run_completes u e1 e2 w :
  frames_fit (u_atoms u) (u_trajectory u) = true ->
  exists r' w',
    InterRDF_run num (the_rdf (atoms_of_element u e1) (atoms_of_element u e2)) w
    = Ok r' w'.
Proof.
  intros Hfit. unfold InterRDF_run.
  cbn [the_rdf rdf_nbins rdf_range rdf_g1 rdf_g2 rdf_norm rdf_exclude_block
       rdf_exclude_same rdf_verbose].
  rewrite histogram_the. unfold lift.
  erewrite bind_eq_Ok by reflexivity.
  cbn [atoms_of_element ag_universe].
  destruct (frames_loop_completes u e1 e2
              {| run_count := map (fun _ => 0%Q) (bin_counts 75 0 10 [(-1)%Q], edges_of 75 0 10).1;
                 run_volume_cum := 0 |} (u_trajectory u) w Hfit) as (acc & w' & Hloop).
  unfold the_rdf, atoms_of_element in Hloop.
  erewrite bind_eq_Ok by exact Hloop.
  eexists _, _. reflexivity.
Qed.

Lemma analyse_completes w atoms box frames :
  fs w !! prmtop_path = Some (Prmtop atoms box) ->
  fs w !! dcd_path = Some (Dcd frames) ->
  frames_fit atoms frames = true ->
  exists g7 w', analyse num w = Ok g7 w'.
Proof.
  intros Hp Hd Hfit. unfold analyse.
  erewrite bind_eq_Ok by (apply cell6_Ok; exists atoms, box, frames; eauto 10).
  set (u0 := {| u_atoms := atoms; u_trajectory := frames |}).
  set (w1 := record_event _ _).
  destruct (InterRDF_run_completes u0 "O" "O" w1 Hfit) as (rOO & w2 & HOO).
  destruct (InterRDF_run_completes u0 "O" "H" w2 Hfit) as (rOH & w3 & HOH).
  erewrite bind_eq_Ok.
  2:{ apply cell7_Ok. exists rOO, w2. cbn zeta. split; [exact HOO|].
      exists rOH. split; [exact HOH|reflexivity]. }
  apply InterRDF_run_Ok in HOO as (n0 & res0 & Hn0 & _ & -> & _ & _ & Hb0 & Hr0 & _).
  apply InterRDF_run_Ok in HOH as (n1 & res1 & Hn1 & _ & -> & _ & _ & Hb1 & Hr1 & _).
  erewrite bind_eq_Ok.
  2:{ apply cell8_Ok. exists res0, res1. cbn. split; [reflexivity|]. split; [reflexivity|].
      split; [congruence|]. split; [congruence|reflexivity]. }
  eexists _, _. reflexivity.
Qed.
End AnalysisCompletion.


Section WholeRun.
Variable E : Engine.
Variable num : Numerics.

Lemma notebook_Ok w r w' :
  notebook E num w = Ok r w' <->
  exists w4, simulate E w = Ok r.1 w4 /\ analyse num w4 = Ok r.2 w'.
Proof.
  unfold notebook. split.
  - intros H. inv_bind H as g4 w4 H4. inv_bind H as g7 w7 H7.
    unfold ret in H. injection H as <- <-. eauto.
  - intros (w4 & H4 & H7). erewrite bind_eq_Ok by exact H4.
    erewrite bind_eq_Ok by exact H7. now destruct r.
Qed.

Lemma analyse_Ok w g7 w' :
  analyse num w = Ok g7 w' <->
  exists g6 w6 w7, cell6 w = Ok g6 w6 /\ cell7 num g6 w6 = Ok g7 w7 /\
                   cell8 g7 w7 = Ok tt w'.
Proof.
  unfold analyse. split.
  - intros H. inv_bind H as g6 w6 H6. inv_bind H as g7' w7 H7. inv_bind H as t w8 H8.
    unfold ret in H. injection H as <- <-. destruct t. eauto 10.
  - intros (g6 & w6 & w7 & H6 & H7 & H8). erewrite bind_eq_Ok by exact H6.
    erewrite bind_eq_Ok by exact H7. erewrite bind_eq_Ok by exact H8. reflexivity.
Qed.

(** The files a completed simulation leaves: the inputs as they were, and a
    trajectory whose frames have one position for each atom. *)
Lemma simulate_files w g4 w' :
  simulate E w = Ok g4 w' ->
  (forall q, q <> "water/npt.log" -> q <> "water/production.dcd" ->
             q <> "water/production.log" -> fs w' !! q = fs w !! q) /\
  (shape_preserving E ->
   dcd_of_shape (length (top_atoms (prmtop_topology (prmtop (names2 (names3 g4))))))
                (fs w' !! dcd_path)).
Proof.
  intros H. apply simulate_Ok in H as (g2 & w2 & g3 & w3 & w4 & H2 & H3 & H4 & H5).
  rewrite cell5_Ok in H5. injection H5 as <-. cbn [print_line fs].
  destruct (cell2_world E _ _ _ H2) as (Hfs2 & _).
  destruct (cell3_files E _ _ _ _ H3) as (_ & Hother3).
  destruct (cell4_files E _ _ _ _ H4) as (_ & _ & Hother4).
  destruct (cell3_simulation E _ _ _ _ H3) as (b & p & _ & _ & Hn2 & Hsys & _).
  destruct (cell4_simulation E _ _ _ _ H4) as (Hn3 & _).
  split.
  - intros q H1 H2' H3'. rewrite Hother4, Hother3, Hfs2 by assumption. reflexivity.
  - intros shapes. pose proof (cell4_dcd_shape E shapes _ _ _ _ H4) as Hd.
    rewrite Hsys in Hd. rewrite Hn3, Hn2. exact Hd.
Qed.

Lemma cell7_completes g w :
  frames_fit (u_atoms (u g)) (u_trajectory (u g)) = true ->
  pairs_in_bounds num ->
  exists g7 w', cell7 num g w = Ok g7 w'.
Proof.
  intros Hfit bounded.
  destruct (InterRDF_run_completes num bounded (u g) "O" "O" w Hfit) as (rOO & w2 & HOO).
  destruct (InterRDF_run_completes num bounded (u g) "O" "H" w2 Hfit) as (rOH & w3 & HOH).
  eexists _, w3. apply cell7_Ok. exists rOO, w2. cbn zeta. split; [exact HOO|].
  exists rOH. split; [exact HOH|reflexivity].
Qed.

Lemma Forall_frames_fit atoms frames :
  Forall (fun fr => length (frame_positions fr) = length atoms) frames ->
  frames_fit atoms frames = true.
Proof.
  intros H. unfold frames_fit. apply forallb_forall. intros fr Hin.
  apply bool_decide_eq_true. rewrite Forall_forall in H. apply H.
  now apply list_elem_of_In.
Qed.

(** The notebook runs to the end: on well-formed input files, with a platform
    to run on, dynamics that do not fail and keep the number of particles,
    and a distance search that stays within its arrays. *)
Lemma notebook_completes w atoms b pos bv p :
  never_fails E -> shape_preserving E -> pairs_in_bounds num ->
  fs w !! prmtop_path = Some (Prmtop atoms (Some b)) ->
  fs w !! inpcrd_path = Some (Inpcrd pos bv) ->
  length pos = length atoms ->
  "CUDA" ∈ registered E \/ "Reference" ∈ registered E ->
  List.find (fun p => usable E p
               (the_system {| prmtop_topology := {| top_atoms := atoms |};
                              prmtop_box := Some b |} b))
            (registered E) = Some p ->
  exists r w', notebook E num w = Ok r w'.
Proof.
  intros total shapes bounded Hprm Hinp Hlen Hplat Hp.
  destruct (simulate_completes E total shapes w atoms b pos bv p Hprm Hinp Hlen Hplat Hp)
    as (g4 & w4 & H4).
  destruct (simulate_files _ _ _ H4) as (Hother & Hdcd). specialize (Hdcd shapes).
  assert (prmtop (names2 (names3 g4))
          = {| prmtop_topology := {| top_atoms := atoms |}; prmtop_box := Some b |}) as Hg.
  { apply simulate_Ok in H4 as (g2 & w2 & g3 & w3 & w5 & H2 & H3 & H4' & _).
    destruct (cell3_simulation E _ _ _ _ H3) as (_ & _ & _ & _ & Hn2 & _).
    destruct (cell4_simulation E _ _ _ _ H4') as (Hn3 & _).
    apply cell2_Ok in H2 as (atoms' & box' & pos' & bv' & Hprm' & _ & Hg2 & _).
    rewrite Hprm in Hprm'. injection Hprm' as <- <-. rewrite Hn3, Hn2. exact Hg2. }
  rewrite Hg in Hdcd. cbn in Hdcd. destruct Hdcd as (frames & Hfile & Hall).
  destruct (analyse_completes num bounded w4 atoms (Some b) frames) as (g7 & w' & H7).
  - rewrite Hother by discriminate. exact Hprm.
  - exact Hfile.
  - now apply Forall_frames_fit.
  - exists (g4, g7), w'. apply notebook_Ok. exists w4. auto.
Qed.
End WholeRun.


Section Traces.
Variable E : Engine.
Variable num : Numerics.

Lemma in_stage_reverse first st evs : in_stage first st evs -> in_stage first st (reverse evs).
Proof.
  intros (Hne & Hall). split.
  - intros Hr. apply Hne. apply (f_equal reverse) in Hr.
    now rewrite reverse_involutive in Hr.
  - now apply Forall_reverse.
Qed.

Lemma in_context_stage first id st evs :
  stage_of first (EvStep id) = Some st ->
  Forall (in_context id) evs -> Forall (fun e => stage_of first e = Some st) evs.
Proof.
  intros Hst Hall. eapply Forall_impl; [exact Hall|].
  intros e [->|(p & ->)]; exact Hst.
Qed.

Lemma cell2_trace first w g w' :
  cell2 E w = Ok g w' ->
  exists evs, trace w' = evs ++ trace w /\ in_stage first Setup evs.
Proof.
  intros H. apply cell2_Ok in H as (atoms & box & pos & bv & _ & _ & _ & _ & Hp).
  destruct Hp as [(_ & _ & _ & ->)|(_ & _ & _ & _ & ->)].
  - exists [EvGetPlatform "CUDA"; EvLoad inpcrd_path; EvLoad prmtop_path].
    split; [reflexivity|]. split; [discriminate|]. repeat constructor.
  - exists [EvGetPlatform "Reference"; EvGetPlatform "CUDA"; EvLoad inpcrd_path;
            EvLoad prmtop_path].
    split; [reflexivity|]. split; [discriminate|]. repeat constructor.
Qed.

Lemma equilibration_trace n g b p pmin w sim w' :
  iterate n (step1 E) (npt_start g b p pmin (n_contexts w)) (npt_world w) = Ok sim w' ->
  exists evs, trace w' = evs ++ trace w /\ in_stage (n_contexts w) Equilibration evs.
Proof.
  intros Hrun. apply steps_trace in Hrun as (evs & Heq & Hall & _).
  exists (evs ++ [EvMinimize (n_contexts w); EvNewContext (n_contexts w)]).
  split; [rewrite Heq, <- app_assoc; reflexivity|]. split.
  - intros Hnil. apply app_eq_nil in Hnil as (_ & Hnil). discriminate.
  - assert (forall id, stage_of id (EvStep id) = Some Equilibration) as Hst.
    { intros id. cbn. now rewrite Nat.eqb_refl. }
    apply Forall_app. split.
    + apply (in_context_stage _ (n_contexts w)); [apply Hst|].
      cbn [npt_start sim_context evolve ctx_id] in Hall.
      destruct (loaded_context_fields g (the_system (prmtop g) b) p (n_contexts w))
        as (Hid & _). now rewrite Hid in Hall.
    + repeat constructor; apply Hst.
Qed.

Lemma cell3_trace g w g3 w3 :
  cell3 E g w = Ok g3 w3 ->
  exists evs, trace w3 = evs ++ trace w /\ in_stage (n_contexts w) Equilibration evs.
Proof.
  intros H. apply cell3_Ok in H as (b & p & pmin & sim & _ & _ & _ & _ & Hrun & _).
  exact (equilibration_trace _ _ _ _ _ _ _ _ Hrun).
Qed.

Lemma production_trace n g p first w sim w' :
  n_contexts w = S first ->
  iterate n (step1 E) (prod_start g p (n_contexts w)) (prod_world w) = Ok sim w' ->
  exists evs, trace w' = evs ++ trace w /\ in_stage first Production evs.
Proof.
  intros Hn Hrun. apply steps_trace in Hrun as (evs & Heq & Hall & _).
  exists (evs ++ [EvNewContext (n_contexts w)]).
  split; [rewrite Heq, <- app_assoc; reflexivity|]. split.
  - intros Hnil. apply app_eq_nil in Hnil as (_ & Hnil). discriminate.
  - assert (stage_of first (EvStep (S first)) = Some Production) as Hst.
    { unfold stage_of.
      destruct (Nat.eqb_spec (S first) first) as [Hf|_]; [lia|].
      now rewrite Nat.eqb_refl. }
    rewrite Hn in *. apply Forall_app. split.
    + apply (in_context_stage _ (S first)); [exact Hst|]. exact Hall.
    + repeat constructor. exact Hst.
Qed.

Lemma cell4_trace first g w g4 w' :
  n_contexts w = S first ->
  cell4 E g w = Ok g4 w' ->
  exists evs, trace w' = evs ++ trace w /\ in_stage first Production evs.
Proof.
  intros Hn H. apply cell4_Ok in H as (p & sim & _ & _ & _ & Hrun & _).
  exact (production_trace _ _ _ _ _ _ _ Hn Hrun).
Qed.

Lemma Forall_replicate_intro {A} (P : A -> Prop) n x : P x -> Forall P (replicate n x).
Proof. intros Hx. induction n; cbn; constructor; assumption. Qed.

Lemma analysis_trace first w g6 w6 g7 w7 :
  cell6 w = Ok g6 w6 -> cell7 num g6 w6 = Ok g7 w7 ->
  exists evs, trace w7 = evs ++ trace w /\ in_stage first Analysis evs.
Proof.
  intros H6 H7.
  apply cell6_Ok in H6 as (atoms & box & frames & _ & _ & _ & -> & ->).
  apply cell7_Ok in H7 as (rOO & w1 & H0 & rOH & H1 & _). cbn zeta in H0, H1.
  apply InterRDF_run_Ok in H0 as (_ & _ & _ & _ & _ & _ & _ & _ & _ & Ht0 & _).
  apply InterRDF_run_Ok in H1 as (_ & _ & _ & _ & _ & _ & _ & _ & _ & Ht1 & _).
  cbn [the_rdf rdf_g1 atoms_of_element ag_universe u u_trajectory] in Ht0, Ht1.
  exists (replicate (length frames) EvRdfFrame ++ replicate (length frames) EvRdfFrame
          ++ [EvTrajectory dcd_path; EvTrajectory prmtop_path]).
  split.
  - rewrite Ht1, Ht0. cbn [record_event trace]. rewrite <- !app_assoc. reflexivity.
  - split.
    + intros Hnil. apply app_eq_nil in Hnil as (_ & Hnil).
      apply app_eq_nil in Hnil as (_ & Hnil). discriminate.
    + repeat (apply Forall_app; split); try (apply Forall_replicate_intro; reflexivity).
      repeat constructor.
Qed.
End Traces.

(** C7 (order of the stages).  In every completed run of the notebook the
    events that happened split, in order, into a set-up stage, ONE
    equilibration stage, a production stage, an analysis stage and a plotting
    stage, each non-empty and over before the next begins.  Exactly two
    contexts are created, the equilibration (NPT) one and the production one:
    all steps of a simulation belong to one or the other, and there is no
    second equilibration stage between them. *)
Theorem stages_in_order (E : Engine) (num : Numerics) w r w' :
  notebook E num w = Ok r w' ->
  let first := n_contexts w in
  (exists setup equilibration production analysis plotting,
     history w' = history w ++ setup ++ equilibration ++ production ++ analysis ++ plotting /\
     in_stage first Setup setup /\
     in_stage first Equilibration equilibration /\
     in_stage first Production production /\
     in_stage first Analysis analysis /\
     in_stage first Plotting plotting) /\
  n_contexts w' = (first + 2)%nat /\
  ctx_id (sim_context (simulationNPT (names3 r.1))) = first /\
  ctx_id (sim_context (simulationProd r.1)) = S first.
Proof.
  intros H first.
  apply notebook_Ok in H as (w5 & Hsim & Hana).
  apply simulate_Ok in Hsim as (g2 & w2 & g3 & w3 & w4 & H2 & H3 & H4 & H5).
  apply analyse_Ok in Hana as (g6 & w6 & w7 & H6 & H7 & H8).
  rewrite cell5_Ok in H5. injection H5 as <-.
  destruct (cell2_world E _ _ _ H2) as (_ & Hn2 & _).
  destruct (cell3_simulation E _ _ _ _ H3)
    as (b & p & _ & _ & _ & _ & _ & _ & _ & _ & _ & _ & Hid3 & _ & Hn3 & _).
  destruct (cell4_simulation E _ _ _ _ H4) as (Hnames & _ & _ & _ & _ & Hid4 & _ & Hn4 & _).
  rewrite Hn2 in Hn3, Hid3. rewrite Hn3 in Hn4, Hid4.
  destruct (cell2_trace E first _ _ _ H2) as (e2 & Ht2 & Hs2).
  destruct (cell3_trace E _ _ _ _ H3) as (e3 & Ht3 & Hs3). rewrite Hn2 in Hs3.
  destruct (cell4_trace E first _ _ _ _ Hn3 H4) as (e4 & Ht4 & Hs4).
  destruct (analysis_trace num first _ _ _ _ _ H6 H7) as (e7 & Ht7 & Hs7).
  cbn [print_line trace] in Ht7.
  apply cell8_Ok in H8 as (r0 & r1 & _ & _ & _ & _ & ->).
  split; [|split; [|split]].
  - exists (reverse e2), (reverse e3), (reverse e4), (reverse e7), [EvPlot; EvPlot].
    split.
    + unfold history. cbn [plotted trace]. rewrite Ht7, Ht4, Ht3, Ht2.
      change (EvPlot :: EvPlot :: ?l) with ([EvPlot; EvPlot] ++ l).
      rewrite !reverse_app. rewrite <- !app_assoc. reflexivity.
    + split; [now apply in_stage_reverse|]. split; [now apply in_stage_reverse|].
      split; [now apply in_stage_reverse|]. split; [now apply in_stage_reverse|].
      split; [discriminate|repeat constructor].
  - apply cell6_Ok in H6 as (_ & _ & _ & _ & _ & _ & _ & ->).
    apply cell7_Ok in H7 as (rOO & w1 & H0 & rOH & H1 & _). cbn zeta in H0, H1.
    apply InterRDF_run_Ok in H0 as (_ & _ & _ & _ & _ & _ & _ & _ & _ & _ & _ & Hc0 & _).
    apply InterRDF_run_Ok in H1 as (_ & _ & _ & _ & _ & _ & _ & _ & _ & _ & _ & Hc1 & _).
    cbn [plotted n_contexts]. rewrite Hc1, Hc0. cbn [record_event print_line n_contexts].
    rewrite Hn4. fold first. lia.
  - rewrite Hnames. exact Hid3.
  - exact Hid4.
Qed.


Section Failures.
Variable E : Engine.
Variable num : Numerics.

Lemma notebook_Raise w e w' :
  notebook E num w = Raise e w' <->
  simulate E w = Raise e w' \/
  exists g4 w4, simulate E w = Ok g4 w4 /\ analyse num w4 = Raise e w'.
Proof.
  unfold notebook. rewrite bind_Raise. split.
  - intros [H|(g4 & w4 & H4 & H)]; [left; exact H|right].
    apply bind_Raise in H as [H|(g7 & w7 & _ & H)]; [eauto|discriminate].
  - intros [H|(g4 & w4 & H4 & H)]; [left; exact H|right].
    exists g4, w4. split; [exact H4|]. apply bind_Raise. left. exact H.
Qed.

Lemma simulate_Raise w e w' :
  simulate E w = Raise e w' <->
  cell2 E w = Raise e w' \/
  exists g2 w2, cell2 E w = Ok g2 w2 /\
    (cell3 E g2 w2 = Raise e w' \/
     exists g3 w3, cell3 E g2 w2 = Ok g3 w3 /\ cell4 E g3 w3 = Raise e w').
Proof.
  unfold simulate. rewrite bind_Raise. split.
  - intros [H|(g2 & w2 & H2 & H)]; [left; exact H|right]. exists g2, w2.
    split; [exact H2|].
    apply bind_Raise in H as [H|(g3 & w3 & H3 & H)]; [left; exact H|right].
    exists g3, w3. split; [exact H3|].
    apply bind_Raise in H as [H|(g4 & w4 & H4 & H)]; [exact H|].
    apply bind_Raise in H as [H|(t & w5 & _ & H)]; [|discriminate].
    rewrite cell5_Ok in H. discriminate.
  - intros [H|(g2 & w2 & H2 & H)]; [left; exact H|right]. exists g2, w2.
    split; [exact H2|]. apply bind_Raise.
    destruct H as [H|(g3 & w3 & H3 & H)]; [left; exact H|right].
    exists g3, w3. split; [exact H3|]. apply bind_Raise. left. exact H.
Qed.

Lemma analyse_Raise w e w' :
  analyse num w = Raise e w' <->
  cell6 w = Raise e w' \/
  exists g6 w6, cell6 w = Ok g6 w6 /\
    (cell7 num g6 w6 = Raise e w' \/
     exists g7 w7, cell7 num g6 w6 = Ok g7 w7 /\ cell8 g7 w7 = Raise e w').
Proof.
  unfold analyse. rewrite bind_Raise. split.
  - intros [H|(g6 & w6 & H6 & H)]; [left; exact H|right]. exists g6, w6.
    split; [exact H6|].
    apply bind_Raise in H as [H|(g7 & w7 & H7 & H)]; [left; exact H|right].
    exists g7, w7. split; [exact H7|].
    apply bind_Raise in H as [H|(t & w8 & _ & H)]; [exact H|discriminate].
  - intros [H|(g6 & w6 & H6 & H)]; [left; exact H|right]. exists g6, w6.
    split; [exact H6|]. apply bind_Raise.
    destruct H as [H|(g7 & w7 & H7 & H)]; [left; exact H|right].
    exists g7, w7. split; [exact H7|]. apply bind_Raise. left. exact H.
Qed.

Lemma cell2_Raise w e w' :
  cell2 E w = Raise e w' <->
  AmberPrmtopFile_new prmtop_path w = Raise e w' \/
  exists p w1, AmberPrmtopFile_new prmtop_path w = Ok p w1 /\
    (AmberInpcrdFile_new inpcrd_path w1 = Raise e w' \/
     exists i w2, AmberInpcrdFile_new inpcrd_path w1 = Ok i w2 /\
       ("CUDA" ∉ registered E) /\
       getPlatformByName E "Reference" (record_event (EvGetPlatform "CUDA") w2)
       = Raise e w').
Proof.
  unfold cell2. rewrite bind_Raise. split.
  - intros [H|(p & w1 & H1 & H)]; [left; exact H|right]. exists p, w1.
    split; [exact H1|].
    apply bind_Raise in H as [H|(i & w2 & H2 & H)]; [left; exact H|right].
    exists i, w2. split; [exact H2|].
    apply bind_Raise in H as [H|(pp & w3 & _ & H)]; [|discriminate].
    apply try_except_Raise in H as [(H & Hc)|(e1 & w3 & H & _ & Hh)].
    + apply bind_Raise in H as [H|(n & w3 & _ & H)]; [|discriminate].
      apply getPlatformByName_Raise in H as (_ & -> & _). discriminate.
    + apply bind_Raise in H as [H|(n & w4 & _ & H)]; [|discriminate].
      apply getPlatformByName_Raise in H as (Hnin & _ & ->).
      apply bind_Raise in Hh as [Hh|(n & w4 & _ & Hh)]; [|discriminate].
      auto.
  - intros [H|(p & w1 & H1 & H)]; [left; exact H|right]. exists p, w1.
    split; [exact H1|]. apply bind_Raise.
    destruct H as [H|(i & w2 & H2 & Hnin & H)]; [left; exact H|right].
    exists i, w2. split; [exact H2|]. apply bind_Raise. left.
    apply try_except_Raise. right. eexists _, _. split; [|split].
    + apply bind_eq_Raise. apply getPlatformByName_Raise. eauto.
    + reflexivity.
    + apply bind_eq_Raise. exact H.
Qed.

(** A run of steps raises exactly what the integrator raises at the first
    step that fails. *)
Lemma Simulation_step_Raise n s w e w' :
  Simulation_step E n s w = Raise e w' <->
  exists k s1, (k < Z.to_nat n)%nat /\ iterate k (step1 E) s w = Ok s1 w' /\
    (ctx_positions_set (sim_context s1) = false /\
     e = OpenMMException "Particle positions have not been set"
     \/ ctx_positions_set (sim_context s1) = true /\
        langevin E (updateContextState E (sim_context s1)) = inl e).
Proof.
  unfold Simulation_step. rewrite iterate_Raise. split.
  - intros (k & s1 & w1 & Hk & Hrun & Hstep).
    apply step1_Raise, integrator_step_Raise in Hstep as (-> & Hwhy). eauto 10.
  - intros (k & s1 & Hk & Hrun & Hwhy). exists k, s1, w'.
    split; [exact Hk|]. split; [exact Hrun|].
    apply step1_Raise, integrator_step_Raise. auto.
Qed.

Lemma cell3_Raise g w e w' :
  cell3 E g w = Raise e w' <->
  equilibration_setup E g w = Raise e w' \/
  exists setup w0, equilibration_setup E g w = Ok setup w0 /\
                   Simulation_step E 50000 setup.2 w0 = Raise e w'.
Proof.
  unfold cell3. rewrite bind_Raise. split.
  - intros [H|(setup & w0 & H0 & H)]; [left; exact H|right]. exists setup, w0.
    split; [exact H0|].
    apply bind_Raise in H as [H|(sim & w1 & Hrun & H)]; [exact H|exfalso].
    apply equilibration_setup_Ok in H0 as (b & p & pmin & _ & _ & _ & _ & -> & ->).
    cbn [snd] in Hrun. unfold Simulation_step in Hrun.
    pose proof (steps_positions_set E _ _ _ _ _ Hrun) as Hset.
    fold (npt_start g b p pmin (n_contexts w)) in Hset. rewrite npt_start_set in Hset.
    apply bind_Raise in H as [H|(t & w2 & _ & H)]; [discriminate|].
    apply bind_Raise in H as [H|(st & w3 & Hst & H)].
    + unfold getState, require_positions in H. rewrite Hset in H. discriminate.
    + apply getState_Ok in Hst as (_ & _ & ->).
      unfold State_getPositions, State_getVelocities, State_getPeriodicBoxVectors,
        bind, ret in H. cbn in H. discriminate.
  - intros [H|(setup & w0 & H0 & H)]; [left; exact H|right]. exists setup, w0.
    split; [exact H0|]. apply bind_Raise. left. exact H.
Qed.

Lemma cell4_Raise g w e w' :
  cell4 E g w = Raise e w' <->
  production_setup E g w = Raise e w' \/
  exists sim w0, production_setup E g w = Ok sim w0 /\
                 Simulation_step E 500000 sim w0 = Raise e w'.
Proof.
  unfold cell4. rewrite bind_Raise. split.
  - intros [H|(sim & w0 & H0 & H)]; [left; exact H|right]. exists sim, w0.
    split; [exact H0|].
    apply bind_Raise in H as [H|(sim1 & w1 & _ & H)]; [exact H|exfalso].
    apply bind_Raise in H as [H|(t & w2 & _ & H)]; discriminate.
  - intros [H|(sim & w0 & H0 & H)]; [left; exact H|right]. exists sim, w0.
    split; [exact H0|]. apply bind_Raise. left. exact H.
Qed.
End Failures.

(** C8 (failures end the run).  The notebook raises exactly when one of its
    cells raises, with that cell's exception and after the cells before it
    completed.  Cell 2 raises exactly when reading an input file raises or,
    CUDA being absent, the look-up of the Reference platform raises: the
    absence of CUDA alone is the one failure that is handled.  Cells 3 and 4
    raise exactly when their set-up or their run of steps raises, and a run
    of steps raises exactly the exception that the integrator raises at the
    first step that fails, no step being tried again. *)
Theorem failures_are_fatal (E : Engine) (num : Numerics) :
  (forall w e w',
     notebook E num w = Raise e w' <->
     cell2 E w = Raise e w' \/
     (exists g2 w2, cell2 E w = Ok g2 w2 /\ cell3 E g2 w2 = Raise e w') \/
     (exists g2 w2 g3 w3, cell2 E w = Ok g2 w2 /\ cell3 E g2 w2 = Ok g3 w3 /\
                          cell4 E g3 w3 = Raise e w') \/
     (exists g4 w4, simulate E w = Ok g4 w4 /\ cell6 w4 = Raise e w') \/
     (exists g4 w4 g6 w6, simulate E w = Ok g4 w4 /\ cell6 w4 = Ok g6 w6 /\
                          cell7 num g6 w6 = Raise e w') \/
     (exists g4 w4 g6 w6 g7 w7, simulate E w = Ok g4 w4 /\ cell6 w4 = Ok g6 w6 /\
                                cell7 num g6 w6 = Ok g7 w7 /\ cell8 g7 w7 = Raise e w')) /\
  (forall w e w',
     cell2 E w = Raise e w' <->
     AmberPrmtopFile_new "water/water_box.prmtop" w = Raise e w' \/
     exists p w1, AmberPrmtopFile_new "water/water_box.prmtop" w = Ok p w1 /\
       (AmberInpcrdFile_new "water/water_box.inpcrd" w1 = Raise e w' \/
        exists i w2, AmberInpcrdFile_new "water/water_box.inpcrd" w1 = Ok i w2 /\
          ("CUDA" ∉ registered E) /\
          getPlatformByName E "Reference" (record_event (EvGetPlatform "CUDA") w2)
          = Raise e w')) /\
  (forall g w e w',
     cell3 E g w = Raise e w' <->
     equilibration_setup E g w = Raise e w' \/
     exists setup w0, equilibration_setup E g w = Ok setup w0 /\
                      Simulation_step E 50000 setup.2 w0 = Raise e w') /\
  (forall g w e w',
     cell4 E g w = Raise e w' <->
     production_setup E g w = Raise e w' \/
     exists sim w0, production_setup E g w = Ok sim w0 /\
                    Simulation_step E 500000 sim w0 = Raise e w') /\
  (forall n s w e w',
     Simulation_step E n s w = Raise e w' <->
     exists k s1, (k < Z.to_nat n)%nat /\ iterate k (step1 E) s w = Ok s1 w' /\
       (ctx_positions_set (sim_context s1) = false /\
        e = OpenMMException "Particle positions have not been set"
        \/ ctx_positions_set (sim_context s1) = true /\
           langevin E (updateContextState E (sim_context s1)) = inl e)).
Proof.
  split; [|split; [|split; [|split]]].
  - intros w e w'. rewrite notebook_Raise, simulate_Raise. split.
    + intros [[H|(g2 & w2 & H2 & [H|(g3 & w3 & H3 & H)])]|(g4 & w4 & H4 & H)].
      * auto.
      * right. left. eauto.
      * right. right. left. eauto 10.
      * apply analyse_Raise in H as [H|(g6 & w6 & H6 & [H|(g7 & w7 & H7 & H)])].
        -- right. right. right. left. eauto.
        -- right. right. right. right. left. eauto 10.
        -- right. right. right. right. right. eauto 15.
    + intros [H|[(g2 & w2 & H2 & H)|[(g2 & w2 & g3 & w3 & H2 & H3 & H)|
               [(g4 & w4 & H4 & H)|[(g4 & w4 & g6 & w6 & H4 & H6 & H)|
                (g4 & w4 & g6 & w6 & g7 & w7 & H4 & H6 & H7 & H)]]]]].
      * auto.
      * left. right. eauto.
      * left. right. exists g2, w2. split; [exact H2|]. right. eauto.
      * right. exists g4, w4. split; [exact H4|]. apply analyse_Raise. auto.
      * right. exists g4, w4. split; [exact H4|]. apply analyse_Raise. right. eauto.
      * right. exists g4, w4. split; [exact H4|]. apply analyse_Raise. right.
        exists g6, w6. split; [exact H6|]. right. eauto.
  - apply cell2_Raise.
  - apply cell3_Raise.
  - apply cell4_Raise.
  - apply Simulation_step_Raise.
Qed.


Section Unused.
Variable E : Engine.

Lemma omap_bind {A B C S} (f : B -> C) (m : M S A) (k : A -> M S B) (k' : A -> M S C) s :
  (forall a s1, k' a s1 = omap f (k a s1)) ->
  bind m k' s = omap f (bind m k s).
Proof. intros Hk. unfold bind. destruct (m s); [apply Hk|reflexivity]. Qed.

Lemma cell3_platform_blind p i pl pr pl' pr' w :
  cell3 E {| prmtop := p; inpcrd := i; platform := pl'; properties := pr' |} w
  = omap (with_names2 {| prmtop := p; inpcrd := i; platform := pl'; properties := pr' |})
         (cell3 E {| prmtop := p; inpcrd := i; platform := pl; properties := pr |} w).
Proof.
  unfold cell3.
  apply (omap_bind _ (equilibration_setup E
                        {| prmtop := p; inpcrd := i; platform := pl; properties := pr |})).
  intros setup w0. apply omap_bind. intros sim w1. apply omap_bind. intros t w2.
  apply omap_bind. intros st w3. apply omap_bind. intros pos w4.
  apply omap_bind. intros vel w5. apply omap_bind. intros box w6. reflexivity.
Qed.

Lemma cell4_names_blind g g3 w :
  prmtop (names2 g3) = prmtop g ->
  cell4 E (with_names2 g g3) w = omap (with_names3 (with_names2 g g3)) (cell4 E g3 w).
Proof.
  intros Hp. unfold cell4, production_setup. cbn [with_names2 names2 system temperature
    positions_eq velocities_eq box_vectors_eq]. rewrite Hp.
  rewrite !bind_assoc.
  apply omap_bind. intros sim0 w0. rewrite !bind_assoc.
  apply omap_bind. intros c0 w1. rewrite !bind_assoc.
  apply omap_bind. intros c1 w2. rewrite !bind_assoc.
  apply omap_bind. intros c2 w3. rewrite !bind_assoc.
  apply omap_bind. intros r0 w4. rewrite !bind_assoc.
  apply omap_bind. intros r1 w5.
  apply omap_bind. intros sim1 w6.
  apply omap_bind. intros sim w7. apply omap_bind. intros t w8. reflexivity.
Qed.
End Unused.

(** C10 (the selected platform is not used).  Neither [platform] nor
    [properties] reaches a [Simulation] constructor: two runs of the two
    simulation set-ups from name spaces that differ only in these two names
    end alike, with the same simulations and the same surroundings.  Whatever
    was selected, both contexts are created on OpenMM's own choice, the first
    registered platform that is usable for the system. *)
Theorem platform_selection_unused (E : Engine) :
  (forall p i pl pr pl' pr' w,
     simulations E {| prmtop := p; inpcrd := i; platform := pl; properties := pr |} w
     = simulations E {| prmtop := p; inpcrd := i; platform := pl'; properties := pr' |} w) /\
  (forall g w sims w',
     simulations E g w = Ok sims w' ->
     exists chosen,
       List.find (fun q => usable E q (sim_system sims.1)) (registered E) = Some chosen /\
       sim_system sims.2 = sim_system sims.1 /\
       ctx_platform (sim_context sims.1) = chosen /\
       ctx_platform (sim_context sims.2) = chosen).
Proof.
  split.
  - intros p i pl pr pl' pr' w. unfold simulations.
    pose proof (cell3_platform_blind E p i pl pr pl' pr' w) as Hb.
    set (g := {| prmtop := p; inpcrd := i; platform := pl; properties := pr |}) in *.
    set (g' := {| prmtop := p; inpcrd := i; platform := pl'; properties := pr' |}) in *.
    destruct (cell3 E g w) as [g3 w3|e w3] eqn:H3; cbn [omap] in Hb.
    + rewrite (bind_eq_Ok _ _ _ _ _ H3), (bind_eq_Ok _ _ _ _ _ Hb).
      destruct (cell3_simulation E _ _ _ _ H3) as (_ & _ & _ & _ & Hn & _).
      pose proof (cell4_names_blind E g' g3 w3) as Hb4.
      rewrite Hn in Hb4. specialize (Hb4 eq_refl).
      destruct (cell4 E g3 w3) as [g4 w4|e w4] eqn:H4; cbn [omap] in Hb4.
      * rewrite (bind_eq_Ok _ _ _ _ _ H4), (bind_eq_Ok _ _ _ _ _ Hb4). reflexivity.
      * rewrite (bind_eq_Raise _ _ _ _ _ H4), (bind_eq_Raise _ _ _ _ _ Hb4). reflexivity.
    + rewrite (bind_eq_Raise _ _ _ _ _ H3), (bind_eq_Raise _ _ _ _ _ Hb). reflexivity.
  - intros g w sims w' H. unfold simulations in H.
    inv_bind H as g3 w3 H3. inv_bind H as g4 w4 H4.
    unfold ret in H. injection H as <- <-. cbn [fst snd].
    destruct (cell3_simulation E _ _ _ _ H3)
      as (b & p & _ & Hp & _ & Hsys & _ & Hss & _ & _ & _ & Hplat & _).
    destruct (cell4_simulation E _ _ _ _ H4)
      as (_ & Hps & _ & _ & _ & _ & (p' & Hp' & Hplat') & _).
    exists p. rewrite Hss, Hps, Hsys. split; [exact Hp|]. split; [reflexivity|].
    split; [exact Hplat|]. rewrite Hsys, Hp in Hp'. injection Hp' as <-. exact Hplat'.
Qed.


Section ExampleFacts.
Lemma example_never_fails : never_fails Example.engine.
Proof. split; intros c; eexists; reflexivity. Qed.

Lemma example_shape_preserving : shape_preserving Example.engine.
Proof.
  split.
  - intros c p H. injection H as <-. reflexivity.
  - intros c p v H. injection H as <- <-. auto.
  - reflexivity.
  - reflexivity.
Qed.

Lemma example_pairs_in_bounds : pairs_in_bounds Example.numerics.
Proof.
  intros p1 p2 m b. apply forallb_forall. intros [[i j] d] Hin.
  cbn [Example.numerics capped_distance] in Hin.
  apply in_flat_map in Hin as (i' & Hi & Hin).
  apply in_map_iff in Hin as (j' & Heq & Hj). injection Heq as <- <- <-.
  apply in_seq in Hi. apply in_seq in Hj.
  unfold in_bounds. cbn [fst snd].
  apply andb_true_intro. split; apply Nat.ltb_lt; lia.
Qed.

Lemma example_files :
  fs Example.world !! prmtop_path = Some (Prmtop Example.atoms (Some Example.box)) /\
  fs Example.world !! inpcrd_path = Some (Inpcrd Example.positions (Some Example.box)).
Proof. split; vm_compute; reflexivity. Qed.

Lemma example_grow b : Example.grow b <> b.
Proof.
  destruct b as [[[[x y] z] v2] v3]. unfold Example.grow. cbn [fst snd].
  intros H. injection H as H. apply (f_equal Qnum) in H. cbn in H. lia.
Qed.

Lemma example_simulate :
  exists g4 w', simulate Example.engine Example.world = Ok g4 w'.
Proof.
  destruct example_files as (Hp & Hi).
  apply (simulate_completes Example.engine example_never_fails example_shape_preserving
           Example.world Example.atoms Example.box Example.positions (Some Example.box)
           "CPU" Hp Hi).
  - reflexivity.
  - right. cbn. set_solver.
  - reflexivity.
Qed.

Lemma example_notebook :
  exists r w', notebook Example.engine Example.numerics Example.world = Ok r w'.
Proof.
  destruct example_files as (Hp & Hi).
  apply (notebook_completes Example.engine Example.numerics Example.world Example.atoms
           Example.box Example.positions (Some Example.box) "CPU"
           example_never_fails example_shape_preserving example_pairs_in_bounds Hp Hi).
  - reflexivity.
  - right. cbn. set_solver.
  - reflexivity.
Qed.

Lemma example_cell3 :
  exists g3 w3, cell3 Example.engine Example.names2 Example.world = Ok g3 w3.
Proof.
  apply (cell3_completes Example.engine example_never_fails Example.names2 Example.world
           Example.box "CPU"); reflexivity.
Qed.

Lemma example_cell4 :
  exists g4 w4, cell4 Example.engine Example.names3 Example.world = Ok g4 w4.
Proof.
  apply (cell4_completes Example.engine example_never_fails Example.names3 Example.world
           "CPU"); reflexivity.
Qed.

Lemma example_cell7 :
  exists g7 w', cell7 Example.numerics Example.names6 Example.world = Ok g7 w'.
Proof.
  apply cell7_completes; [reflexivity|apply example_pairs_in_bounds].
Qed.
End ExampleFacts.




Lemma rdf_arrays_have_default_bins_witness :
  exists g7 w',
    cell7 Example.numerics Example.names6 Example.world = Ok g7 w' /\
    rdf_nbins (rdf_OO g7) = PInt 75 /\
    exists res, rdf_results (rdf_OO g7) = Some res /\ length (res_bins res) = 75%nat.
Proof.
  destruct example_cell7 as (g7 & w' & H). exists g7, w'. split; [exact H|].
  destruct (rdf_arrays_have_default_bins Example.numerics _ _ _ _ H) as (_ & _ & Hall).
  destruct (Hall (rdf_OO g7)) as (Hn & _ & res & Hres & Hlen & _).
  { apply elem_of_cons. left. reflexivity. }
  split; [exact Hn|]. exists res. split; [exact Hres|exact Hlen].
Defined.

(** C3 (platform fall-back).  On a machine where CUDA is not registered and
    the CPU and Reference platforms are, the notebook's [try]/[except] binds
    [platform] to the Reference platform and leaves [properties] unbound, and
    both simulations complete; yet neither context runs on the Reference
    platform: both are created on the CPU platform, the one OpenMM picks when
    no platform is given.  The platform that the fall-back selects yields no
    execution context. *)
Theorem fallback_platform_is_not_used :
  ("CUDA" ∉ registered Example.engine) /\
  exists g4 w',
    simulate Example.engine Example.world = Ok g4 w' /\
    platform (names2 (names3 g4)) = "Reference" /\
    properties (names2 (names3 g4)) = None /\
    ctx_platform (sim_context (simulationNPT (names3 g4))) = "CPU" /\
    ctx_platform (sim_context (simulationProd g4)) = "CPU".
Proof.
  assert ("CUDA" ∉ registered Example.engine) as Hnin.
  { cbn. rewrite !not_elem_of_cons. split; [discriminate|]. split; [discriminate|].
    apply not_elem_of_nil. }
  split; [exact Hnin|].
  destruct example_simulate as (g4 & w' & H). exists g4, w'. split; [exact H|].
  apply simulate_Ok in H as (g2 & w2 & g3 & w3 & w4 & H2 & H3 & H4 & _).
  destruct (cell3_simulation _ _ _ _ _ H3)
    as (b & p & _ & Hp & Hn2 & _ & _ & _ & _ & _ & _ & Hplat & _).
  destruct (cell4_simulation _ _ _ _ _ H4)
    as (Hn3 & _ & _ & _ & _ & _ & (p' & Hp' & Hplat') & _).
  cbn [Example.engine registered usable List.find] in Hp, Hp'.
  injection Hp as <-. injection Hp' as <-.
  rewrite Hn3, Hn2.
  apply cell2_Ok in H2 as (_ & _ & _ & _ & _ & _ & _ & _ & Hsel).
  destruct Hsel as [(Hin & _)|(_ & _ & Hpl & Hpr & _)]; [contradiction|].
  auto.
Qed.

(** Pressure coupling at work: on the example machine the box changes at the
    barostat's first move of the production run, its 25th step. *)
Lemma example_production_box_changes :
  exists g3 w3 start w4 s24 w24 s25 w25,
    cell3 Example.engine Example.names2 Example.world = Ok g3 w3 /\
    production_setup Example.engine g3 w3 = Ok start w4 /\
    iterate 24 (step1 Example.engine) start w4 = Ok s24 w24 /\
    step1 Example.engine s24 w24 = Ok s25 w25 /\
    ctx_box (sim_context s25) <> ctx_box (sim_context s24).
Proof.
  destruct example_cell3 as (g3 & w3 & H3).
  destruct (production_setup_completes Example.engine _ _ _ _ example_shape_preserving H3)
    as (p0 & Hsetup).
  set (start := prod_start g3 p0 (n_contexts w3)) in *.
  set (w4 := prod_world w3) in *.
  assert (ctx_positions_set (sim_context start) = true /\
          ctx_system (sim_context start) = system g3 /\
          ctx_steps (sim_context start) = 0) as (Hset & Hsys & Hsteps)
    by (repeat split).
  destruct (steps_total Example.engine example_never_fails 24 start w4 Hset)
    as (s24 & w24 & H24).
  destruct (steps_frame Example.engine _ _ _ _ _ H24)
    as (_ & _ & _ & _ & _ & (_ & Hsys24 & _ & _ & Hset24) & Hsteps24 & _).
  destruct (steps_total Example.engine example_never_fails 1 s24 w24) as (s25 & w25 & H25).
  { congruence. }
  cbn [iterate] in H25. apply bind_Ok in H25 as (s25' & w25' & H25 & Hret).
  unfold ret in Hret. injection Hret as -> ->.
  exists g3, w3, start, w4, s24, w24, s25, w25.
  split; [exact H3|]. split; [exact Hsetup|]. split; [exact H24|]. split; [exact H25|].
  destruct (cell3_simulation Example.engine _ _ _ _ H3) as (b & p & _ & _ & _ & Hsys3 & _).
  rewrite (the_system_step_box Example.engine _ b _ _ _ _
             (eq_trans (eq_trans Hsys24 Hsys) Hsys3) H25).
  rewrite Hsteps24, Hsteps.
  change ((0 + Z.of_nat 24 + 1) mod 25 =? 0) with true. cbn iota.
  apply example_grow.
Qed.

Lemma production_keeps_barostat_witness :
  exists g4 w',
    simulate Example.engine Example.world = Ok g4 w' /\
    sim_system (simulationProd g4) = sim_system (simulationNPT (names3 g4)) /\
    pressure_coupled (sim_context (simulationProd g4)) = true.
Proof.
  destruct example_simulate as (g4 & w' & H). exists g4, w'. split; [exact H|].
  destruct (production_keeps_barostat Example.engine _ _ _ H) as (Hsys & _ & _ & _ & Hp).
  split; [exact Hsys|exact Hp].
Defined.

Lemma equilibrated_state_installed_witness :
  exists g3 w3,
    cell3 Example.engine Example.names2 Example.world = Ok g3 w3 /\
    exists sim w4,
      production_setup Example.engine g3 w3 = Ok sim w4 /\
      st_positions (state_eq g3) = Some (ctx_positions (sim_context sim)) /\
      st_velocities (state_eq g3) = Some (ctx_velocities (sim_context sim)) /\
      st_box (state_eq g3) = ctx_box (sim_context sim).
Proof.
  destruct example_cell3 as (g3 & w3 & H). exists g3, w3. split; [exact H|].
  destruct (equilibrated_state_installed Example.engine _ _ _ _
              example_shape_preserving H) as (_ & sim & w4 & Hs & _ & Hp & Hv & Hb).
  exists sim, w4. auto.
Defined.

Lemma production_trajectory_frames_witness :
  exists g4 w4,
    cell4 Example.engine Example.names3 Example.world = Ok g4 w4 /\
    exists frames,
      fs w4 !! "water/production.dcd" = Some (Dcd frames) /\ length frames = 500%nat.
Proof.
  destruct example_cell4 as (g4 & w4 & H). exists g4, w4. split; [exact H|].
  destruct (production_trajectory_frames Example.engine _ _ _ _ H)
    as (_ & _ & frames & Hf & _ & Hlen).
  exists frames. auto.
Defined.


Lemma stages_in_order_witness :
  exists r w',
    notebook Example.engine Example.numerics Example.world = Ok r w' /\
    n_contexts w' = 2%nat /\
    exists setup equilibration production analysis plotting,
      history w' = setup ++ equilibration ++ production ++ analysis ++ plotting /\
      in_stage 0 Equilibration equilibration /\ in_stage 0 Production production.
Proof.
  destruct example_notebook as (r & w' & H). exists r, w'. split; [exact H|].
  destruct (stages_in_order Example.engine Example.numerics _ _ _ H)
    as ((e1 & e2 & e3 & e4 & e5 & Hh & _ & H2 & H3 & _) & Hn & _).
  split; [exact Hn|]. exists e1, e2, e3, e4, e5. auto.
Defined.

(** ** Frames, failures and round trips *)

Lemma equilibration_setup_unfold E g w :
  equilibration_setup E g w =
  match prmtop_box (prmtop g) with
  | None => Raise (ValueError "Illegal nonbonded method for a non-periodic system") w
  | Some b =>
      let sys := the_system (prmtop g) b in
      match List.find (fun p => usable E p sys) (registered E) with
      | None => Raise (OpenMMException "No Platform supports all the requested kernels") w
      | Some p =>
          if bool_decide (length (inpcrd_positions (inpcrd g))
                          = length (top_atoms (prmtop_topology (prmtop g))))
          then
            let c := loaded_context g sys p (n_contexts w) in
            match minimizer E c with
            | inl e => Raise e (context_made w)
            | inr pmin =>
                Ok (sys, wall_clock E (length (trace w)),
                    npt_start g b p pmin (n_contexts w)) (npt_world w)
            end
          else Raise (OpenMMException
                        "Called setPositions() on a Context with the wrong number of positions")
                     (context_made w)
      end
  end.
Proof.
  unfold equilibration_setup, createSystem.
  destruct (prmtop_box (prmtop g)) as [b|] eqn:Hb; [|reflexivity].
  cbn zeta. unfold bind at 1. unfold ret at 1.
  unfold bind at 1. unfold time_time at 1, bind at 1, get at 1, ret at 1.
  unfold bind at 1. unfold Simulation_new, Context_new.
  fold (the_system (prmtop g) b).
  change (addForce (MonteCarloBarostat 1 300 25) _) with (the_system (prmtop g) b).
  destruct (List.find _ (registered E)) as [p|] eqn:Hp; [|reflexivity].
  cbn -[the_system loaded_context npt_start npt_world context_made bool_decide].
  unfold setPositions.
  cbn -[the_system loaded_context npt_start npt_world context_made bool_decide].
  destruct (decide (length (inpcrd_positions (inpcrd g))
                    = length (top_atoms (prmtop_topology (prmtop g))))) as [Hlen|Hlen].
  2:{ rewrite !bool_decide_eq_false_2 by exact Hlen. reflexivity. }
  rewrite !bool_decide_eq_true_2 by exact Hlen.
  cbn -[the_system loaded_context npt_start npt_world context_made].
  unfold npt_start, loaded_context.
  destruct (inpcrd_boxVectors (inpcrd g)) as [bv|] eqn:Hbv.
  all: cbn -[the_system npt_world context_made].
  all: unfold minimizeEnergy, bind, require_positions, lift; cbn -[the_system npt_world context_made].
  all: unfold the_integrator.
  all: match goal with |- context [minimizer ?E' ?c] => destruct (minimizer E' c) as [e|pmin] eqn:Hmin end.
  all: reflexivity.
Qed.

Lemma production_setup_unfold E g w :
  production_setup E g w =
  match List.find (fun p => usable E p (system g)) (registered E) with
  | None => Raise (OpenMMException "No Platform supports all the requested kernels") w
  | Some p =>
      if bool_decide (length (positions_eq g) = sys_particles (system g))
      then if bool_decide (length (velocities_eq g) = sys_particles (system g))
           then Ok (prod_start g p (n_contexts w)) (prod_world w)
           else Raise (OpenMMException
                         "Called setVelocities() on a Context with the wrong number of velocities")
                      (context_made w)
      else Raise (OpenMMException
                    "Called setPositions() on a Context with the wrong number of positions")
                 (context_made w)
  end.
Proof.
  unfold production_setup, Simulation_new, Context_new.
  cbn zeta. unfold bind at 1. unfold bind at 1. unfold bind at 1.
  destruct (List.find _ (registered E)) as [p|] eqn:Hp; [|reflexivity].
  cbn -[prod_start prod_world context_made bool_decide].
  unfold setPositions, setVelocities.
  cbn -[prod_start prod_world context_made bool_decide].
  destruct (decide (length (positions_eq g) = sys_particles (system g))) as [Hp1|Hp1].
  2:{ rewrite !bool_decide_eq_false_2 by exact Hp1. reflexivity. }
  rewrite !bool_decide_eq_true_2 by exact Hp1.
  cbn -[prod_start prod_world context_made bool_decide].
  destruct (decide (length (velocities_eq g) = sys_particles (system g))) as [Hv|Hv].
  2:{ rewrite !bool_decide_eq_false_2 by exact Hv. reflexivity. }
  rewrite !bool_decide_eq_true_2 by exact Hv.
  reflexivity.
Qed.

(** X3 (failures of the equilibration set-up).
    The set-up of the equilibration (cell 3 up to the reporter) fails in
    exactly four ways: a topology without a periodic box is refused by
    [createSystem] with PME; no registered platform can run the system; the
    coordinate file has not one position for each atom; the minimiser
    raises.  In the first two cases nothing has happened yet; in the last two
    a context was created.  In every case the files are as they were: the
    log of an earlier run is emptied only once the set-up got through. *)
Theorem equilibration_setup_failures (E : Engine) g w e w' :
  (equilibration_setup E g w = Raise e w' <->
   (prmtop_box (prmtop g) = None /\
    e = ValueError "Illegal nonbonded method for a non-periodic system" /\ w' = w)
   \/
   exists b, prmtop_box (prmtop g) = Some b /\
     let sys := the_system (prmtop g) b in
     ((List.find (fun p => usable E p sys) (registered E) = None /\
       e = OpenMMException "No Platform supports all the requested kernels" /\ w' = w)
      \/
      exists p, List.find (fun p => usable E p sys) (registered E) = Some p /\
        w' = context_made w /\
        ((length (inpcrd_positions (inpcrd g))
            <> length (top_atoms (prmtop_topology (prmtop g))) /\
          e = OpenMMException
                "Called setPositions() on a Context with the wrong number of positions")
         \/
         (length (inpcrd_positions (inpcrd g))
            = length (top_atoms (prmtop_topology (prmtop g))) /\
          minimizer E (loaded_context g sys p (n_contexts w)) = inl e)))) /\
  (equilibration_setup E g w = Raise e w' -> fs w' = fs w /\ stdout w' = stdout w).
Proof.
  rewrite equilibration_setup_unfold.
  destruct (prmtop_box (prmtop g)) as [b|] eqn:Hb.
  2:{ split.
      - split.
        + intros H. injection H as <- <-. left. auto.
        + intros [(_ & -> & ->)|(b & Hb' & _)]; [reflexivity|discriminate].
      - intros H. injection H as <- <-. auto. }
  cbn zeta.
  destruct (List.find _ (registered E)) as [p|] eqn:Hp.
  2:{ split.
      - split.
        + intros H. injection H as <- <-. right. exists b. split; [reflexivity|]. left. auto.
        + intros [(Hn & _)|(b' & Hb' & Hc)]; [discriminate|]. injection Hb' as <-.
          destruct Hc as [(_ & -> & ->)|(p & Hp' & _)]; [reflexivity|congruence].
      - intros H. injection H as <- <-. auto. }
  case_bool_decide as Hlen.
  - destruct (minimizer E _) as [e0|pmin] eqn:Hmin.
    + split.
      * split.
        -- intros H. injection H as <- <-. right. exists b. split; [reflexivity|].
           right. exists p. split; [first [exact Hp|reflexivity]|]. split; [reflexivity|]. right. auto.
        -- intros [(Hn & _)|(b' & Hb' & Hc)]; [discriminate|]. injection Hb' as <-.
           destruct Hc as [(Hn & _)|(p' & Hp' & -> & Hc)]; [congruence|].
           assert (p' = p) as -> by congruence.
           destruct Hc as [(Hne & _)|(_ & Hm)]; [contradiction|].
           rewrite Hmin in Hm. injection Hm as ->. reflexivity.
      * intros H. injection H as <- <-. auto.
    + split; [|intros H; discriminate H]. split; [intros H; discriminate H|].
      intros [(Hn & _)|(b' & Hb' & Hc)]; [discriminate|]. injection Hb' as <-.
      destruct Hc as [(Hn & _)|(p' & Hp' & -> & Hc)]; [congruence|].
      assert (p' = p) as -> by congruence.
      destruct Hc as [(Hne & _)|(_ & Hm)]; [contradiction|].
      rewrite Hmin in Hm. discriminate.
  - split.
    + split.
      * intros H. injection H as <- <-. right. exists b. split; [reflexivity|].
        right. exists p. split; [first [exact Hp|reflexivity]|]. split; [reflexivity|]. left. auto.
      * intros [(Hn & _)|(b' & Hb' & Hc)]; [discriminate|]. injection Hb' as <-.
        destruct Hc as [(Hn & _)|(p' & Hp' & -> & Hc)]; [congruence|].
        destruct Hc as [(_ & ->)|(He & _)]; [reflexivity|contradiction].
    + intros H. injection H as <- <-. auto.
Qed.

(** X5 (failures of the production set-up).
    The set-up of the production run (cell 4 up to the reporters) fails in
    exactly three ways: no registered platform can run the system, or the
    equilibrated positions, or else the equilibrated velocities, are not one
    for each particle.  In every case the files are as they were: the
    trajectory and the log of an earlier run are emptied only once the
    set-up got through. *)
Theorem production_setup_failures (E : Engine) g w e w' :
  (production_setup E g w = Raise e w' <->
   (List.find (fun p => usable E p (system g)) (registered E) = None /\
    e = OpenMMException "No Platform supports all the requested kernels" /\ w' = w)
   \/
   exists p, List.find (fun p => usable E p (system g)) (registered E) = Some p /\
     w' = context_made w /\
     ((length (positions_eq g) <> sys_particles (system g) /\
       e = OpenMMException
             "Called setPositions() on a Context with the wrong number of positions")
      \/
      (length (positions_eq g) = sys_particles (system g) /\
       length (velocities_eq g) <> sys_particles (system g) /\
       e = OpenMMException
             "Called setVelocities() on a Context with the wrong number of velocities"))) /\
  (production_setup E g w = Raise e w' -> fs w' = fs w /\ stdout w' = stdout w).
Proof.
  rewrite production_setup_unfold.
  destruct (List.find _ (registered E)) as [p|] eqn:Hp.
  2:{ split.
      - split.
        + intros H. injection H as <- <-. left. auto.
        + intros [(_ & -> & ->)|(p & Hp' & _)]; [reflexivity|congruence].
      - intros H. injection H as <- <-. auto. }
  case_bool_decide as Hpos.
  - case_bool_decide as Hvel.
    + split; [|intros H; discriminate H]. split; [intros H; discriminate H|].
      intros [(Hn & _)|(p' & Hp' & -> & Hc)]; [congruence|].
      destruct Hc as [(Hne & _)|(_ & Hne & _)]; contradiction.
    + split.
      * split.
        -- intros H. injection H as <- <-. right. exists p. split; [first [exact Hp|reflexivity]|].
           split; [reflexivity|]. right. auto.
        -- intros [(Hn & _)|(p' & Hp' & -> & Hc)]; [congruence|].
           destruct Hc as [(Hne & _)|(_ & _ & ->)]; [contradiction|reflexivity].
      * intros H. injection H as <- <-. auto.
  - split.
    + split.
      * intros H. injection H as <- <-. right. exists p. split; [first [exact Hp|reflexivity]|].
        split; [reflexivity|]. left. auto.
      * intros [(Hn & _)|(p' & Hp' & -> & Hc)]; [congruence|].
        destruct Hc as [(_ & ->)|(He & _)]; [reflexivity|contradiction].
    + intros H. injection H as <- <-. auto.
Qed.

(** X1 (a missing input file).
    Without its topology file the notebook stops at its first statement, with
    [FileNotFoundError] for that path; with the topology but without the
    coordinate file it stops at the second.  Nothing but the attempts to read
    has happened by then: no platform was asked for, no context made. *)
Theorem missing_input_file_is_fatal (E : Engine) (num : Numerics) w :
  (fs w !! prmtop_path = None ->
   notebook E num w
   = Raise (FileNotFoundError "water/water_box.prmtop") (record_event (EvLoad prmtop_path) w))
  /\
  (forall atoms box,
     fs w !! prmtop_path = Some (Prmtop atoms box) ->
     fs w !! inpcrd_path = None ->
     notebook E num w = Raise (FileNotFoundError "water/water_box.inpcrd") (loaded_world w)).
Proof.
  split.
  - intros H. apply notebook_Raise. left. apply simulate_Raise. left.
    apply cell2_Raise. left.
    unfold AmberPrmtopFile_new, bind, emit, modify, get. cbn [fs record_event].
    rewrite H. reflexivity.
  - intros atoms box H1 H2. apply notebook_Raise. left. apply simulate_Raise. left.
    apply cell2_Raise. right.
    exists {| prmtop_topology := {| top_atoms := atoms |}; prmtop_box := box |},
           (record_event (EvLoad prmtop_path) w).
    split.
    + unfold AmberPrmtopFile_new, bind, emit, modify, get. cbn [fs record_event].
      rewrite H1. reflexivity.
    + left. unfold AmberInpcrdFile_new, bind, emit, modify, get. cbn [fs record_event].
      rewrite H2. reflexivity.
Qed.

(** X2 (what the platform selection binds).
    Cell 2 gets through exactly when both input files are there and are of
    the right kind, and the CUDA or the Reference platform is registered.
    The platform it binds is a registered one, CUDA whenever CUDA is
    registered; and [properties] is bound exactly when CUDA was found: after
    the fall-back to Reference the name does not exist. *)
Theorem platform_selection_outcome (E : Engine) w :
  ((exists g w', cell2 E w = Ok g w') <->
   (exists atoms box, fs w !! prmtop_path = Some (Prmtop atoms box)) /\
   (exists pos bv, fs w !! inpcrd_path = Some (Inpcrd pos bv)) /\
   ("CUDA" ∈ registered E \/ "Reference" ∈ registered E)) /\
  (forall g w',
     cell2 E w = Ok g w' ->
     platform g ∈ registered E /\
     (platform g = "CUDA" <-> "CUDA" ∈ registered E) /\
     (platform g = "Reference" <-> "CUDA" ∉ registered E) /\
     (properties g = Some {[ "CudaPrecision" := "mixed" ]} <-> "CUDA" ∈ registered E) /\
     (properties g = None <-> "CUDA" ∉ registered E)).
Proof.
  split.
  - split.
    + intros (g & w' & H). apply cell2_Ok in H as (atoms & box & pos & bv & H1 & H2 & _ & _ & Hsel).
      split; [eauto|]. split; [eauto|].
      destruct Hsel as [(Hin & _)|(_ & Hin & _)]; auto.
    + intros ((atoms & box & H1) & (pos & bv & H2) & Hreg).
      destruct (decide ("CUDA" ∈ registered E)) as [Hc|Hc].
      * eexists {| prmtop := _; inpcrd := _; platform := _; properties := _ |}, _.
        apply cell2_Ok. exists atoms, box, pos, bv.
        split; [exact H1|]. split; [exact H2|]. split; [reflexivity|].
        split; [reflexivity|]. left. split; [exact Hc|]. cbn. auto.
      * destruct Hreg as [Hin|Hin]; [contradiction|].
        eexists {| prmtop := _; inpcrd := _; platform := _; properties := _ |}, _.
        apply cell2_Ok. exists atoms, box, pos, bv.
        split; [exact H1|]. split; [exact H2|]. split; [reflexivity|].
        split; [reflexivity|]. right. split; [exact Hc|]. split; [exact Hin|]. cbn. auto.
  - intros g w' H.
    apply cell2_Ok in H as (atoms & box & pos & bv & _ & _ & _ & _ & Hsel).
    destruct Hsel as [(Hin & -> & -> & _)|(Hnin & Hin & -> & -> & _)].
    + split; [exact Hin|]. split; [tauto|]. split; [split; [discriminate|contradiction]|].
      split; [tauto|]. split; [discriminate|contradiction].
    + split; [exact Hin|]. split; [split; [discriminate|contradiction]|].
      split; [tauto|]. split; [split; [discriminate|contradiction]|]. tauto.
Qed.


Section Frame.
Variable R : World -> World -> Prop.
Variable outs : list string.
Hypothesis R_refl : forall w, R w w.
Hypothesis R_trans : forall a b c, R a b -> R b c -> R a c.
Hypothesis R_event : forall e w, R w (record_event e w).
Hypothesis R_contexts : forall n w, R w (set_n_contexts n w).
Hypothesis R_figure : forall f w, R w (set_figure f w).
Hypothesis R_files :
  forall f w, (forall m q, q ∉ outs -> f m !! q = m !! q) -> R w (set_fs f w).

Lemma keeps_ret {A} (a : A) : keeps R (ret a).
Proof. intros w. apply R_refl. Qed.

Lemma keeps_raise {A} e : keeps R (raise e : M World A).
Proof. intros w. apply R_refl. Qed.

Lemma keeps_get : keeps R get.
Proof. intros w. apply R_refl. Qed.

Lemma keeps_lift {A} (r : exn + A) : keeps R (lift r).
Proof. destruct r; intros w; apply R_refl. Qed.

Lemma keeps_modify f : (forall w, R w (f w)) -> keeps R (modify f).
Proof. intros H w. apply H. Qed.

Lemma keeps_emit e : keeps R (emit e).
Proof. apply keeps_modify. apply R_event. Qed.

Lemma keeps_bind {A B} (m : M World A) (k : A -> M World B) :
  keeps R m -> (forall a, keeps R (k a)) -> keeps R (bind m k).
Proof.
  intros Hm Hk w. unfold bind. specialize (Hm w).
  destruct (m w) as [a s|e s]; cbn in *; [|exact Hm].
  exact (R_trans _ _ _ Hm (Hk a s)).
Qed.

Lemma keeps_try_except {A} (body handler : M World A) catches :
  keeps R body -> keeps R handler -> keeps R (try_except body catches handler).
Proof.
  intros Hb Hh w. unfold try_except. specialize (Hb w).
  destruct (body w) as [a s|e s]; cbn in *; [exact Hb|].
  destruct (catches e); [|exact Hb].
  exact (R_trans _ _ _ Hb (Hh s)).
Qed.

Lemma keeps_for_each {A} (xs : list A) body :
  (forall x, x ∈ xs -> keeps R (body x)) -> keeps R (for_each xs body).
Proof.
  induction xs as [|x xs IH]; intros H; cbn [for_each].
  - apply keeps_ret.
  - apply keeps_bind.
    + apply H. apply elem_of_cons. left. reflexivity.
    + intros _. apply IH. intros y Hy. apply H. apply elem_of_cons. right. exact Hy.
Qed.

Lemma keeps_iterate {A} (I : A -> Prop) (f : A -> M World A) :
  (forall a, I a -> keeps R (f a)) ->
  (forall a w a' w', I a -> f a w = Ok a' w' -> I a') ->
  forall n a, I a -> keeps R (iterate n f a).
Proof.
  intros Hk HI n. induction n as [|n IH]; intros a Ha; cbn [iterate].
  - apply keeps_ret.
  - intros w. unfold bind. pose proof (Hk a Ha w) as Hw.
    destruct (f a w) as [a' s|e s] eqn:Hf; cbn in *; [|exact Hw].
    exact (R_trans _ _ _ Hw (IH a' (HI _ _ _ _ Ha Hf) s)).
Qed.

Ltac keeps_step :=
  first
    [ apply keeps_ret | apply keeps_raise | apply keeps_get | apply keeps_lift
    | apply keeps_emit
    | apply keeps_bind; [|intros ?]
    | match goal with
      | |- keeps _ (if ?b then _ else _) => destruct b
      | |- keeps _ (match ?x with _ => _ end) => destruct x
      end ].

Ltac keeps_tac := repeat keeps_step.

Section FrameEngine.
Variable E : Engine.

Lemma keeps_AmberPrmtopFile_new path : keeps R (AmberPrmtopFile_new path).
Proof.
  unfold AmberPrmtopFile_new. apply keeps_bind; [apply keeps_emit|intros _].
  apply keeps_bind; [apply keeps_get|intros w0]. keeps_tac.
Qed.

Lemma keeps_AmberInpcrdFile_new path : keeps R (AmberInpcrdFile_new path).
Proof.
  unfold AmberInpcrdFile_new. apply keeps_bind; [apply keeps_emit|intros _].
  apply keeps_bind; [apply keeps_get|intros w0]. keeps_tac.
Qed.

Lemma keeps_getPlatformByName name : keeps R (getPlatformByName E name).
Proof. unfold getPlatformByName. keeps_tac. Qed.

Lemma keeps_cell2 : keeps R (cell2 E).
Proof.
  unfold cell2.
  apply keeps_bind; [apply keeps_AmberPrmtopFile_new|intros p].
  apply keeps_bind; [apply keeps_AmberInpcrdFile_new|intros i].
  apply keeps_bind; [|intros pp; apply keeps_ret].
  apply keeps_try_except.
  - apply keeps_bind; [apply keeps_getPlatformByName|intros ?; apply keeps_ret].
  - apply keeps_bind; [apply keeps_getPlatformByName|intros ?; apply keeps_ret].
Qed.

Lemma keeps_createSystem p m c k : keeps R (createSystem p m c k).
Proof. unfold createSystem. cbn zeta. keeps_tac. Qed.

Lemma keeps_time_time : keeps R (time_time E).
Proof. unfold time_time. keeps_tac. Qed.

Lemma keeps_Simulation_new t s i p pp : keeps R (Simulation_new E t s i p pp).
Proof.
  unfold Simulation_new, Context_new.
  apply keeps_bind; [|intros c; apply keeps_ret].
  apply keeps_bind; [keeps_tac|intros chosen].
  apply keeps_bind; [apply keeps_get|intros w0]. cbn zeta.
  apply keeps_bind; [apply keeps_modify; apply R_contexts|intros _].
  keeps_tac.
Qed.

Lemma keeps_setPositions p c : keeps R (setPositions p c).
Proof. unfold setPositions. keeps_tac. Qed.

Lemma keeps_setVelocities p c : keeps R (setVelocities p c).
Proof. unfold setVelocities. keeps_tac. Qed.

Lemma keeps_setPeriodicBoxVectors b c : keeps R (setPeriodicBoxVectors b c).
Proof. unfold setPeriodicBoxVectors. keeps_tac. Qed.

Lemma keeps_require_positions c : keeps R (require_positions c).
Proof. unfold require_positions. keeps_tac. Qed.

Lemma keeps_minimizeEnergy s : keeps R (minimizeEnergy E s).
Proof.
  unfold minimizeEnergy. cbn zeta.
  apply keeps_bind; [apply keeps_require_positions|intros _]. keeps_tac.
Qed.

Lemma keeps_insert_file (path : string) (x : file) :
  path ∈ outs -> forall w, R w (set_fs (insert path x) w).
Proof.
  intros Hin w. apply R_files. intros m q Hq. apply lookup_insert_ne.
  intros ->. contradiction.
Qed.

Lemma keeps_alter_file (path : string) (f : option file -> option file) :
  path ∈ outs -> forall w, R w (set_fs (partial_alter f path) w).
Proof.
  intros Hin w. apply R_files. intros m q Hq. apply lookup_partial_alter_ne.
  intros ->. contradiction.
Qed.

Lemma keeps_StateDataReporter_new file interval kw :
  file ∈ outs -> keeps R (StateDataReporter_new file interval kw).
Proof.
  intros Hin. unfold StateDataReporter_new, check_keywords.
  apply keeps_bind; [keeps_tac|intros _].
  apply keeps_bind; [keeps_tac|intros _].
  apply keeps_bind; [|intros _; apply keeps_ret].
  destruct (flag kw "append"); [apply keeps_ret|].
  apply keeps_modify. apply keeps_insert_file. exact Hin.
Qed.

Lemma keeps_DCDReporter_new file interval :
  file ∈ outs -> keeps R (DCDReporter_new file interval).
Proof.
  intros Hin. unfold DCDReporter_new.
  apply keeps_bind; [|intros _; apply keeps_ret].
  apply keeps_modify. apply keeps_insert_file. exact Hin.
Qed.

Lemma keeps_report s r : file_of r ∈ outs -> keeps R (report E s r).
Proof.
  intros Hin. destruct r as [file i cols|file i]; cbn [report file_of] in *.
  - apply keeps_bind; [|intros _; apply keeps_emit].
    apply keeps_modify. apply keeps_alter_file. exact Hin.
  - apply keeps_bind; [|intros _; apply keeps_emit].
    apply keeps_modify. apply keeps_alter_file. exact Hin.
Qed.

Lemma keeps_integrator_step c : keeps R (integrator_step E c).
Proof.
  unfold integrator_step.
  apply keeps_bind; [apply keeps_require_positions|intros _]. cbn zeta. keeps_tac.
Qed.

Lemma keeps_step1 s : reports_within outs s -> keeps R (step1 E s).
Proof.
  intros Hs. unfold step1.
  apply keeps_bind; [apply keeps_integrator_step|intros c]. cbn zeta.
  apply keeps_bind; [|intros _; apply keeps_ret].
  apply keeps_for_each. intros r Hr.
  destruct (due r _); [|apply keeps_ret].
  apply keeps_report. apply Hs. exact Hr.
Qed.

Lemma step1_reports_within s w s' w' :
  reports_within outs s -> step1 E s w = Ok s' w' -> reports_within outs s'.
Proof.
  intros Hs H. apply step1_Ok in H as (_ & pv & _ & -> & _). exact Hs.
Qed.

Lemma keeps_Simulation_step n s : reports_within outs s -> keeps R (Simulation_step E n s).
Proof.
  intros Hs. unfold Simulation_step.
  apply (keeps_iterate (reports_within outs)); [apply keeps_step1|apply step1_reports_within|exact Hs].
Qed.

Lemma keeps_getState c a b d : keeps R (getState E c a b d).
Proof.
  unfold getState.
  apply keeps_bind; [destruct a; [apply keeps_require_positions|apply keeps_ret]|intros _].
  apply keeps_ret.
Qed.

Lemma keeps_equilibration_setup g :
  "water/npt.log" ∈ outs -> keeps R (equilibration_setup E g).
Proof.
  intros Hin. unfold equilibration_setup.
  apply keeps_bind; [apply keeps_createSystem|intros sys].
  apply keeps_bind; [apply keeps_time_time|intros t]. cbn zeta.
  apply keeps_bind; [apply keeps_Simulation_new|intros sim].
  apply keeps_bind; [apply keeps_setPositions|intros c].
  apply keeps_bind.
  { destruct (inpcrd_boxVectors (inpcrd g)); [|apply keeps_ret].
    apply keeps_bind; [apply keeps_setPeriodicBoxVectors|intros ?; apply keeps_ret]. }
  intros sim1.
  apply keeps_bind; [apply keeps_minimizeEnergy|intros sim2].
  apply keeps_bind; [apply keeps_StateDataReporter_new; exact Hin|intros r].
  apply keeps_ret.
Qed.

Lemma equilibration_setup_reports g w r w' :
  "water/npt.log" ∈ outs ->
  equilibration_setup E g w = Ok r w' -> reports_within outs r.2.
Proof.
  intros Hin H. apply equilibration_setup_Ok in H as (b & p & pmin & _ & _ & _ & _ & -> & _).
  intros r Hr. cbn in Hr. apply list_elem_of_singleton in Hr as ->. exact Hin.
Qed.

Lemma keeps_cell3 g : "water/npt.log" ∈ outs -> keeps R (cell3 E g).
Proof.
  intros Hin w. unfold cell3, bind at 1.
  pose proof (keeps_equilibration_setup g Hin w) as H0.
  destruct (equilibration_setup E g w) as [setup w0|e w0] eqn:Hs; cbn in H0; [|exact H0].
  apply (R_trans _ _ _ H0). cbn zeta.
  apply keeps_bind.
  { apply keeps_Simulation_step. exact (equilibration_setup_reports _ _ _ _ Hin Hs). }
  intros sim.
  apply keeps_bind; [apply keeps_time_time|intros t].
  apply keeps_bind; [apply keeps_getState|intros st].
  unfold State_getPositions, State_getVelocities, State_getPeriodicBoxVectors.
  keeps_tac.
Qed.

Lemma keeps_production_setup g :
  "water/production.dcd" ∈ outs -> "water/production.log" ∈ outs ->
  keeps R (production_setup E g).
Proof.
  intros Hd Hl. unfold production_setup. cbn zeta.
  apply keeps_bind; [apply keeps_Simulation_new|intros sim].
  apply keeps_bind; [apply keeps_setPositions|intros c].
  apply keeps_bind; [apply keeps_setVelocities|intros c1].
  apply keeps_bind; [apply keeps_setPeriodicBoxVectors|intros c2].
  apply keeps_bind; [apply keeps_DCDReporter_new; exact Hd|intros r].
  apply keeps_bind; [apply keeps_StateDataReporter_new; exact Hl|intros r1].
  apply keeps_ret.
Qed.

Lemma production_setup_reports g w sim w' :
  "water/production.dcd" ∈ outs -> "water/production.log" ∈ outs ->
  production_setup E g w = Ok sim w' -> reports_within outs sim.
Proof.
  intros Hd Hl H. apply production_setup_Ok in H as (p & _ & _ & _ & -> & _).
  intros r Hr. cbn in Hr.
  apply elem_of_cons in Hr as [->|Hr]; [exact Hd|].
  apply list_elem_of_singleton in Hr as ->. exact Hl.
Qed.

Lemma keeps_cell4 g :
  "water/production.dcd" ∈ outs -> "water/production.log" ∈ outs -> keeps R (cell4 E g).
Proof.
  intros Hd Hl w. unfold cell4, bind at 1.
  pose proof (keeps_production_setup g Hd Hl w) as H0.
  destruct (production_setup E g w) as [sim w0|e w0] eqn:Hs; cbn in H0; [|exact H0].
  apply (R_trans _ _ _ H0).
  apply keeps_bind.
  { apply keeps_Simulation_step. exact (production_setup_reports _ _ _ _ Hd Hl Hs). }
  intros sim1.
  apply keeps_bind; [apply keeps_time_time|intros t]. apply keeps_ret.
Qed.
End FrameEngine.

Lemma keeps_Universe_new top traj : keeps R (Universe_new top traj).
Proof.
  unfold Universe_new. apply keeps_bind; [apply keeps_emit|intros _].
  apply keeps_bind; [apply keeps_get|intros w0].
  destruct (fs w0 !! top) as [[]|]; try apply keeps_raise.
  apply keeps_bind; [apply keeps_emit|intros _]. keeps_tac.
Qed.

Lemma keeps_cell6 : keeps R cell6.
Proof.
  unfold cell6. apply keeps_bind; [apply keeps_Universe_new|intros u]. apply keeps_ret.
Qed.

Lemma keeps_select_atoms u sel : keeps R (select_atoms u sel).
Proof. unfold select_atoms. keeps_tac. Qed.

Lemma keeps_InterRDF_new g1 g2 kw : keeps R (InterRDF_new g1 g2 kw).
Proof.
  unfold InterRDF_new.
  apply keeps_bind.
  { destruct (default kw "norm" (PStr "rdf")); try apply keeps_raise. keeps_tac. }
  intros norm.
  apply keeps_bind.
  { intros w. destruct (default kw "exclude_same" PNone) as [| | | |s|]; try apply R_refl.
    repeat match goal with
           | |- context [match ?x with _ => _ end] => destruct x
           end; apply R_refl. }
  intros same.
  destruct same, (default kw "exclude_block" PNone); keeps_tac.
Qed.

Section FrameNumerics.
Variable num : Numerics.

Lemma keeps_single_frame r acc fr : keeps R (single_frame num r acc fr).
Proof. unfold single_frame. keeps_tac. Qed.

Lemma keeps_frames_loop r frames : forall acc, keeps R (frames_loop num r acc frames).
Proof.
  induction frames as [|fr frames IH]; intros acc; cbn [frames_loop].
  - apply keeps_ret.
  - apply keeps_bind; [apply keeps_single_frame|intros acc']. apply IH.
Qed.

Lemma keeps_InterRDF_run r : keeps R (InterRDF_run num r).
Proof.
  unfold InterRDF_run. apply keeps_bind; [apply keeps_lift|intros h0]. cbn zeta.
  apply keeps_bind; [apply keeps_frames_loop|intros acc]. apply keeps_ret.
Qed.

Lemma keeps_cell7 g : keeps R (cell7 num g).
Proof.
  unfold cell7.
  apply keeps_bind; [apply keeps_select_atoms|intros O].
  apply keeps_bind; [apply keeps_select_atoms|intros H].
  apply keeps_bind; [apply keeps_InterRDF_new|intros r0].
  apply keeps_bind; [apply keeps_InterRDF_run|intros r1].
  apply keeps_bind; [apply keeps_InterRDF_new|intros r2].
  apply keeps_bind; [apply keeps_InterRDF_run|intros r3].
  apply keeps_ret.
Qed.
End FrameNumerics.

Lemma keeps_on_current f : keeps R (modify (set_figure (Pyplot.on_current f))).
Proof. apply keeps_modify. intros w. apply R_figure. Qed.

Lemma keeps_subplot a b c : keeps R (Pyplot.subplot a b c).
Proof.
  unfold Pyplot.subplot. destruct (_ && _); [|apply keeps_raise].
  apply keeps_modify. intros w. apply R_figure.
Qed.

Lemma keeps_plot x y : keeps R (Pyplot.plot x y).
Proof.
  unfold Pyplot.plot. case_bool_decide; [|apply keeps_raise].
  apply keeps_bind; [apply keeps_on_current|intros _; apply keeps_emit].
Qed.

Lemma keeps_cell8 g : keeps R (cell8 g).
Proof.
  unfold cell8, Pyplot.figure_new, Pyplot.title, Pyplot.xlabel, Pyplot.ylabel, Pyplot.grid,
    Pyplot.tight_layout, results_bins, results_rdf.
  repeat first
    [ apply keeps_ret | apply keeps_raise | apply keeps_on_current | apply keeps_subplot
    | apply keeps_plot
    | apply keeps_modify; intros ?; apply R_figure
    | apply keeps_bind; [|intros ?]
    | match goal with |- keeps _ (match ?x with _ => _ end) => destruct x end ].
Qed.

Lemma keeps_cell5 g : (forall l w, R w (print_line l w)) -> keeps R (cell5 g).
Proof.
  intros Hp. unfold cell5, print.
  repeat (apply keeps_bind; [apply keeps_modify; intros ?; apply Hp|intros _]).
  apply keeps_modify. intros ?. apply Hp.
Qed.

Lemma keeps_analyse num : keeps R (analyse num).
Proof.
  unfold analyse.
  apply keeps_bind; [apply keeps_cell6|intros g6].
  apply keeps_bind; [apply keeps_cell7|intros g7].
  apply keeps_bind; [apply keeps_cell8|intros _]. apply keeps_ret.
Qed.

Lemma keeps_notebook E num :
  (forall l w, R w (print_line l w)) ->
  (forall q, q ∈ output_paths -> q ∈ outs) ->
  keeps R (notebook E num).
Proof.
  intros Hp Hout.
  assert ("water/npt.log" ∈ outs) as H1 by (apply Hout; set_solver).
  assert ("water/production.dcd" ∈ outs) as H2 by (apply Hout; set_solver).
  assert ("water/production.log" ∈ outs) as H3 by (apply Hout; set_solver).
  unfold notebook, simulate.
  apply keeps_bind.
  - apply keeps_bind; [apply keeps_cell2|intros g2].
    apply keeps_bind; [apply keeps_cell3; exact H1|intros g3].
    apply keeps_bind; [apply keeps_cell4; assumption|intros g4].
    apply keeps_bind; [apply keeps_cell5; exact Hp|intros _]. apply keeps_ret.
  - intros g4. apply keeps_bind; [apply keeps_analyse|intros g7]. apply keeps_ret.
Qed.
End Frame.

Lemma same_outside_trans outs a b c :
  same_outside outs a b -> same_outside outs b c -> same_outside outs a c.
Proof. intros H1 H2 q Hq. rewrite (H2 q Hq). exact (H1 q Hq). Qed.

Lemma same_outside_files outs f w :
  (forall m q, q ∉ outs -> f m !! q = m !! q) -> same_outside outs w (set_fs f w).
Proof. intros H q Hq. cbn. apply H. exact Hq. Qed.

Lemma same_stdout_trans a b c : same_stdout a b -> same_stdout b c -> same_stdout a c.
Proof. unfold same_stdout. congruence. Qed.

(** X8 (files the notebook leaves alone).
    Whether the notebook runs to its end or stops with an exception, and
    whatever the engine computes, the only files it creates or changes are
    its three outputs, the two logs and the trajectory.  Both input files, in
    particular, are left as they were. *)
Theorem only_the_output_files_change (E : Engine) (num : Numerics) w q :
  q ∉ output_paths ->
  fs (world_of (notebook E num w)) !! q = fs w !! q.
Proof.
  intros Hq.
  refine (keeps_notebook (same_outside output_paths) output_paths _ _ _ _ _ _ E num _ _ w q Hq).
  - intros w0 q0 _. reflexivity.
  - apply same_outside_trans.
  - intros e w0 q0 _. reflexivity.
  - intros n w0 q0 _. reflexivity.
  - intros f w0 q0 _. reflexivity.
  - apply same_outside_files.
  - intros l w0 q0 _. reflexivity.
  - auto.
Qed.

Lemma only_the_output_files_change_witness :
  fs (world_of (notebook Example.engine Example.numerics Example.world))
    !! "water/water_box.prmtop"
  = Some (Prmtop Example.atoms (Some Example.box)) /\
  fs (world_of (notebook Example.engine Example.numerics Example.world))
    !! "water/water_box.inpcrd"
  = Some (Inpcrd Example.positions (Some Example.box)).
Proof.
  split.
  - rewrite (only_the_output_files_change Example.engine Example.numerics Example.world
               "water/water_box.prmtop").
    + reflexivity.
    + unfold output_paths. rewrite !not_elem_of_cons. repeat split; try discriminate.
      apply not_elem_of_nil.
  - rewrite (only_the_output_files_change Example.engine Example.numerics Example.world
               "water/water_box.inpcrd").
    + reflexivity.
    + unfold output_paths. rewrite !not_elem_of_cons. repeat split; try discriminate.
      apply not_elem_of_nil.
Defined.

Lemma stdout_cells E w g2 w2 g3 w3 g4 w4 :
  cell2 E w = Ok g2 w2 -> cell3 E g2 w2 = Ok g3 w3 -> cell4 E g3 w3 = Ok g4 w4 ->
  stdout w4 = stdout w.
Proof.
  intros H2 H3 H4.
  apply cell2_world in H2 as (_ & _ & _ & H2).
  apply cell3_simulation in H3 as (b & p & H3).
  repeat match type of H3 with _ /\ _ => destruct H3 as (_ & H3) end.
  apply cell4_simulation in H4.
  repeat match type of H4 with _ /\ _ => destruct H4 as (_ & H4) end.
  congruence.
Qed.

Lemma keeps_stdout_instance {A} (m : M World A) :
  (forall R : World -> World -> Prop,
     (forall w, R w w) -> (forall a b c, R a b -> R b c -> R a c) ->
     (forall e w, R w (record_event e w)) -> (forall n w, R w (set_n_contexts n w)) ->
     (forall f w, R w (set_figure f w)) ->
     (forall f w, (forall (m : gmap string file) q, q ∉ output_paths -> f m !! q = m !! q) ->
                  R w (set_fs f w)) ->
     keeps R m) ->
  keeps same_stdout m.
Proof.
  intros H. apply H; try (intros; reflexivity). apply same_stdout_trans.
Qed.

(** X10 (standard output).
    The notebook prints the four lines of cell 5 and nothing else: they
    appear once the production run has completed, whether or not the analysis
    then gets through; a run that stops before has printed nothing. *)
Theorem the_timings_are_all_that_is_printed (E : Engine) (num : Numerics) w :
  stdout (world_of (notebook E num w))
  = match simulate E w with
    | Ok g4 _ => stdout w ++ timing_lines g4
    | Raise _ _ => stdout w
    end.
Proof.
  assert (forall g w0, same_stdout w0 (world_of (cell3 E g w0))) as K3.
  { intros g. apply keeps_stdout_instance. intros R ? ? ? ? ? ?.
    apply (keeps_cell3 R output_paths); auto. unfold output_paths. set_solver. }
  assert (forall g w0, same_stdout w0 (world_of (cell4 E g w0))) as K4.
  { intros g. apply keeps_stdout_instance. intros R ? ? ? ? ? ?.
    apply (keeps_cell4 R output_paths); auto; unfold output_paths; set_solver. }
  assert (forall w0, same_stdout w0 (world_of (cell2 E w0))) as K2.
  { apply keeps_stdout_instance. intros R ? ? ? ? ? ?. apply (keeps_cell2 R); auto. }
  assert (forall w0, same_stdout w0 (world_of (analyse num w0))) as KA.
  { apply keeps_stdout_instance. intros R ? ? ? ? ? ?. apply (keeps_analyse R); auto. }
  unfold notebook, bind at 1.
  destruct (simulate E w) as [g4 w4|e w'] eqn:Hs.
  - assert (stdout (world_of (bind (analyse num) (fun g7 => ret (g4, g7)) w4)) = stdout w4)
      as ->.
    { unfold bind. specialize (KA w4). destruct (analyse num w4); exact KA. }
    apply simulate_Ok in Hs as (g2 & w2 & g3 & w3 & w5 & H2 & H3 & H4 & H5).
    rewrite cell5_Ok in H5. injection H5 as <-. cbn [stdout print_line].
    rewrite (stdout_cells _ _ _ _ _ _ _ _ H2 H3 H4).
    unfold timing_lines. rewrite <- !app_assoc. reflexivity.
  - cbn [world_of]. apply simulate_Raise in Hs as [H2|(g2 & w2 & H2 & [H3|(g3 & w3 & H3 & H4)])].
    + specialize (K2 w). rewrite H2 in K2. exact K2.
    + specialize (K2 w). rewrite H2 in K2. specialize (K3 g2 w2). rewrite H3 in K3.
      unfold same_stdout in *. cbn in *. congruence.
    + specialize (K2 w). rewrite H2 in K2. specialize (K3 g2 w2). rewrite H3 in K3.
      specialize (K4 g3 w3). rewrite H4 in K4.
      unfold same_stdout in *. cbn in *. congruence.
Qed.


Lemma simulate_topology E w g4 w4 :
  simulate E w = Ok g4 w4 ->
  exists box,
    fs w4 !! prmtop_path
    = Some (Prmtop (top_atoms (prmtop_topology (prmtop (names2 (names3 g4))))) box).
Proof.
  intros H. destruct (simulate_files E _ _ _ H) as (Hother & _).
  apply simulate_Ok in H as (g2 & w2 & g3 & w3 & w5 & H2 & H3 & H4 & _).
  destruct (cell3_simulation E _ _ _ _ H3) as (_ & _ & _ & _ & Hn2 & _).
  destruct (cell4_simulation E _ _ _ _ H4) as (Hn3 & _).
  apply cell2_Ok in H2 as (atoms & box & pos & bv & Hprm & _ & Hg2 & _).
  exists box. rewrite Hother by discriminate. rewrite Hn3, Hn2, Hg2. exact Hprm.
Qed.

Lemma simulate_trajectory E w g4 w4 :
  simulate E w = Ok g4 w4 ->
  exists frames, fs w4 !! dcd_path = Some (Dcd frames) /\ length frames = 500%nat.
Proof.
  intros H. apply simulate_Ok in H as (g2 & w2 & g3 & w3 & w5 & _ & _ & H4 & H5).
  rewrite cell5_Ok in H5. injection H5 as <-. cbn [print_line fs].
  destruct (cell4_files E _ _ _ _ H4) as ((frames & Hf & Hlen) & _).
  exists frames. split; [exact Hf|].
  rewrite Hlen, due_steps_length by lia. apply steps_500.
Qed.

(** X11 (from the production run to the universe).
    What the production run wrote is what the analysis reads: after a
    completed simulation, cell 6 gets through, and its universe has the atoms
    of the topology the simulation was made from and, as its trajectory, the
    500 frames of [water/production.dcd], each with one position for each
    atom.  The widget shows these 500 frames as ball+stick only, the default
    representations being cleared, through an orthographic camera. *)
Theorem the_trajectory_is_read_back (E : Engine) w g4 w4 :
  shape_preserving E ->
  simulate E w = Ok g4 w4 ->
  exists frames g6 w6,
    fs w4 !! "water/production.dcd" = Some (Dcd frames) /\
    length frames = 500%nat /\
    cell6 w4 = Ok g6 w6 /\
    u_atoms (u g6) = top_atoms (prmtop_topology (prmtop (names2 (names3 g4)))) /\
    u_trajectory (u g6) = frames /\
    Forall (fun fr => length (frame_positions fr) = length (u_atoms (u g6))) frames /\
    NGLView.wd_frames (view g6) = 500%nat /\
    NGLView.wd_representations (view g6) = ["ball+stick"] /\
    NGLView.wd_camera (view g6) = "orthographic".
Proof.
  intros shapes H.
  destruct (simulate_topology E _ _ _ H) as (box & Hprm).
  destruct (simulate_trajectory E _ _ _ H) as (frames & Hdcd & Hlen).
  destruct (simulate_files E _ _ _ H) as (_ & Hshape). specialize (Hshape shapes).
  destruct Hshape as (frames' & Hdcd' & Hall).
  rewrite Hdcd in Hdcd'. injection Hdcd' as <-.
  set (atoms := top_atoms (prmtop_topology (prmtop (names2 (names3 g4))))) in *.
  exists frames,
    {| u := {| u_atoms := atoms; u_trajectory := frames |};
       view := the_view {| u_atoms := atoms; u_trajectory := frames |} |},
    (record_event (EvTrajectory dcd_path) (record_event (EvTrajectory prmtop_path) w4)).
  split; [exact Hdcd|]. split; [exact Hlen|]. split.
  { apply cell6_Ok. exists atoms, box, frames.
    split; [exact Hprm|]. split; [exact Hdcd|]. split; [now apply Forall_frames_fit|].
    auto. }
  split; [reflexivity|]. split; [reflexivity|]. split; [exact Hall|].
  split; [exact Hlen|]. split; reflexivity.
Qed.

Lemma the_trajectory_is_read_back_witness :
  exists g4 w4 g6 w6,
    simulate Example.engine Example.world = Ok g4 w4 /\
    cell6 w4 = Ok g6 w6 /\
    length (u_trajectory (u g6)) = 500%nat /\
    NGLView.wd_representations (view g6) = ["ball+stick"].
Proof.
  destruct example_simulate as (g4 & w4 & H).
  destruct (the_trajectory_is_read_back Example.engine _ _ _ example_shape_preserving H)
    as (frames & g6 & w6 & _ & Hlen & H6 & _ & Hu & _ & _ & Hrep & _).
  exists g4, w4, g6, w6. rewrite Hu. auto.
Defined.






Lemma indices_where_spec {A} (p : A -> bool) l : forall start i,
  i ∈ indices_where p start l <->
  (start <= i)%nat /\ exists a, l !! (i - start)%nat = Some a /\ p a = true.
Proof.
  induction l as [|a l IH]; intros start i; cbn [indices_where].
  - split; [intros H; inversion H|intros (_ & a & H & _); discriminate].
  - assert (i ∈ indices_where p (S start) l <->
            (start < i)%nat /\ exists b, (a :: l) !! (i - start)%nat = Some b /\ p b = true)
      as Htail.
    { rewrite IH. split.
      - intros (Hle & b & Hb & Hp). split; [lia|]. exists b. split; [|exact Hp].
        replace (i - start)%nat with (S (i - S start)) by lia. exact Hb.
      - intros (Hlt & b & Hb & Hp). split; [lia|]. exists b. split; [|exact Hp].
        replace (i - start)%nat with (S (i - S start)) in Hb by lia. exact Hb. }
    destruct (p a) eqn:Hpa.
    + rewrite elem_of_cons, Htail. split.
      * intros [->|(Hlt & b & Hb & Hp)].
        -- split; [lia|]. exists a. rewrite Nat.sub_diag. auto.
        -- split; [lia|]. eauto.
      * intros (Hle & b & Hb & Hp).
        destruct (decide (i = start)) as [->|Hne]; [left; reflexivity|].
        right. split; [lia|]. eauto.
    + rewrite Htail. split.
      * intros (Hlt & b & Hb & Hp). split; [lia|]. eauto.
      * intros (Hle & b & Hb & Hp).
        destruct (decide (i = start)) as [->|Hne].
        -- rewrite Nat.sub_diag in Hb. cbn in Hb. injection Hb as <-. congruence.
        -- split; [lia|]. eauto.
Qed.

Lemma indices_where_increasing {A} (p : A -> bool) l : forall start,
  increasing (indices_where p start l).
Proof.
  induction l as [|a l IH]; intros start; cbn [indices_where].
  - intros i j x y _ H. discriminate.
  - assert (forall k y, indices_where p (S start) l !! k = Some y -> (start < y)%nat) as Hlow.
    { intros k y Hk. apply list_elem_of_lookup_2 in Hk.
      apply indices_where_spec in Hk as (Hle & _). lia. }
    destruct (p a); [|apply IH].
    intros i j x y Hij Hi Hj. destruct j as [|j]; [lia|]. cbn in Hj.
    destruct i as [|i]; cbn in Hi.
    + injection Hi as <-. exact (Hlow _ _ Hj).
    + apply (IH (S start) i j); [lia|exact Hi|exact Hj].
Qed.

Section Analysis.
Variable num : Numerics.

(** What [run] leaves in the analysis object, for the settings of the
    notebook's two calls. *)
Lemma InterRDF_run_the_rdf g1 g2 w r' w' :
  InterRDF_run num (the_rdf g1 g2) w = Ok r' w' ->
  exists res,
    r' = with_results res (the_rdf g1 g2) /\
    res_edges res = edges_of 75 0 10 /\
    res_bins res = zip_with (fun a b => ((1 # 2) * (a + b))%Q)
                     (edges_of 75 0 10) (tail (edges_of 75 0 10)) /\
    length (res_bins res) = 75%nat /\ length (res_rdf res) = 75%nat.
Proof.
  intros H.
  pose proof (InterRDF_run_Ok num _ _ _ _ H) as (n & res0 & Hn & _ & Hr & _ & _ & Hb & Hrdf & _).
  cbn [the_rdf rdf_nbins] in Hn. injection Hn as <-.
  unfold InterRDF_run in H. cbn [the_rdf rdf_nbins rdf_range] in H.
  rewrite histogram_the in H. unfold lift at 1, bind at 1, ret at 1 in H.
  cbn [snd fst] in H.
  apply bind_Ok in H as (acc & w1 & _ & H). unfold ret in H.
  match type of H with Ok (with_results ?res _) _ = _ => set (res1 := res) in H end.
  assert (r' = with_results res1 (the_rdf g1 g2)) as Hr' by congruence.
  assert (res0 = res1) as -> by (rewrite Hr in Hr'; unfold with_results in Hr'; congruence).
  exists res1. split; [exact Hr'|]. split; [reflexivity|]. split; [reflexivity|].
  split; [exact Hb|exact Hrdf].
Qed.

Lemma cell7_results g w g7 w' :
  cell7 num g w = Ok g7 w' ->
  forall r, r ∈ [rdf_OO g7; rdf_OH g7] ->
  exists g2 res,
    r = with_results res (the_rdf (atoms_of_element (u g) "O") g2) /\
    res_edges res = edges_of 75 0 10 /\
    res_bins res = zip_with (fun a b => ((1 # 2) * (a + b))%Q)
                     (edges_of 75 0 10) (tail (edges_of 75 0 10)) /\
    length (res_bins res) = 75%nat /\ length (res_rdf res) = 75%nat.
Proof.
  intros H r Hr. apply cell7_Ok in H as (rOO & w1 & H0 & rOH & H1 & ->). cbn zeta in H0, H1.
  cbn [rdf_OO rdf_OH] in Hr.
  apply InterRDF_run_the_rdf in H0 as (res0 & -> & Hres0).
  apply InterRDF_run_the_rdf in H1 as (res1 & -> & Hres1).
  apply elem_of_cons in Hr as [->|Hr]; [eauto|].
  apply list_elem_of_singleton in Hr as ->. eauto.
Qed.


End Analysis.

(** X13 (the two atom groups).
    The two selections of cell 7 are what their names say: the oxygen group
    holds exactly the atoms of the universe whose element is O, the hydrogen
    group exactly those whose element is H, each atom once and in the order of
    the topology; no atom is in both groups. *)
Theorem selections_by_element (num : Numerics) g w g7 w' :
  cell7 num g w = Ok g7 w' ->
  ag_universe (oxygen_atoms g7) = u g /\ ag_universe (hydrogen_atoms g7) = u g /\
  (forall i, i ∈ ag_ix (oxygen_atoms g7) <->
             exists a, u_atoms (u g) !! i = Some a /\ atom_element a = "O") /\
  (forall i, i ∈ ag_ix (hydrogen_atoms g7) <->
             exists a, u_atoms (u g) !! i = Some a /\ atom_element a = "H") /\
  increasing (ag_ix (oxygen_atoms g7)) /\ increasing (ag_ix (hydrogen_atoms g7)) /\
  (forall i, i ∈ ag_ix (oxygen_atoms g7) -> i ∉ ag_ix (hydrogen_atoms g7)).
Proof.
  intros H. apply cell7_Ok in H as (rOO & w1 & _ & rOH & _ & ->).
  cbn [oxygen_atoms hydrogen_atoms atoms_of_element ag_universe ag_ix].
  assert (forall el i,
            i ∈ indices_where (fun a => String.eqb (atom_element a) el) 0 (u_atoms (u g)) <->
            exists a, u_atoms (u g) !! i = Some a /\ atom_element a = el) as Hspec.
  { intros el i. rewrite indices_where_spec, Nat.sub_0_r. split.
    - intros (_ & a & Ha & Hel). apply String.eqb_eq in Hel. eauto.
    - intros (a & Ha & Hel). split; [lia|]. exists a. split; [exact Ha|].
      now apply String.eqb_eq. }
  split; [reflexivity|]. split; [reflexivity|].
  split; [apply Hspec|]. split; [apply Hspec|].
  split; [apply indices_where_increasing|]. split; [apply indices_where_increasing|].
  intros i HO HH. apply Hspec in HO as (a & Ha & HelO). apply Hspec in HH as (b & Hb & HelH).
  rewrite Ha in Hb. injection Hb as <-. rewrite HelO in HelH. discriminate.
Qed.

Lemma selections_by_element_witness :
  exists g7 w',
    cell7 Example.numerics Example.names6 Example.world = Ok g7 w' /\
    (0%nat ∈ ag_ix (oxygen_atoms g7)) /\ (0%nat ∉ ag_ix (hydrogen_atoms g7)).
Proof.
  destruct example_cell7 as (g7 & w' & H). exists g7, w'. split; [exact H|].
  destruct (selections_by_element Example.numerics _ _ _ _ H)
    as (_ & _ & HO & _ & _ & _ & Hdis).
  assert (0%nat ∈ ag_ix (oxygen_atoms g7)) as H0.
  { apply HO. eexists. split; reflexivity. }
  split; [exact H0|exact (Hdis _ H0)].
Defined.





(** X16 (the figure).
    After a completed analysis the plotting cell cannot fail: both result
    sets exist, and in each the x and the y array have the same length (75).
    It leaves a figure of exactly two subplots, the O-O curve under the title
    O-O RDF and the O-H curve under O-H RDF, each one line of g(r) against the
    bin centres with the same axis labels and a grid; whatever figure was
    current before is gone.  The files are not touched. *)
Theorem the_plots_follow_the_analysis (num : Numerics) g w g7 w7 :
  cell7 num g w = Ok g7 w7 ->
  exists r0 r1 w8,
    rdf_results (rdf_OO g7) = Some r0 /\ rdf_results (rdf_OH g7) = Some r1 /\
    cell8 g7 w7 = Ok tt w8 /\
    figure w8 =
      [ {| ax_lines := [(res_bins r0, res_rdf r0)]; ax_title := "O-O RDF";
           ax_xlabel := "Distance (Å)"; ax_ylabel := "g(r)"; ax_grid := true |};
        {| ax_lines := [(res_bins r1, res_rdf r1)]; ax_title := "O-H RDF";
           ax_xlabel := "Distance (Å)"; ax_ylabel := "g(r)"; ax_grid := true |} ] /\
    length (res_bins r0) = 75%nat /\ length (res_rdf r0) = 75%nat /\
    length (res_bins r1) = 75%nat /\ length (res_rdf r1) = 75%nat /\
    fs w8 = fs w7 /\ stdout w8 = stdout w7.
Proof.
  intros H.
  destruct (cell7_results num _ _ _ _ H (rdf_OO g7)) as (g2 & r0 & Hr0 & _ & _ & Hb0 & Hy0).
  { apply elem_of_cons. left. reflexivity. }
  destruct (cell7_results num _ _ _ _ H (rdf_OH g7)) as (g2' & r1 & Hr1 & _ & _ & Hb1 & Hy1).
  { apply elem_of_cons. right. apply elem_of_cons. left. reflexivity. }
  exists r0, r1, (plotted r0 r1 w7).
  assert (rdf_results (rdf_OO g7) = Some r0) as H0 by (rewrite Hr0; reflexivity).
  assert (rdf_results (rdf_OH g7) = Some r1) as H1 by (rewrite Hr1; reflexivity).
  split; [exact H0|]. split; [exact H1|]. split.
  { apply cell8_Ok. exists r0, r1. split; [exact H0|]. split; [exact H1|].
    split; [congruence|]. split; [congruence|]. reflexivity. }
  split; [reflexivity|]. auto 10.
Qed.

Lemma the_plots_follow_the_analysis_witness :
  exists g7 w7 w8,
    cell7 Example.numerics Example.names6 Example.world = Ok g7 w7 /\
    cell8 g7 w7 = Ok tt w8 /\ length (figure w8) = 2%nat.
Proof.
  destruct example_cell7 as (g7 & w7 & H).
  destruct (the_plots_follow_the_analysis Example.numerics _ _ _ _ H)
    as (r0 & r1 & w8 & _ & _ & H8 & Hfig & _).
  exists g7, w7, w8. split; [exact H|]. split; [exact H8|]. rewrite Hfig. reflexivity.
Defined.


(** X4 (the state the equilibration starts from).
    The state the equilibration run starts from, once the set-up of cell 3
    got through: step 0; the positions that the minimiser returns for the
    positions of the coordinate file; all velocities zero, no call setting
    them to the temperature being made; the box of the coordinate file when
    it has one and that of the topology otherwise.  One context was created
    and [water/npt.log] is empty. *)
Theorem equilibration_starts_at_rest (E : Engine) g w r w' :
  equilibration_setup E g w = Ok r w' ->
  let sim := r.2 in
  let c := sim_context sim in
  sim_currentStep sim = 0 /\ ctx_steps c = 0 /\
  ctx_velocities c = replicate (length (top_atoms (prmtop_topology (prmtop g)))) zero3 /\
  (exists c0,
     ctx_positions c0 = inpcrd_positions (inpcrd g) /\
     ctx_velocities c0 = ctx_velocities c /\ ctx_box c0 = ctx_box c /\
     minimizer E c0 = inr (ctx_positions c)) /\
  Some (ctx_box c) = match inpcrd_boxVectors (inpcrd g) with
                     | Some b => Some b
                     | None => prmtop_box (prmtop g)
                     end /\
  n_contexts w' = S (n_contexts w) /\
  fs w' = <[ "water/npt.log" := Log [] ]> (fs w).
Proof.
  intros H. apply equilibration_setup_Ok in H as (b & p & pmin & Hb & _ & _ & Hmin & -> & ->).
  cbn zeta in Hmin. cbn [snd sim_currentStep sim_context].
  set (c0 := loaded_context g (the_system (prmtop g) b) p (n_contexts w)) in *.
  destruct (loaded_context_fields g (the_system (prmtop g) b) p (n_contexts w))
    as (_ & _ & _ & _ & _ & Hpos & Hvel & Hsteps).
  fold c0 in Hpos, Hvel, Hsteps.
  split; [reflexivity|]. split; [exact Hsteps|]. split; [exact Hvel|]. split.
  { exists c0. split; [exact Hpos|]. split; [reflexivity|]. split; [reflexivity|]. exact Hmin. }
  split; [|split; reflexivity].
  cbn [evolve ctx_box]. unfold c0, loaded_context.
  destruct (inpcrd_boxVectors (inpcrd g)); [reflexivity|]. rewrite Hb. reflexivity.
Qed.

Lemma equilibration_starts_at_rest_witness :
  exists r w',
    equilibration_setup Example.engine Example.names2 Example.world = Ok r w' /\
    ctx_velocities (sim_context r.2) = replicate 6 zero3 /\
    ctx_box (sim_context r.2) = Example.box.
Proof.
  assert (exists r w',
            equilibration_setup Example.engine Example.names2 Example.world = Ok r w')
    as (r & w' & H) by (eexists _, _; vm_compute; reflexivity).
  exists r, w'. split; [exact H|].
  destruct (equilibration_starts_at_rest Example.engine _ _ _ _ H)
    as (_ & _ & Hv & _ & Hb & _).
  split; [exact Hv|]. cbn in Hb. congruence.
Defined.

Lemma npt_start_clock g b p pmin id :
  ctx_steps (sim_context (npt_start g b p pmin id)) = 0 /\
  lg_stepSize (ctx_integrator (sim_context (npt_start g b p pmin id))) = 2%Q.
Proof.
  unfold npt_start, loaded_context. destruct (inpcrd_boxVectors (inpcrd g)); split; reflexivity.
Qed.

Lemma prod_start_clock g p id :
  ctx_steps (sim_context (prod_start g p id)) = 0 /\
  lg_stepSize (ctx_integrator (sim_context (prod_start g p id))) = 2%Q.
Proof. split; reflexivity. Qed.

(** X7 (length of the two runs).
    The length of the two runs is what the comments of the notebook say:
    the equilibration context has taken 50000 steps of 2 fs, 100 ps, and the
    production context, which counts from zero and not on from the
    equilibration, 500000 steps of 2 fs, 1 ns. *)
Theorem simulated_times (E : Engine) w g4 w' :
  simulate E w = Ok g4 w' ->
  let npt := sim_context (simulationNPT (names3 g4)) in
  let prod := sim_context (simulationProd g4) in
  ctx_steps npt = 50000 /\ ctx_steps prod = 500000 /\
  (inject_Z (ctx_steps npt) * lg_stepSize (ctx_integrator npt) == 100 * 1000)%Q /\
  (inject_Z (ctx_steps prod) * lg_stepSize (ctx_integrator prod) == 1000 * 1000)%Q.
Proof.
  intros H. apply simulate_Ok in H as (g2 & w2 & g3 & w3 & w4 & _ & H3 & H4 & _).
  destruct (cell4_simulation E _ _ _ _ H4) as (Hn3 & _).
  destruct (cell3_simulation E _ _ _ _ H3) as (b0 & p0 & _ & _ & _ & _ & Htemp & _).
  apply cell3_Ok in H3 as (b & p & pmin & sim & _ & _ & _ & _ & Hrun & ->).
  apply cell4_Ok in H4 as (p' & sim' & _ & _ & _ & Hrun' & ->).
  cbn [names3 simulationProd simulationNPT equilibrated].
  apply steps_frame in Hrun as (_ & _ & _ & _ & _ & (_ & _ & Hi & _) & Hsteps & _).
  apply steps_frame in Hrun' as (_ & _ & _ & _ & _ & (_ & _ & Hi' & _) & Hsteps' & _).
  rewrite Z2Nat.id in Hsteps, Hsteps' by lia.
  destruct (npt_start_clock g2 b p pmin (n_contexts w2)) as (H0 & Hdt).
  destruct (prod_start_clock
              (equilibrated E g2 b (wall_clock E (length (trace w2)))
                 (wall_clock E (length (trace w3))) sim) p' (n_contexts w3)) as (H0' & Hdt').
  rewrite H0 in Hsteps. rewrite H0' in Hsteps'. rewrite <- Hi in Hdt. rewrite <- Hi' in Hdt'.
  cbn zeta. rewrite Hsteps, Hsteps', Hdt, Hdt'.
  split; [reflexivity|]. split; [reflexivity|]. split; reflexivity.
Qed.

Lemma simulated_times_witness :
  exists g4 w',
    simulate Example.engine Example.world = Ok g4 w' /\
    ctx_steps (sim_context (simulationNPT (names3 g4))) = 50000 /\
    ctx_steps (sim_context (simulationProd g4)) = 500000.
Proof.
  destruct example_simulate as (g4 & w' & H). exists g4, w'. split; [exact H|].
  destruct (simulated_times Example.engine _ _ _ H) as (H1 & H2 & _). auto.
Defined.


Section Stamp.
Variable E : Engine.
Variable q : string.
Variable x : file.

Lemma report_world_stamp s r w :
  q <> file_of r ->
  report_world E s r (set_fs (insert q x) w) = set_fs (insert q x) (report_world E s r w).
Proof.
  intros Hq. unfold report_world, record_event, set_fs. cbn. f_equal.
  apply partial_alter_insert_ne. congruence.
Qed.

Lemma reports_world_stamp s rs : forall w,
  q ∉ file_of <$> rs ->
  reports_world E s rs (set_fs (insert q x) w) = set_fs (insert q x) (reports_world E s rs w).
Proof.
  unfold reports_world. induction rs as [|r rs IH]; intros w Hq; [reflexivity|].
  rewrite fmap_cons, not_elem_of_cons in Hq. destruct Hq as (Hr & Hrs).
  cbn [fold_left]. destruct (due r (sim_currentStep s)).
  - rewrite report_world_stamp by exact Hr. apply IH. exact Hrs.
  - apply IH. exact Hrs.
Qed.

Lemma steps_stamp n : forall s w s' w',
  q ∉ file_of <$> sim_reporters s ->
  iterate n (step1 E) s w = Ok s' w' ->
  iterate n (step1 E) s (set_fs (insert q x) w) = Ok s' (set_fs (insert q x) w').
Proof.
  induction n as [|n IH]; intros s w s' w' Hq H; cbn [iterate] in *.
  - unfold ret in *. injection H as <- <-. reflexivity.
  - apply bind_Ok in H as (s1 & w1 & H1 & H). apply bind_Ok. 
    exists s1, (set_fs (insert q x) w1). split.
    + apply step1_Ok in H1 as (Hset & pv & Hpv & -> & ->). apply step1_Ok.
      split; [exact Hset|]. exists pv. split; [exact Hpv|]. split; [reflexivity|].
      symmetry. apply (reports_world_stamp _ _ (record_event _ w)). exact Hq.
    + apply IH; [|exact H].
      apply step1_Ok in H1 as (_ & pv & _ & -> & _). exact Hq.
Qed.

Lemma cell2_stamp w g w' :
  q ∈ output_paths ->
  cell2 E w = Ok g w' -> cell2 E (set_fs (insert q x) w) = Ok g (set_fs (insert q x) w').
Proof.
  intros Hq H. apply cell2_Ok in H as (atoms & box & pos & bv & H1 & H2 & Hp & Hi & Hsel).
  apply cell2_Ok. exists atoms, box, pos, bv.
  assert (q <> prmtop_path /\ q <> inpcrd_path) as (Hn1 & Hn2).
  { unfold output_paths in Hq. rewrite !elem_of_cons in Hq.
    destruct Hq as [->|[->|[->|Hq]]]; [split; discriminate..|inversion Hq]. }
  split; [cbn; rewrite lookup_insert_ne by exact Hn1; exact H1|].
  split; [cbn; rewrite lookup_insert_ne by exact Hn2; exact H2|].
  split; [exact Hp|]. split; [exact Hi|].
  destruct Hsel as [(Hc & Hpl & Hpr & ->)|(Hc & Hr & Hpl & Hpr & ->)]; [left|right]; auto.
Qed.

Lemma npt_world_stamp w :
  npt_world (set_fs (insert q x) w)
  = if decide (q = "water/npt.log") then npt_world w
    else set_fs (insert q x) (npt_world w).
Proof.
  unfold npt_world, set_fs, record_event, set_n_contexts. cbn.
  destruct (decide (q = "water/npt.log")) as [->|Hne]; cbn; f_equal.
  - apply insert_insert_eq.
  - apply insert_insert_ne. congruence.
Qed.

Lemma prod_world_stamp w :
  q = "water/production.dcd" \/ q = "water/production.log" ->
  prod_world (set_fs (insert q x) w) = prod_world w.
Proof.
  intros Hq. unfold prod_world, set_fs, record_event, set_n_contexts. cbn. f_equal.
  destruct Hq as [->| ->].
  - rewrite insert_insert_eq. reflexivity.
  - rewrite (insert_insert_ne _ "water/production.dcd" "water/production.log") by discriminate.
    rewrite insert_insert_eq. reflexivity.
Qed.

Lemma cell3_stamp g w g3 w3 :
  q ∈ output_paths ->
  cell3 E g w = Ok g3 w3 ->
  cell3 E g (set_fs (insert q x) w)
  = Ok g3 (if decide (q = "water/npt.log") then w3 else set_fs (insert q x) w3).
Proof.
  intros Hq H. apply cell3_Ok in H as (b & p & pmin & sim & Hb & Hp & Hlen & Hmin & Hrun & ->).
  apply cell3_Ok. exists b, p, pmin, sim.
  split; [exact Hb|]. split; [exact Hp|]. split; [exact Hlen|]. split; [exact Hmin|].
  change (n_contexts (set_fs (insert q x) w)) with (n_contexts w).
  rewrite npt_world_stamp.
  destruct (decide (q = "water/npt.log")) as [Heq|Hne].
  - split; [exact Hrun|reflexivity].
  - split; [|reflexivity]. apply steps_stamp; [|exact Hrun].
    cbn. rewrite list_elem_of_singleton. exact Hne.
Qed.

Lemma cell4_stamp g w g4 w4 :
  q = "water/production.dcd" \/ q = "water/production.log" ->
  cell4 E g w = Ok g4 w4 -> cell4 E g (set_fs (insert q x) w) = Ok g4 w4.
Proof.
  intros Hq H. apply cell4_Ok in H as (p & sim & Hp & Hl1 & Hl2 & Hrun & ->).
  apply cell4_Ok. exists p, sim.
  split; [exact Hp|]. split; [exact Hl1|]. split; [exact Hl2|].
  change (n_contexts (set_fs (insert q x) w)) with (n_contexts w).
  rewrite prod_world_stamp by exact Hq. split; [exact Hrun|reflexivity].
Qed.
End Stamp.

(** X9 (outputs of an earlier run).
    What the three output paths held before has no influence: the logs and
    the trajectory are opened for writing, not appended to.  Whatever is put
    under one of the three paths before a run, a completed simulation binds
    the same names and leaves the same files, the same output and the same
    history as without it. *)
Theorem earlier_outputs_have_no_influence (E : Engine) w q x g4 w' :
  q ∈ output_paths ->
  simulate E w = Ok g4 w' ->
  simulate E (set_fs (insert q x) w) = Ok g4 w'.
Proof.
  intros Hq H. apply simulate_Ok in H as (g2 & w2 & g3 & w3 & w4 & H2 & H3 & H4 & H5).
  apply simulate_Ok.
  exists g2, (set_fs (insert q x) w2), g3,
    (if decide (q = "water/npt.log") then w3 else set_fs (insert q x) w3), w4.
  split; [apply cell2_stamp; assumption|].
  split; [apply cell3_stamp; assumption|].
  split; [|exact H5].
  destruct (decide (q = "water/npt.log")) as [Heq|Hne]; [exact H4|].
  apply cell4_stamp; [|exact H4].
  unfold output_paths in Hq. rewrite !elem_of_cons in Hq.
  destruct Hq as [->|[->|[->|Hq]]]; [contradiction|auto|auto|inversion Hq].
Qed.

Lemma earlier_outputs_have_no_influence_witness :
  exists g4 w',
    simulate Example.engine Example.world = Ok g4 w' /\
    simulate Example.engine
      (set_fs (insert "water/production.dcd" Unreadable) Example.world) = Ok g4 w'.
Proof.
  destruct example_simulate as (g4 & w' & H). exists g4, w'. split; [exact H|].
  apply (earlier_outputs_have_no_influence Example.engine Example.world
           "water/production.dcd" Unreadable g4 w'); [|exact H].
  unfold output_paths. rewrite !elem_of_cons. auto.
Defined.




Lemma missing_input_file_is_fatal_witness :
  notebook Example.engine Example.numerics (set_fs (delete prmtop_path) Example.world)
  = Raise (FileNotFoundError "water/water_box.prmtop")
      (record_event (EvLoad prmtop_path) (set_fs (delete prmtop_path) Example.world)) /\
  notebook Example.engine Example.numerics (set_fs (delete inpcrd_path) Example.world)
  = Raise (FileNotFoundError "water/water_box.inpcrd")
      (loaded_world (set_fs (delete inpcrd_path) Example.world)).
Proof.
  split.
  - apply (missing_input_file_is_fatal Example.engine Example.numerics). reflexivity.
  - apply (proj2 (missing_input_file_is_fatal Example.engine Example.numerics
                    (set_fs (delete inpcrd_path) Example.world))
             Example.atoms (Some Example.box)); reflexivity.
Defined.

Lemma platform_selection_outcome_witness :
  exists g w',
    cell2 Example.engine Example.world = Ok g w' /\
    platform g = "Reference" /\ properties g = None.
Proof.
  destruct (proj2 (proj1 (platform_selection_outcome Example.engine Example.world)))
    as (g & w' & H).
  { split; [eexists _, _; reflexivity|]. split; [eexists _, _; reflexivity|].
    right. cbn. set_solver. }
  exists g, w'. split; [exact H|].
  destruct (proj2 (platform_selection_outcome Example.engine Example.world) g w' H)
    as (_ & _ & Hr & _ & Hp).
  assert ("CUDA" ∉ registered Example.engine) as Hn.
  { cbn. rewrite !not_elem_of_cons. split; [discriminate|]. split; [discriminate|].
    apply not_elem_of_nil. }
  split; [apply Hr; exact Hn|apply Hp; exact Hn].
Defined.

Lemma equilibration_setup_failures_witness :
  equilibration_setup Example.engine names2_without_box Example.world
  = Raise (ValueError "Illegal nonbonded method for a non-periodic system") Example.world /\
  equilibration_setup Example.engine names2_short Example.world
  = Raise (OpenMMException
             "Called setPositions() on a Context with the wrong number of positions")
      (context_made Example.world).
Proof.
  split.
  - apply (proj1 (equilibration_setup_failures Example.engine names2_without_box
                    Example.world _ _)).
    left. split; [reflexivity|]. split; reflexivity.
  - apply (proj1 (equilibration_setup_failures Example.engine names2_short
                    Example.world _ _)).
    right. exists Example.box. split; [reflexivity|]. right. exists "CPU".
    split; [reflexivity|]. split; [reflexivity|]. left. split; [|reflexivity].
    cbn. lia.
Defined.

Lemma production_setup_failures_witness :
  production_setup Example.engine names3_short Example.world
  = Raise (OpenMMException
             "Called setVelocities() on a Context with the wrong number of velocities")
      (context_made Example.world).
Proof.
  apply (proj1 (production_setup_failures Example.engine names3_short Example.world _ _)).
  right. exists "CPU". split; [reflexivity|]. split; [reflexivity|]. right.
  split; [reflexivity|]. split; [|reflexivity]. cbn. lia.
Defined.


Section Blind.

Lemma blind_ret {A} (a : A) : blind (ret a).
Proof. intros w1 w2. reflexivity. Qed.

Lemma blind_raise {A} e : blind (raise e : M World A).
Proof. intros w1 w2. reflexivity. Qed.

Lemma blind_lift {A} (r : exn + A) : blind (lift r).
Proof. destruct r; intros w1 w2; reflexivity. Qed.

Lemma blind_modify f : blind (modify f).
Proof. intros w1 w2. reflexivity. Qed.

Lemma blind_bind {A B} (m : M World A) (k : A -> M World B) :
  blind m -> (forall a, blind (k a)) -> blind (bind m k).
Proof.
  intros Hm Hk w1 w2. unfold bind. specialize (Hm w1 w2).
  destruct (m w1) as [a1 s1|e1 s1], (m w2) as [a2 s2|e2 s2]; cbn in Hm; try discriminate.
  - injection Hm as <-. apply Hk.
  - injection Hm as <-. reflexivity.
Qed.

Lemma bind_values {A B} (m : M World A) (k : A -> M World B) w1 w2 :
  value_of (m w1) = value_of (m w2) -> (forall a, blind (k a)) ->
  value_of (bind m k w1) = value_of (bind m k w2).
Proof.
  intros Hm Hk. unfold bind.
  destruct (m w1) as [a1 s1|e1 s1], (m w2) as [a2 s2|e2 s2]; cbn in Hm; try discriminate.
  - injection Hm as <-. apply Hk.
  - injection Hm as <-. reflexivity.
Qed.

Ltac blind_step :=
  first
    [ apply blind_ret | apply blind_raise | apply blind_lift | apply blind_modify
    | apply blind_bind; [|intros ?]
    | match goal with
      | |- blind (if ?b then _ else _) => destruct b
      | |- blind (match ?x with _ => _ end) => destruct x
      end ].

Ltac blind_tac := repeat blind_step.

Lemma blind_select_atoms u sel : blind (select_atoms u sel).
Proof. unfold select_atoms. blind_tac. Qed.

Lemma blind_InterRDF_new g1 g2 kw : blind (InterRDF_new g1 g2 kw).
Proof.
  unfold InterRDF_new.
  apply blind_bind.
  { destruct (default kw "norm" (PStr "rdf")); try apply blind_raise. blind_tac. }
  intros norm.
  apply blind_bind.
  { intros w1 w2. destruct (default kw "exclude_same" PNone) as [| | | |s|]; try reflexivity.
    repeat match goal with
           | |- context [match ?x with _ => _ end] => destruct x
           end; reflexivity. }
  intros same.
  destruct same, (default kw "exclude_block" PNone); blind_tac.
Qed.

Lemma blind_frames_loop num r frames : forall acc, blind (frames_loop num r acc frames).
Proof.
  induction frames as [|fr frames IH]; intros acc; cbn [frames_loop].
  - apply blind_ret.
  - apply blind_bind; [|intros acc'; apply IH].
    unfold single_frame, emit. blind_tac.
Qed.

Lemma blind_InterRDF_run num r : blind (InterRDF_run num r).
Proof.
  unfold InterRDF_run. apply blind_bind; [apply blind_lift|intros h0]. cbn zeta.
  apply blind_bind; [apply blind_frames_loop|intros acc]. apply blind_ret.
Qed.

Lemma blind_cell7 num g : blind (cell7 num g).
Proof.
  unfold cell7.
  apply blind_bind; [apply blind_select_atoms|intros O].
  apply blind_bind; [apply blind_select_atoms|intros H].
  apply blind_bind; [apply blind_InterRDF_new|intros r0].
  apply blind_bind; [apply blind_InterRDF_run|intros r1].
  apply blind_bind; [apply blind_InterRDF_new|intros r2].
  apply blind_bind; [apply blind_InterRDF_run|intros r3].
  apply blind_ret.
Qed.

Lemma blind_cell8 g : blind (cell8 g).
Proof.
  unfold cell8, Pyplot.figure_new, Pyplot.title, Pyplot.xlabel, Pyplot.ylabel, Pyplot.grid,
    Pyplot.tight_layout, Pyplot.subplot, Pyplot.plot, results_bins, results_rdf, emit.
  repeat first
    [ apply blind_ret | apply blind_raise | apply blind_modify
    | apply blind_bind; [|intros ?]
    | match goal with
      | |- blind (match ?x with _ => _ end) => destruct x
      | |- blind (if ?b then _ else _) => destruct b
      end ].
Qed.

Lemma cell6_files w1 w2 :
  fs w1 !! prmtop_path = fs w2 !! prmtop_path ->
  fs w1 !! dcd_path = fs w2 !! dcd_path ->
  value_of (cell6 w1) = value_of (cell6 w2).
Proof.
  intros H1 H2. unfold cell6, Universe_new, bind, emit, modify, get, ret.
  cbn [fs record_event]. fold prmtop_path dcd_path. rewrite H1, H2.
  destruct (fs w2 !! prmtop_path) as [[]|]; try reflexivity.
  destruct (fs w2 !! dcd_path) as [[]|]; try reflexivity.
  destruct (forallb _ _); reflexivity.
Qed.
End Blind.

(** X12 (what the analysis depends on).
    The analysis is a function of the two files it reads: in any two
    surroundings that agree on the topology file and on the trajectory file,
    cells 6 to 8 bind the same universe, selections and results, or raise the
    same exception.  Nothing of the simulation but what it wrote to
    [water/production.dcd] reaches the analysis. *)
Theorem the_analysis_depends_on_its_files_only (num : Numerics) w1 w2 :
  fs w1 !! "water/water_box.prmtop" = fs w2 !! "water/water_box.prmtop" ->
  fs w1 !! "water/production.dcd" = fs w2 !! "water/production.dcd" ->
  value_of (analyse num w1) = value_of (analyse num w2).
Proof.
  intros H1 H2. unfold analyse. apply bind_values.
  - exact (cell6_files w1 w2 H1 H2).
  - intros g6. apply blind_bind; [apply blind_cell7|intros g7].
    apply blind_bind; [apply blind_cell8|intros _; apply blind_ret].
Qed.

Lemma the_analysis_depends_on_its_files_only_witness :
  value_of (analyse Example.numerics
              (set_fs (insert "water/production.dcd" (Dcd [Example.frame])) Example.world))
  = value_of (analyse Example.numerics
                (record_event EvPlot
                   (set_fs (insert "water/production.dcd" (Dcd [Example.frame]))
                      Example.world))).
Proof.
  apply the_analysis_depends_on_its_files_only; reflexivity.
Defined.

